(** * InsightsWorkbook: a shallow embedding of [insightsworkbook.py]

    The class [InsightsWorkbook] edits the JSON document of an ArcGIS
    Insights workbook and talks to the GIS server through the connection
    object of the ArcGIS API for Python.

    - Python values are the JSON fragment the class manipulates: [None],
      booleans, integers, strings, lists and dictionaries with string keys.
      A dictionary is an association list in insertion order (the order
      [json.dumps] writes).  Floating-point numbers are left out.
    - Text is a Rocq [string], read as ASCII text; [lower] and [title] act
      on the letters A-Z and a-z.
    - [props] is a tree: the document [json.loads] or [new] produces.  An
      in-place edit at a path is the functional update at that path.
      Where Python stores one object in two places ([aggregate] puts the
      input's data into the new tool, [update_dataset] the answered data
      ID into every reference) the tree holds equal copies.  A string is
      as good as its copy; a dictionary held twice is not once one holder
      is assigned into, so what is proved of the assignments in
      [update_dataset] is proved of documents whose references are
      strings.
    - The server, the layer properties and [random.randrange] are inputs:
      the connection's answers are fields of [GIS], the layer's extent a
      field of [Item], the random draw an argument.
    - Every method returns its result or the exception it raises, the
      [props] it leaves behind and the events (requests sent, lines
      printed) in the order they happen. *)

From Stdlib Require Import List String Ascii ZArith NArith Bool Lia DecimalString.
Import ListNotations.
Open Scope string_scope.
Set Warnings "-register-all".

(** ** Python values, exceptions and results *)

Inductive value : Type :=
| VNone
| VBool (b : bool)
| VInt (n : Z)
| VStr (s : string)
| VList (l : list value)
| VDict (d : list (string * value)).

Inductive exn : Type :=
| KeyError
| TypeError
| IndexError
| AttributeError
| HTTPError
| Exception
| OtherError (name : string).

Inductive res (A : Type) : Type :=
| Ok (a : A)
| Raise (e : exn).
Arguments Ok {A} a.
Arguments Raise {A} e.

Definition rbind {A B} (r : res A) (k : A -> res B) : res B :=
  match r with
  | Ok a => k a
  | Raise e => Raise e
  end.

Notation "'let*' x ':=' r 'in' k" := (rbind r (fun x => k))
  (at level 10, x pattern, r at level 100, k at level 200).

(** ** Strings *)

Module Str.

Definition dq : string := String "034"%char EmptyString.
Definition quoted (s : string) : string := dq ++ s ++ dq.

(** [str(n)] *)
Definition of_Z (n : Z) : string := NilZero.string_of_int (Z.to_int n).

(** [s.find(sub)] *)
Definition find (s sub : string) : Z :=
  match String.index 0 sub s with
  | Some i => Z.of_nat i
  | None => (-1)%Z
  end.

(** [s[:k]] *)
Definition slice_to (s : string) (k : Z) : string :=
  if (0 <=? k)%Z then substring 0 (Z.to_nat k) s
  else substring 0 (Z.to_nat (Z.of_nat (String.length s) + k)) s.

Definition is_upper (c : ascii) : bool :=
  let n := nat_of_ascii c in (65 <=? n)%nat && (n <=? 90)%nat.
Definition is_lower (c : ascii) : bool :=
  let n := nat_of_ascii c in (97 <=? n)%nat && (n <=? 122)%nat.
Definition lower_char (c : ascii) : ascii :=
  if is_upper c then ascii_of_nat (nat_of_ascii c + 32) else c.
Definition upper_char (c : ascii) : ascii :=
  if is_lower c then ascii_of_nat (nat_of_ascii c - 32) else c.

(** [s.lower()] *)
Fixpoint lower (s : string) : string :=
  match s with
  | EmptyString => EmptyString
  | String c s' => String (lower_char c) (lower s')
  end.

Fixpoint title_from (previous_is_cased : bool) (s : string) : string :=
  match s with
  | EmptyString => EmptyString
  | String c s' =>
      String (if previous_is_cased then lower_char c else upper_char c)
             (title_from (is_upper c || is_lower c) s')
  end.

(** [s.title()] *)
Definition title (s : string) : string := title_from false s.

Definition hex_digit (n : N) : ascii :=
  match String.get (N.to_nat n) "0123456789abcdef" with
  | Some c => c
  | None => "0"%char
  end.

Fixpoint hex_aux (fuel : nat) (n : N) : string :=
  match fuel with
  | O => EmptyString
  | S f =>
      if (n <? 16)%N then String (hex_digit n) EmptyString
      else hex_aux f (n / 16) ++ String (hex_digit (n mod 16)) EmptyString
  end.

(** ['%x' % n] *)
Definition hex (n : N) : string := hex_aux (S (N.to_nat (N.size n))) n.

(** the number a string of hexadecimal digits denotes *)
Definition digit_value (c : ascii) : N :=
  let n := N_of_ascii c in if (97 <=? n)%N then (n - 87)%N else (n - 48)%N.

Fixpoint hex_value_from (acc : N) (s : string) : N :=
  match s with
  | EmptyString => acc
  | String c s' => hex_value_from (16 * acc + digit_value c) s'
  end.

Definition hex_value (s : string) : N := hex_value_from 0 s.

Fixpoint zeros (k : nat) : string :=
  match k with
  | O => EmptyString
  | S k' => String "0"%char (zeros k')
  end.

(** ['%0wx' % n] *)
Definition fmt_x (w : nat) (n : N) : string :=
  let s := hex n in zeros (w - String.length s) ++ s.

Fixpoint join (sep : string) (l : list string) : string :=
  match l with
  | [] => EmptyString
  | [s] => s
  | s :: l' => s ++ sep ++ join sep l'
  end.

Fixpoint chars (s : string) : list string :=
  match s with
  | EmptyString => []
  | String c s' => String c EmptyString :: chars s'
  end.

Definition is_hex_char (c : ascii) : bool :=
  let n := nat_of_ascii c in
  ((48 <=? n)%nat && (n <=? 57)%nat) || ((97 <=? n)%nat && (n <=? 102)%nat).

Fixpoint all_chars (p : ascii -> bool) (s : string) : bool :=
  match s with
  | EmptyString => true
  | String c s' => p c && all_chars p s'
  end.

End Str.

(** ** Dictionaries in insertion order *)

Module Dict.

Definition t : Type := list (string * value).

Fixpoint get (k : string) (d : t) : option value :=
  match d with
  | [] => None
  | (k', v) :: d' => if String.eqb k k' then Some v else get k d'
  end.

(** [d[k] = v]: an existing key keeps its place, a new key goes last. *)
Fixpoint set (k : string) (v : value) (d : t) : t :=
  match d with
  | [] => [(k, v)]
  | (k', v') :: d' =>
      if String.eqb k k' then (k', v) :: d' else (k', v') :: set k v d'
  end.

Definition mem (k : string) (d : t) : bool :=
  match get k d with Some _ => true | None => false end.

Definition keys (d : t) : list string := map fst d.

(** A dictionary display [{k1: v1, k2: v2, ...}]. *)
Definition literal (kvs : list (string * value)) : t :=
  fold_left (fun d kv => set (fst kv) (snd kv) d) kvs [].

End Dict.

(** ** The operations of Python the class uses *)

Module Py.

(** [a == b] *)
Fixpoint eq (a b : value) {struct a} : bool :=
  match a, b with
  | VNone, VNone => true
  | VBool x, VBool y => Bool.eqb x y
  | VBool x, VInt n => Z.eqb (if x then 1 else 0) n
  | VInt n, VBool x => Z.eqb n (if x then 1 else 0)
  | VInt n, VInt m => Z.eqb n m
  | VStr s, VStr s' => String.eqb s s'
  | VList l, VList l' =>
      (fix eq_list (l l' : list value) {struct l} : bool :=
         match l, l' with
         | [], [] => true
         | x :: r, y :: r' => eq x y && eq_list r r'
         | _, _ => false
         end) l l'
  | VDict d, VDict d' =>
      Nat.eqb (List.length d) (List.length d') &&
      (fix eq_items (d : list (string * value)) {struct d} : bool :=
         match d with
         | [] => true
         | (k, x) :: r =>
             match Dict.get k d' with
             | Some y => eq x y
             | None => false
             end && eq_items r
         end) d
  | _, _ => false
  end.

(** [bool(v)] *)
Definition truthy (v : value) : bool :=
  match v with
  | VNone => false
  | VBool b => b
  | VInt n => negb (Z.eqb n 0)
  | VStr s => negb (String.eqb s "")
  | VList l => match l with [] => false | _ => true end
  | VDict d => match d with [] => false | _ => true end
  end.

(** [v[k]] for a string [k] *)
Definition getitem (v : value) (k : string) : res value :=
  match v with
  | VDict d => match Dict.get k d with Some x => Ok x | None => Raise KeyError end
  | _ => Raise TypeError
  end.

(** [v[i]] for an index [i >= 0] *)
Definition getitem_int (v : value) (i : nat) : res value :=
  match v with
  | VList l => match nth_error l i with Some x => Ok x | None => Raise IndexError end
  | VStr s =>
      match String.get i s with
      | Some c => Ok (VStr (String c EmptyString))
      | None => Raise IndexError
      end
  | VDict _ => Raise KeyError
  | _ => Raise TypeError
  end.

(** [v[k] = x] for a string [k] *)
Definition setitem (k : string) (x : value) (v : value) : res value :=
  match v with
  | VDict d => Ok (VDict (Dict.set k x d))
  | _ => Raise TypeError
  end.

(** [v.append(x)] *)
Definition append (x : value) (v : value) : res value :=
  match v with
  | VList l => Ok (VList (l ++ [x]))
  | _ => Raise AttributeError
  end.

(** [len(v)] *)
Definition len (v : value) : res nat :=
  match v with
  | VList l => Ok (List.length l)
  | VStr s => Ok (String.length s)
  | VDict d => Ok (List.length d)
  | _ => Raise TypeError
  end.

(** [k in v] for a string [k] *)
Definition contains (k : string) (v : value) : res bool :=
  match v with
  | VDict d => Ok (Dict.mem k d)
  | VStr s => Ok (0 <=? Str.find s k)%Z
  | VList l => Ok (existsb (eq (VStr k)) l)
  | _ => Raise TypeError
  end.

(** the elements [for x in v] visits *)
Definition iter (v : value) : res (list value) :=
  match v with
  | VList l => Ok l
  | VDict d => Ok (map VStr (Dict.keys d))
  | VStr s => Ok (map VStr (Str.chars s))
  | _ => Raise TypeError
  end.

(** [v.keys()] *)
Definition keys (v : value) : res (list string) :=
  match v with
  | VDict d => Ok (Dict.keys d)
  | _ => Raise AttributeError
  end.

(** [v.find(sub)] *)
Definition find (v : value) (sub : string) : res Z :=
  match v with
  | VStr s => Ok (Str.find s sub)
  | _ => Raise AttributeError
  end.

(** the string operand of a concatenation ['...' + v + '...'] *)
Definition as_str (v : value) : res string :=
  match v with
  | VStr s => Ok s
  | _ => Raise TypeError
  end.

(** ["message" + sys.exc_info()[0]]: the right operand is the exception's
    class, and [str + type] is a [TypeError]. *)
Definition str_add_exc_type (msg : string) (e : exn) : res string :=
  Raise TypeError.

(** The object reached by [v[k]], edited in place by [f]. *)
Definition at_key (k : string) (f : value -> res value) (v : value) : res value :=
  match v with
  | VDict d =>
      match Dict.get k d with
      | Some x => let* x' := f x in Ok (VDict (Dict.set k x' d))
      | None => Raise KeyError
      end
  | _ => Raise TypeError
  end.

Fixpoint list_set (i : nat) (x : value) (l : list value) : list value :=
  match l, i with
  | [], _ => []
  | _ :: r, O => x :: r
  | y :: r, S i' => y :: list_set i' x r
  end.

(** The object reached by [v[i]], edited in place by [f]; indexing a string
    gives a fresh one-character string. *)
Definition at_index (i : nat) (f : value -> res value) (v : value) : res value :=
  match v with
  | VList l =>
      match nth_error l i with
      | Some x => let* x' := f x in Ok (VList (list_set i x' l))
      | None => Raise IndexError
      end
  | VStr s =>
      match String.get i s with
      | Some c => let* _ := f (VStr (String c EmptyString)) in Ok v
      | None => Raise IndexError
      end
  | VDict _ => Raise KeyError
  | _ => Raise TypeError
  end.

Fixpoint filter (p : value -> res bool) (l : list value) : res (list value) :=
  match l with
  | [] => Ok []
  | x :: r =>
      let* b := p x in
      let* r' := filter p r in
      Ok (if b then x :: r' else r')
  end.

End Py.

(** ** [json.dumps] *)

Module Json.

Definition hex4 (n : nat) : string := Str.fmt_x 4 (N.of_nat n).

Definition escape_char (c : ascii) : string :=
  let n := nat_of_ascii c in
  if Nat.eqb n 34 then "\" ++ Str.dq
  else if Nat.eqb n 92 then "\\"
  else if Nat.eqb n 8 then "\b"
  else if Nat.eqb n 12 then "\f"
  else if Nat.eqb n 10 then "\n"
  else if Nat.eqb n 13 then "\r"
  else if Nat.eqb n 9 then "\t"
  else if (n <? 32)%nat || (126 <? n)%nat then "\u" ++ hex4 n
  else String c EmptyString.

Fixpoint escape (s : string) : string :=
  match s with
  | EmptyString => EmptyString
  | String c s' => escape_char c ++ escape s'
  end.

Definition dumps_str (s : string) : string := Str.quoted (escape s).

Fixpoint dumps (v : value) : string :=
  match v with
  | VNone => "null"
  | VBool true => "true"
  | VBool false => "false"
  | VInt n => Str.of_Z n
  | VStr s => dumps_str s
  | VList l => "[" ++ Str.join ", " (map dumps l) ++ "]"
  | VDict d =>
      "{" ++ Str.join ", "
               (map (fun kv => dumps_str (fst kv) ++ ": " ++ dumps (snd kv)) d)
          ++ "}"
  end.

End Json.

(** ** Events and the method monad *)

Inductive event : Type :=
| Post (url : string) (data : value)
| Get (url : string) (params : value)
| UpdateItem (item_id : value) (item_properties : value) (text : string)
| Print (msg : string).

(** A computation over a state [S] (the [props] of [self], or nothing for
    the class methods): result or exception, final state, events. *)
Definition M (S A : Type) : Type := S -> res A * S * list event.

Definition ret {S A} (a : A) : M S A := fun s => (Ok a, s, []).
Definition raise {S A} (e : exn) : M S A := fun s => (Raise e, s, []).
Definition lift {S A} (r : res A) : M S A := fun s => (r, s, []).

Definition bind {S A B} (m : M S A) (k : A -> M S B) : M S B :=
  fun s =>
    match m s with
    | (Ok a, s', l) => let '(r, s'', l') := k a s' in (r, s'', (l ++ l')%list)
    | (Raise e, s', l) => (Raise e, s', l)
    end.

Notation "x <- m ;; k" := (bind m (fun x => k))
  (at level 100, m at next level, right associativity).
Notation "m ;;; k" := (bind m (fun _ => k))
  (at level 100, right associativity).

(** [try: m except: h] with the edits [m] made before it failed kept. *)
Definition try_except {S A} (m : M S A) (h : exn -> M S A) : M S A :=
  fun s =>
    match m s with
    | (Ok a, s', l) => (Ok a, s', l)
    | (Raise e, s', l) => let '(r, s'', l') := h e s' in (r, s'', (l ++ l')%list)
    end.

Definition emit {S} (ev : event) : M S unit := fun s => (Ok tt, s, [ev]).
Definition print {S} (msg : string) : M S unit := emit (Print msg).

(** [emits P m]: every event of a run of [m] satisfies [P]. *)
Definition emits {S A} (P : event -> Prop) (m : M S A) : Prop :=
  forall s, Forall P (snd (m s)).

Fixpoint for_each {S A} (l : list A) (body : A -> M S unit) : M S unit :=
  match l with
  | [] => ret tt
  | x :: r => body x ;;; for_each r body
  end.

(** ** The objects of the ArcGIS API for Python *)

(** [arcgis.gis.GIS]: [_url], [_portal.url], [_portal._properties['id']],
    [users.me.username] and what the server answers to
    [_portal.con.post], [_portal.con.get] and [_portal.update_item]. *)
Record GIS : Type := {
  _url : string;
  portal_url : string;
  portal_properties_id : string;
  username : string;
  con_post : string -> value -> res value;
  con_get : string -> value -> res value;
  portal_update_item : value -> value -> string -> res value
}.

(** [arcgis.gis.Item]: a workbook item or a feature layer item;
    [extent sublayer] is
    [json.loads(lyr.layers[sublayer].properties.extent.__repr__())]. *)
Record Item : Type := {
  item_gis : GIS;
  title : string;
  name : string;
  id : string;
  url : string;
  extent : Z -> res value
}.

Record InsightsWorkbook : Type := {
  _gis : GIS;
  _title : value;
  _agol : bool;
  _workbookID : value;
  _workspaceID : value;
  _workspaceURL : value;
  props : value
}.

Definition with_props (self : InsightsWorkbook) (p : value) : InsightsWorkbook :=
  {| _gis := _gis self;
     _title := _title self;
     _agol := _agol self;
     _workbookID := _workbookID self;
     _workspaceID := _workspaceID self;
     _workspaceURL := _workspaceURL self;
     props := p |}.

(** the methods of an instance run over [self] *)
Definition method (A : Type) : Type := M InsightsWorkbook A.

(** an attribute of [self] *)
Definition attr {A} (f : InsightsWorkbook -> A) : method A :=
  fun self => (Ok (f self), self, []).

(** an expression that reads [self.props] *)
Definition read {A} (f : value -> res A) : method A :=
  fun self => (f (props self), self, []).

(** a statement that edits [self.props] in place *)
Definition edit (f : value -> res value) : method unit :=
  fun self =>
    match f (props self) with
    | Ok p' => (Ok tt, with_props self p', [])
    | Raise e => (Raise e, self, [])
    end.

Definition post {S} (gis : GIS) (path : string) (data : value) : M S value :=
  fun s => (con_post gis path data, s, [Post path data]).

Definition get {S} (gis : GIS) (path : string) (params : value) : M S value :=
  fun s => (con_get gis path params, s, [Get path params]).

Definition update_item {S} (gis : GIS) (item_id item_properties : value)
    (text : string) : M S value :=
  fun s => (portal_update_item gis item_id item_properties text, s,
            [UpdateItem item_id item_properties text]).

Definition is_arcgis_com (gis : GIS) : bool :=
  (0 <=? Str.find (_url gis) "arcgis.com")%Z.

Definition __init__ (gis : GIS) (title workbook_id workspace_id workspace_url
    props : value) : InsightsWorkbook :=
  {| _gis := gis;
     _title := title;
     _agol := is_arcgis_com gis;
     _workbookID := workbook_id;
     _workspaceID := workspace_id;
     _workspaceURL := workspace_url;
     props := props |}.

(** Hosted service URL, which differs between Portal and AGOL. *)
Definition insights_service_url (gis : GIS) : string :=
  if is_arcgis_com gis
  then "https://insightsservices.arcgis.com/" ++ portal_properties_id gis
       ++ "/arcgis/rest/services/"
  else Str.lower (_url gis) ++ "/arcgis/rest/services/Hosted/".

(** The default JSON data properties of a workbook item. *)
Definition default_props (title : value) : value :=
  VDict (Dict.literal [
    ("format", VInt 9);
    ("title", title);
    ("pages", VList [VDict (Dict.literal [
        ("title", VStr "Page 1");
        ("model", VDict (Dict.literal [("items", VList [])]));
        ("cards", VList []);
        ("layout", VList []);
        ("contents", VList [])])]);
    ("activePage", VInt 0);
    ("workspace", VDict (Dict.literal [("datasets", VDict (Dict.literal []))]));
    ("_ssl", VBool true);
    ("created", VInt 0);
    ("modified", VInt 0);
    ("guid", VNone);
    ("type", VStr "Insights Workbook");
    ("typeKeywords", VList [VStr "Application"; VStr "ArcGIS";
                            VStr "Insights Workbook"; VStr "Hosted Service"]);
    ("description", VNone);
    ("tags", VList []);
    ("snippet", VNone);
    ("thumbnail", VNone);
    ("documentation", VNone);
    ("extent", VList []);
    ("categories", VList []);
    ("spatialReference", VNone);
    ("accessInformation", VNone);
    ("licenseInfo", VNone);
    ("culture", VStr "english (united states)");
    ("properties", VNone);
    ("proxyFilter", VNone);
    ("access", VStr "private");
    ("size", VInt 0);
    ("appCategories", VList []);
    ("industries", VList []);
    ("languages", VList []);
    ("largeThumbnail", VNone);
    ("banner", VNone);
    ("screenshots", VList []);
    ("listed", VBool false);
    ("ownerFolder", VNone);
    ("protected", VBool false);
    ("commentsEnabled", VBool true);
    ("numComments", VInt 0);
    ("numRatings", VInt 0);
    ("avgRating", VInt 0);
    ("numViews", VInt 3);
    ("itemControl", VStr "admin");
    ("scoreCompleteness", VInt 0);
    ("groupDesignations", VNone)]).

(** ** The class methods [new] and [open] *)

Definition new_path (gis : GIS) : string :=
  portal_url gis ++ "/sharing/rest/content/users/" ++ username gis
  ++ "/createService".

Definition new_post_data (workbook_id : string) : value :=
  VDict (Dict.literal [
    ("f", VStr "json");
    ("createParameters",
     VStr ("{" ++ Str.quoted "name" ++ ": " ++ Str.dq ++ workbook_id
           ++ Str.dq ++ "}"));
    ("targetType", VStr "workspaceService")]).

Definition new_item_props (gis : GIS) (workspace_id title : value)
    (workspace_url : string) : value :=
  let item_props := Dict.literal [
    ("f", VStr "json");
    ("id", workspace_id);
    ("type", VStr "Insights Workbook");
    ("title", title)] in
  VDict (if is_arcgis_com gis
         then Dict.set "url" (VStr workspace_url) item_props
         else item_props).

(** [InsightsWorkbook.new(gis, title)]; [rnd] is the value drawn by
    [random.randrange(16**8)]. *)
Definition new (gis : GIS) (title : value) (rnd : N)
    : M unit InsightsWorkbook :=
  let workbook_id := Str.fmt_x 8 rnd in
  let workspace_url :=
    insights_service_url gis ++ workbook_id ++ "/WorkspaceServer" in
  let path := new_path gis in
  let post_data := new_post_data workbook_id in
  try_except
    (resp <- post gis path post_data ;;
     workspace_id <- lift (if is_arcgis_com gis
                           then Py.getitem resp "serviceItemId"
                           else Py.getitem resp "itemId") ;;
     let item_props := new_item_props gis workspace_id title workspace_url in
     let props := default_props title in
     update_item gis workspace_id item_props (Json.dumps props) ;;;
     ret (__init__ gis title (VStr workbook_id) workspace_id
            (VStr workspace_url) props))
    (fun e =>
       msg <- lift (Py.str_add_exc_type "Error creating workbook: " e) ;;
       print msg ;;;
       raise Exception).

Definition open_path (gis : GIS) (workspace_id : string) : string :=
  Str.lower (_url gis) ++ "/sharing/rest/content/items/" ++ workspace_id
  ++ "/data".

(** [InsightsWorkbook.open(existing_workbook)] *)
Definition open (existing_workbook : Item) : M unit InsightsWorkbook :=
  let gis := item_gis existing_workbook in
  let title := title existing_workbook in
  let workbook_id := name existing_workbook in
  let workspace_url :=
    insights_service_url gis ++ workbook_id ++ "/WorkspaceServer" in
  let workspace_id := id existing_workbook in
  let path := open_path gis workspace_id in
  try_except
    (resp <- get gis path (VDict (Dict.literal [("f", VStr "json")])) ;;
     let props := resp in
     ret (__init__ gis (VStr title) (VStr workbook_id) (VStr workspace_id)
            (VStr workspace_url) props))
    (fun e =>
       msg <- lift (Py.str_add_exc_type "Error retrieving workbook data: " e) ;;
       print msg ;;;
       raise Exception).

(** ** Paths into [props] *)

Definition page0 (p : value) : res value :=
  let* pages := Py.getitem p "pages" in Py.getitem_int pages 0.

(** [self.props['pages'][0][key]] *)
Definition page0_field (key : string) (p : value) : res value :=
  let* pg := page0 p in Py.getitem pg key.

Definition page0_cards (p : value) : res value := page0_field "cards" p.

Definition model_items (p : value) : res value :=
  let* pg := page0 p in
  let* model := Py.getitem pg "model" in
  Py.getitem model "items".

Definition datasets (p : value) : res value :=
  let* ws := Py.getitem p "workspace" in Py.getitem ws "datasets".

Definition dataset_entry (ds : string) (p : value) : res value :=
  let* dss := datasets p in Py.getitem dss ds.

(** [self.props['pages'][0][key].append(x)] *)
Definition append_to_page0 (key : string) (x : value) : method unit :=
  edit (Py.at_key "pages" (Py.at_index 0 (Py.at_key key (Py.append x)))).

(** [self.props['pages'][0]['model']['items'].append(x)] *)
Definition append_model_item (x : value) : method unit :=
  edit (Py.at_key "pages" (Py.at_index 0
          (Py.at_key "model" (Py.at_key "items" (Py.append x))))).

(** [self.props['workspace']['datasets'][ds] = x] *)
Definition set_dataset (ds : string) (x : value) : method unit :=
  edit (Py.at_key "workspace" (Py.at_key "datasets" (Py.setitem ds x))).

(** ** [add_feature_layer] and [update_dataset] *)

Definition add_data_tools (layer_url dataset_name : string) : string :=
  "[{" ++ Str.quoted "name" ++ ":" ++ Str.quoted "add-data" ++ ","
  ++ Str.quoted "params" ++ ":{" ++ Str.quoted "data" ++ ":{"
  ++ Str.quoted "type" ++ ":" ++ Str.quoted "feature-layer" ++ ","
  ++ Str.quoted "url" ++ ":" ++ Str.dq ++ layer_url
  ++ Str.dq ++ "}}," ++ Str.quoted "outDataset" ++ ":" ++ Str.dq
  ++ dataset_name ++ Str.dq ++ "}]".

Definition execute_post_data (layer_url dataset_name : string) : value :=
  VDict (Dict.literal [
    ("f", VStr "json");
    ("tools", VStr (add_data_tools layer_url dataset_name));
    ("outDatasets", VStr ("[" ++ Str.dq ++ dataset_name ++ Str.dq ++ "]"))]).

Definition add_data_item (layer_url dataset_name : string) : value :=
  VDict (Dict.literal [
    ("operation", VStr "add-data");
    ("params", VDict (Dict.literal [
       ("data", VDict (Dict.literal [
          ("type", VStr "feature-layer");
          ("url", VStr layer_url)]))]));
    ("outDataset", VStr dataset_name)]).

Definition layer_entry (data : value) (owner : string) (my_extent : value)
    : value :=
  VDict (Dict.literal [
    ("data", data);
    ("owner", VStr owner);
    ("fields", VDict (Dict.literal [
       ("shape", VDict (Dict.literal [("alias", VStr "Location")]))]));
    ("extent", my_extent);
    ("origin", VBool true)]).

(** [self._gis._portal.con.post(self._workspaceURL + '/execute', post_data)] *)
Definition post_execute (post_data : value) : method value :=
  gis <- attr _gis ;;
  workspace_url <- attr _workspaceURL ;;
  ws <- lift (Py.as_str workspace_url) ;;
  post gis (ws ++ "/execute") post_data.

(** [self.add_feature_layer(lyr, sublayer)]; [rnd] is the value drawn by
    [random.randrange(16**7)]. *)
Definition add_feature_layer (lyr : Item) (sublayer : Z) (rnd : N)
    : method string :=
  let dataset_name := title lyr ++ "_" ++ Str.fmt_x 7 rnd in
  let layer_url := url lyr ++ "/" ++ Str.of_Z sublayer in
  let post_data := execute_post_data layer_url dataset_name in
  try_except
    (resp <- post_execute post_data ;;
     append_model_item (add_data_item layer_url dataset_name) ;;;
     append_to_page0 "contents"
       (VDict (Dict.literal [("dataset", VStr dataset_name)])) ;;;
     my_extent <- lift (extent lyr sublayer) ;;
     data <- lift (Py.getitem resp dataset_name) ;;
     set_dataset dataset_name (layer_entry data (id lyr) my_extent) ;;;
     ret dataset_name)
    (fun e =>
       msg <- lift (Py.str_add_exc_type "Error adding feature layer: " e) ;;
       print msg ;;;
       raise Exception).

(** The condition of the comprehension that selects the model item which
    added the layer. *)
Definition is_add_op (lyr_url : string) (x : value) : res bool :=
  let* has_out := Py.contains "outDataset" x in
  if negb has_out then Ok false else
  let* has_params := Py.contains "params" x in
  if negb has_params then Ok false else
  let* params := Py.getitem x "params" in
  let* has_data := Py.contains "data" params in
  if negb has_data then Ok false else
  let* data := Py.getitem params "data" in
  let* has_url := Py.contains "url" data in
  if negb has_url then Ok false else
  let* u := Py.getitem data "url" in
  let* i := Py.find u lyr_url in
  Ok (0 <=? i)%Z.

(** [self.props['workspace']['datasets'][ds]['data']['tools']] *)
Definition dataset_tools (ds : string) (p : value) : res value :=
  let* entry := dataset_entry ds p in
  let* data := Py.getitem entry "data" in
  Py.getitem data "tools".

(** [...['tools'][i]['params']['dataset']] *)
Definition tool_dataset (ds : string) (i : nat) (p : value) : res value :=
  let* tools := dataset_tools ds p in
  let* tool := Py.getitem_int tools i in
  let* params := Py.getitem tool "params" in
  Py.getitem params "dataset".

(** [...['tools'][i]['params']['dataset'] = x] *)
Definition set_tool_dataset (ds : string) (i : nat) (x : value) : method unit :=
  edit (Py.at_key "workspace" (Py.at_key "datasets" (Py.at_key ds
          (Py.at_key "data" (Py.at_key "tools" (Py.at_index i
             (Py.at_key "params" (Py.setitem "dataset" x)))))))).

(** The body of [for ds in ...keys()]: the references of one dataset. *)
Definition replace_references (old_data resp : value) (dataset_name ds : string)
    : method unit :=
  try_except
    (ds_tools <- read (dataset_tools ds) ;;
     n <- lift (Py.len ds_tools) ;;
     for_each (seq 0 n) (fun i =>
       cur <- read (tool_dataset ds i) ;;
       if Py.eq cur old_data
       then new_data <- lift (Py.getitem resp dataset_name) ;;
            set_tool_dataset ds i new_data
       else ret tt))
    (fun e =>
       match e with
       | KeyError | TypeError => ret tt
       | _ => raise e
       end).

(** [self.update_dataset(lyr, sublayer)] *)
Definition update_dataset (lyr : Item) (sublayer : Z) : method value :=
  items <- read model_items ;;
  xs <- lift (Py.iter items) ;;
  add_op <- lift (Py.filter (is_add_op (url lyr)) xs) ;;
  match add_op with
  | op0 :: _ =>
      out <- lift (Py.getitem op0 "outDataset") ;;
      op_url <- lift (let* params := Py.getitem op0 "params" in
                      let* data := Py.getitem params "data" in
                      let* u := Py.getitem data "url" in
                      Py.as_str u) ;;
      dataset_name <- lift (Py.as_str out) ;;
      let post_data := execute_post_data op_url dataset_name in
      try_except
        (resp <- post_execute post_data ;;
         old_data <- read (fun p => let* entry := dataset_entry dataset_name p in
                                    Py.getitem entry "data") ;;
         my_extent <- lift (extent lyr sublayer) ;;
         data <- lift (Py.getitem resp dataset_name) ;;
         set_dataset dataset_name (layer_entry data (id lyr) my_extent) ;;;
         dss <- read datasets ;;
         ks <- lift (Py.keys dss) ;;
         for_each ks (replace_references old_data resp dataset_name) ;;;
         ret (VStr dataset_name))
        (fun e =>
           match e with
           | HTTPError =>
               msg <- lift (Py.str_add_exc_type
                              "Error updating feature layer: " e) ;;
               print msg ;;;
               ret VNone
           | _ => raise e
           end)
  | [] =>
      print "Layer does not exist within this Workbook" ;;;
      raise Exception
  end.

(** ** [add_map] *)

Definition layout_entry (card_ct : nat) : value :=
  VDict (Dict.literal [
    ("x", VInt (Z.of_nat (card_ct * 20 + card_ct)));
    ("y", VInt 0);
    ("w", VInt 20);
    ("h", VInt 20)]).

Definition card_title (card_ct : nat) : string :=
  "Card " ++ Str.of_Z (Z.of_nat card_ct + 1).

Definition map_card (card_ct : nat) (dataset : string) (my_extent : value)
    : value :=
  VDict (Dict.literal [
    ("type", VStr "map");
    ("title", VStr (card_title card_ct));
    ("content", VDict (Dict.literal [
       ("layers", VList [VDict (Dict.literal [("datasetId", VStr dataset)])]);
       ("extent", my_extent)]))]).

(** [self.add_map(dataset)] *)
Definition add_map (dataset : string) : method unit :=
  layer_dataset <- read (dataset_entry dataset) ;;
  if Py.truthy layer_dataset
  then
    cards <- read page0_cards ;;
    card_ct <- lift (Py.len cards) ;;
    my_extent <- read (fun p => let* entry := dataset_entry dataset p in
                                Py.getitem entry "extent") ;;
    append_to_page0 "cards" (map_card card_ct dataset my_extent) ;;;
    append_to_page0 "layout" (layout_entry card_ct)
  else
    print "Invalid dataset name" ;;;
    raise Exception.

(** ** [aggregate] and [add_chart] *)

(** [in_dataset[:in_dataset.find('_')]] *)
Definition in_dataset_base (in_dataset : string) : string :=
  Str.slice_to in_dataset (Str.find in_dataset "_").

(** [in_dataset_base + '_%07x' % random.randrange(16**7)] *)
Definition out_dataset_name (in_dataset : string) (rnd : N) : string :=
  in_dataset_base in_dataset ++ "_" ++ Str.fmt_x 7 rnd.

Definition out_field_name (stat_field stat_type : string) : string :=
  Str.lower stat_field ++ "_" ++ stat_type.

Definition out_field_type (stat_type stat_field_type : string) : string :=
  if String.eqb stat_type "count" then "esriFieldTypeInteger"
  else if String.eqb stat_type "avg" then "esriFieldTypeDouble"
  else stat_field_type.

Definition statistics (stat_type stat_field out_field : string) : value :=
  VList [VDict (Dict.literal [
    ("type", VStr stat_type);
    ("field", VStr stat_field);
    ("outField", VStr out_field)])].

Definition aggregate_item (in_dataset groupby_field stat_type stat_field
    out_field out_dataset : string) : value :=
  VDict (Dict.literal [
    ("operation", VStr "aggregate");
    ("params", VDict (Dict.literal [
       ("dataset", VStr in_dataset);
       ("groupBy", VList [VStr groupby_field]);
       ("statistics", statistics stat_type stat_field out_field);
       ("totals", VBool false)]));
    ("outDataset", VStr out_dataset)]).

Definition aggregate_tool (in_data_id : value) (groupby_field stat_type
    stat_field out_field out_dataset : string) : value :=
  VDict (Dict.literal [
    ("name", VStr "aggregate");
    ("params", VDict (Dict.literal [
       ("dataset", in_data_id);
       ("groupBy", VList [VStr groupby_field]);
       ("statistics", statistics stat_type stat_field out_field);
       ("materialize", VBool false)]));
    ("outDataset", VStr out_dataset)]).

Definition aggregate_metadata (groupby_field groupby_field_type out_field
    out_type : string) : value :=
  VDict (Dict.literal [
    ("fields", VList [
       VDict (Dict.literal [
         ("name", VStr groupby_field);
         ("alias", VStr groupby_field);
         ("type", VStr groupby_field_type);
         ("entity", VStr "e0")]);
       VDict (Dict.literal [
         ("name", VStr out_field);
         ("alias", VStr out_field);
         ("type", VStr out_type)])]);
    ("entities", VList [VDict (Dict.literal [
       ("fields", VList [VStr groupby_field; VStr out_field]);
       ("keyFields", VList [VStr groupby_field])])])]).

Definition aggregate_entry (in_data_id out_name : value) (in_dataset
    groupby_field groupby_field_type stat_type stat_field out_field out_type
    out_dataset : string) : value :=
  VDict (Dict.literal [
    ("data", VDict (Dict.literal [
       ("metadata", aggregate_metadata groupby_field groupby_field_type
                      out_field out_type);
       ("tools", VList [aggregate_tool in_data_id groupby_field stat_type
                          stat_field out_field out_dataset]);
       ("outDataset", VStr out_dataset)]));
    ("name", out_name);
    ("fields", VDict (Dict.literal [
       (out_field, VDict (Dict.literal [
          ("alias", VStr (Str.title stat_type ++ " of "
                          ++ in_dataset_base in_dataset))]));
       (groupby_field, VDict (Dict.literal []))]))]).

(** [self.aggregate(in_dataset, groupby_field, groupby_field_type,
    stat_type, stat_field, stat_field_type, out_name)]; [rnd] is the value
    drawn by [random.randrange(16**7)]. *)
Definition aggregate (in_dataset groupby_field groupby_field_type stat_type
    stat_field stat_field_type : string) (out_name : value) (rnd : N)
    : method string :=
  let out_dataset := out_dataset_name in_dataset rnd in
  let out_field := out_field_name stat_field stat_type in
  let out_type := out_field_type stat_type stat_field_type in
  append_model_item
    (aggregate_item in_dataset groupby_field stat_type stat_field out_field
       out_dataset) ;;;
  in_data_id <- read (fun p => let* entry := dataset_entry in_dataset p in
                               Py.getitem entry "data") ;;
  let out_name := if negb (Py.truthy out_name) then VStr out_dataset
                  else out_name in
  set_dataset out_dataset
    (aggregate_entry in_data_id out_name in_dataset groupby_field
       groupby_field_type stat_type stat_field out_field out_type
       out_dataset) ;;;
  ret out_dataset.

Definition chart_card (card_ct : nat) (chart_type out_dataset : string)
    : value :=
  VDict (Dict.literal [
    ("title", VStr (card_title card_ct));
    ("type", VStr "chart");
    ("content", VDict (Dict.literal [
       ("layers", VList [VDict (Dict.literal [
          ("datasetId", VStr out_dataset);
          ("chartLines", VDict (Dict.literal [("mean", VBool true)]));
          ("colors", VDict (Dict.literal []))])]);
       ("type", VStr chart_type)]))]).

(** [self.add_chart(chart_type, in_dataset, groupby_field,
    groupby_field_type, stat_type, stat_field, stat_field_type)] *)
Definition add_chart (chart_type in_dataset groupby_field groupby_field_type
    stat_type stat_field stat_field_type : string) (rnd : N) : method unit :=
  cards <- read page0_cards ;;
  card_ct <- lift (Py.len cards) ;;
  let chart_title :=
    Str.title chart_type ++ " Chart " ++ Str.of_Z (Z.of_nat card_ct + 1) in
  out_dataset <- aggregate in_dataset groupby_field groupby_field_type
                   stat_type stat_field stat_field_type (VStr chart_title)
                   rnd ;;
  append_to_page0 "cards" (chart_card card_ct chart_type out_dataset) ;;;
  append_to_page0 "layout" (layout_entry card_ct).

(** ** [save] *)

Definition save_url (gis : GIS) (workspace_id : string) : string :=
  Str.lower (_url gis) ++ "/sharing/rest/content/users/" ++ username gis
  ++ "/items/" ++ workspace_id ++ "/update".

Definition save_post_data (title props : value) : value :=
  VDict (Dict.literal [
    ("f", VStr "json");
    ("title", title);
    ("text", VStr (Json.dumps props))]).

(** [self.save()] *)
Definition save : method unit :=
  gis <- attr _gis ;;
  workspace_id <- attr _workspaceID ;;
  edit (Py.setitem "id" workspace_id) ;;;
  edit (Py.setitem "owner" (VStr (username gis))) ;;;
  workbook_id <- attr _workbookID ;;
  edit (Py.setitem "name" workbook_id) ;;;
  workspace_url <- attr _workspaceURL ;;
  edit (Py.setitem "url" workspace_url) ;;;
  title <- attr _title ;;
  p <- attr props ;;
  let post_data := save_post_data title p in
  wid <- lift (Py.as_str workspace_id) ;;
  let update_url := save_url gis wid in
  try_except
    (post gis update_url post_data ;;; ret tt)
    (fun e =>
       msg <- lift (Py.str_add_exc_type "Error saving workspace: " e) ;;
       print msg ;;;
       raise Exception).

(** [props] as [save] leaves it: [id], [owner], [name] and [url] set. *)
Definition saved_props (self : InsightsWorkbook) (d : Dict.t) : value :=
  VDict (Dict.set "url" (_workspaceURL self)
          (Dict.set "name" (_workbookID self)
            (Dict.set "owner" (VStr (username (_gis self)))
              (Dict.set "id" (_workspaceID self) d)))).

(** ** Vocabulary of the properties *)

(** [ds] is a key of [props['workspace']['datasets']]. *)
Definition is_dataset (ds : string) (p : value) : bool :=
  match datasets p with
  | Ok (VDict d) => Dict.mem ds d
  | _ => false
  end.

(** every layer of a card names, under [datasetId], a dataset of [p] *)
Definition layer_names_dataset (p : value) (layer : value) : bool :=
  match Py.getitem layer "datasetId" with
  | Ok (VStr ds) => is_dataset ds p
  | _ => false
  end.

(** [card['content']['layers']] is a non-empty list of such layers *)
Definition card_references_datasets (p : value) (card : value) : bool :=
  match (let* content := Py.getitem card "content" in
         Py.getitem content "layers") with
  | Ok (VList (layer :: layers)) =>
      forallb (layer_names_dataset p) (layer :: layers)
  | _ => false
  end.

(** [card['content']['layers'][0]['datasetId']] *)
Definition card_first_dataset (card : value) : res value :=
  let* content := Py.getitem card "content" in
  let* layers := Py.getitem content "layers" in
  let* layer := Py.getitem_int layers 0 in
  Py.getitem layer "datasetId".

(** One card was appended to page 0; its first layer names the dataset
    [ds] and all its layers name datasets of the [props] the run leaves
    behind. *)
Definition card_appended (ds : string) (self self' : InsightsWorkbook)
    : Prop :=
  exists cards card,
    page0_cards (props self) = Ok (VList cards) /\
    page0_cards (props self') = Ok (VList (cards ++ [card])) /\
    card_first_dataset card = Ok (VStr ds) /\
    card_references_datasets (props self') card = true.

(** The cards of page 0 after a run: a normal return appended one such
    card; a run that raised appended one such card or none. *)
Definition appended_card_ok {A} (ds : string) (r : res A)
    (self self' : InsightsWorkbook) : Prop :=
  match r with
  | Ok _ => card_appended ds self self'
  | Raise _ =>
      page0_cards (props self') = page0_cards (props self) \/
      card_appended ds self self'
  end.

Definition is_print (ev : event) : bool :=
  match ev with Print _ => true | _ => false end.

(** The REST endpoints of the server. *)
Inductive endpoint : Type :=
| CreateService
| UpdateItemEndpoint
| ExecuteWorkspaceTool
| GetItemData.

(** [calls self ep ev]: the event [ev] is a request of [self]'s connection
    to the endpoint [ep]. *)
Inductive calls (gis : GIS) : endpoint -> event -> Prop :=
| calls_create data :
    calls gis CreateService (Post (new_path gis) data)
| calls_update_item item_id item_properties text :
    calls gis UpdateItemEndpoint (UpdateItem item_id item_properties text)
| calls_update workspace_id data :
    calls gis UpdateItemEndpoint (Post (save_url gis workspace_id) data)
| calls_execute workspace_url data :
    calls gis ExecuteWorkspaceTool (Post (workspace_url ++ "/execute") data)
| calls_data workspace_id params :
    calls gis GetItemData (Get (open_path gis workspace_id) params).

(** every event of [log] is a printed line or a request to an endpoint of
    [allowed] *)
Definition print_or_call (gis : GIS) (allowed : list endpoint) (ev : event)
    : Prop :=
  is_print ev = true \/ exists ep, In ep allowed /\ calls gis ep ev.

Definition only_calls (gis : GIS) (allowed : list endpoint) (log : list event)
    : Prop :=
  Forall (print_or_call gis allowed) log.

(** [props] is as it was, or the request to the workspace's execute
    endpoint was sent first and answered. *)
Definition unchanged_or_answered {A} (self : InsightsWorkbook)
    (out : res A * InsightsWorkbook * list event) : Prop :=
  let '(_, self', log) := out in
  props self' = props self \/
  exists ws post_data resp rest,
    _workspaceURL self = VStr ws /\
    con_post (_gis self) (ws ++ "/execute") post_data = Ok resp /\
    log = Post (ws ++ "/execute") post_data :: rest.

(** The operation sends a request to the server. *)
Definition sends_request {A} (out : res A * InsightsWorkbook * list event)
    : Prop :=
  exists ev, In ev (snd out) /\ is_print ev = false.


(** The base name the specification describes. *)
Fixpoint before_first_underscore (s : string) : string :=
  match s with
  | EmptyString => EmptyString
  | String c s' =>
      if Ascii.eqb c "_"%char then EmptyString
      else String c (before_first_underscore s')
  end.

Fixpoint has_underscore (s : string) : bool :=
  match s with
  | EmptyString => false
  | String c s' => Ascii.eqb c "_"%char || has_underscore s'
  end.

Fixpoint without_last (s : string) : string :=
  match s with
  | EmptyString => EmptyString
  | String c EmptyString => EmptyString
  | String c s' => String c (without_last s')
  end.

Definition base_name_spec (in_dataset : string) : string :=
  if has_underscore in_dataset then before_first_underscore in_dataset
  else without_last in_dataset.

(** ** Sample objects *)

Module Sample.

Definition roads_dataset : string := "Roads_01a2b3c".

Definition answer (path : string) (data : value) : res value :=
  if (0 <=? Str.find path "/createService")%Z
  then Ok (VDict [("itemId", VStr "a1b2c3")])
  else Ok (VDict [(roads_dataset, VStr "data-2")]).

Definition portal : GIS :=
  {| _url := "https://GIS.example.org/portal";
     portal_url := "https://gis.example.org/portal";
     portal_properties_id := "0123456789ABCDEF";
     username := "analyst";
     con_post := answer;
     con_get := fun _ _ => Ok (default_props (VStr "Traffic"));
     portal_update_item := fun _ _ _ => Ok (VBool true) |}.

(** a server that is down *)
Definition offline : GIS :=
  {| _url := _url portal;
     portal_url := portal_url portal;
     portal_properties_id := portal_properties_id portal;
     username := username portal;
     con_post := fun _ _ => Raise HTTPError;
     con_get := fun _ _ => Raise HTTPError;
     portal_update_item := fun _ _ _ => Raise HTTPError |}.

Definition box : value :=
  VDict [("xmin", VInt 0); ("ymin", VInt 0); ("xmax", VInt 10);
         ("ymax", VInt 10)].

Definition roads : Item :=
  {| item_gis := portal;
     title := "Roads";
     name := "roads";
     id := "f00d";
     url := "https://gis.example.org/server/rest/services/Roads/FeatureServer";
     extent := fun _ => Ok box |}.

Definition book_item : Item :=
  {| item_gis := portal;
     title := "Traffic";
     name := "000000ff";
     id := "a1b2c3";
     url := "";
     extent := fun _ => Raise AttributeError |}.

(** a small workbook document: one page, datasets [dss] *)
Definition document (items cards layout : list value) (dss : Dict.t) : value :=
  VDict [("title", VStr "Traffic");
         ("pages", VList [VDict [("title", VStr "Page 1");
                                 ("model", VDict [("items", VList items)]);
                                 ("cards", VList cards);
                                 ("layout", VList layout);
                                 ("contents", VList [])]]);
         ("activePage", VInt 0);
         ("workspace", VDict [("datasets", VDict dss)])].

Definition workbook (gis : GIS) (p : value) : InsightsWorkbook :=
  __init__ gis (VStr "Traffic") (VStr "000000ff") (VStr "a1b2c3")
    (VStr "https://gis.example.org/portal/arcgis/rest/services/Hosted/000000ff/WorkspaceServer")
    p.

Definition empty : InsightsWorkbook := workbook portal (document [] [] [] []).


Definition roads_item : value :=
  add_data_item (url roads ++ "/0") roads_dataset.

(** the workbook after the layer was added with data ID ["data-1"] *)
Definition with_roads : InsightsWorkbook :=
  workbook portal
    (document [roads_item] [] [] [(roads_dataset, layer_entry (VStr "data-1") "f00d" box)]).

(** a derived dataset whose first tool has no [params.dataset] and whose
    second tool reads the layer's data *)
Definition joined : value :=
  VDict [("data", VDict [("tools", VList [
            VDict [("name", VStr "add-data");
                   ("params", VDict [("data", VStr "lookup")])];
            VDict [("name", VStr "aggregate");
                   ("params", VDict [("dataset", VStr "data-1")])]])])].

Definition with_joined : InsightsWorkbook :=
  workbook portal
    (document [roads_item] [] []
       [(roads_dataset, layer_entry (VStr "data-1") "f00d" box);
        ("Joined_0000001", joined)]).

End Sample.

(** ** Invariants of the document *)

Definition is_list (r : res value) : bool :=
  match r with Ok (VList _) => true | _ => false end.

Definition is_dict (r : res value) : bool :=
  match r with Ok (VDict _) => true | _ => false end.

(** The shape every method relies on: page 0 has list-valued
    [model.items], [cards], [layout] and [contents], and
    [workspace.datasets] is a dictionary. *)
Definition well_formed (p : value) : bool :=
  is_list (model_items p) && is_list (page0_field "cards" p)
  && is_list (page0_field "layout" p) && is_list (page0_field "contents" p)
  && is_dict (datasets p).

(** [keeps I m]: a run of [m] from [props] satisfying [I] leaves [props]
    satisfying [I], whatever its outcome. *)
Definition keeps {A} (I : value -> Prop) (m : method A) : Prop :=
  forall self, I (props self) -> I (props (snd (fst (m self)))).

(** ** Sessions *)

(** A call of one of the six methods of an instance, with the values drawn
    by [random.randrange] where it draws one. *)
Inductive call : Type :=
| AddFeatureLayer (lyr : Item) (sublayer : Z) (rnd : N)
| UpdateDataset (lyr : Item) (sublayer : Z)
| AddMap (dataset : string)
| Aggregate (in_dataset groupby_field groupby_field_type stat_type stat_field
             stat_field_type : string) (out_name : value) (rnd : N)
| AddChart (chart_type in_dataset groupby_field groupby_field_type stat_type
            stat_field stat_field_type : string) (rnd : N)
| Save.

(** [self] after the call, whether it returned or raised. *)
Definition after (c : call) (self : InsightsWorkbook) : InsightsWorkbook :=
  match c with
  | AddFeatureLayer lyr sublayer rnd =>
      snd (fst (add_feature_layer lyr sublayer rnd self))
  | UpdateDataset lyr sublayer => snd (fst (update_dataset lyr sublayer self))
  | AddMap dataset => snd (fst (add_map dataset self))
  | Aggregate in_dataset groupby_field groupby_field_type stat_type
      stat_field stat_field_type out_name rnd =>
      snd (fst (aggregate in_dataset groupby_field groupby_field_type
                  stat_type stat_field stat_field_type out_name rnd self))
  | AddChart chart_type in_dataset groupby_field groupby_field_type stat_type
      stat_field stat_field_type rnd =>
      snd (fst (add_chart chart_type in_dataset groupby_field
                  groupby_field_type stat_type stat_field stat_field_type
                  rnd self))
  | Save => snd (fst (save self))
  end.

(** [self] after a sequence of calls; a caller that catches an exception
    goes on with the object as the failed call left it. *)
Definition session (calls : list call) (self : InsightsWorkbook)
    : InsightsWorkbook :=
  fold_left (fun s c => after c s) calls self.

(** [self] talking to a server that answers POST requests as [answer]
    does; everything else as it is *)
Definition with_server (answer : string -> value -> res value)
    (self : InsightsWorkbook) : InsightsWorkbook :=
  {| _gis := {| _url := _url (_gis self);
                portal_url := portal_url (_gis self);
                portal_properties_id := portal_properties_id (_gis self);
                username := username (_gis self);
                con_post := answer;
                con_get := con_get (_gis self);
                portal_update_item := portal_update_item (_gis self) |};
     _title := _title self;
     _agol := _agol self;
     _workbookID := _workbookID self;
     _workspaceID := _workspaceID self;
     _workspaceURL := _workspaceURL self;
     props := props self |}.

(** the calls that place a card *)
Definition places_card (c : call) : bool :=
  match c with
  | AddMap _ | AddChart _ _ _ _ _ _ _ _ => true
  | _ => false
  end.

(** [g] stores one value under one key of a dictionary *)
Definition stores_one (g : value -> res value) : Prop :=
  forall dss dss', g dss = Ok dss' ->
    exists d k v, dss = VDict d /\ dss' = VDict (Dict.set k v d).

(** ** The parts of the document *)

(** The parts a method reads or writes: the model items, a field of page
    0, the datasets, a top-level key. *)
Inductive part : Type :=
| Items
| Field (key : string)
| Datasets
| Top (k : string).

Definition part_of (o : part) (p : value) : res value :=
  match o with
  | Items => model_items p
  | Field key => page0_field key p
  | Datasets => datasets p
  | Top k => Py.getitem p k
  end.

(** [apart w o]: writing the part [w] cannot show in the part [o]. *)
Definition apart (w o : part) : bool :=
  match w, o with
  | Items, Items => false
  | Items, Field k => negb (String.eqb k "model")
  | Field key, Items => negb (String.eqb key "model")
  | Field key, Field k => negb (String.eqb k key)
  | (Items | Field _), Datasets => true
  | (Items | Field _), Top k => negb (String.eqb k "pages")
  | Datasets, (Items | Field _) => true
  | Datasets, Datasets => false
  | Datasets, Top k => negb (String.eqb k "workspace")
  | Top k0, (Items | Field _) => negb (String.eqb k0 "pages")
  | Top k0, Datasets => negb (String.eqb k0 "workspace")
  | Top k0, Top k => negb (String.eqb k k0)
  end.

(** the parts each method writes *)
Definition writes (c : call) : list part :=
  match c with
  | AddFeatureLayer _ _ _ => [Items; Field "contents"; Datasets]
  | UpdateDataset _ _ => [Datasets]
  | AddMap _ => [Field "cards"; Field "layout"]
  | Aggregate _ _ _ _ _ _ _ _ => [Items; Datasets]
  | AddChart _ _ _ _ _ _ _ _ =>
      [Items; Datasets; Field "cards"; Field "layout"]
  | Save => [Top "id"; Top "owner"; Top "name"; Top "url"]
  end.

(** [self.props['workspace']['datasets'].keys()], in order *)
Definition dataset_names (p : value) : res (list string) :=
  let* dss := datasets p in Py.keys dss.

(** ** References to a data ID *)

(** what the loop of [update_dataset] makes of one [params.dataset] *)
Definition replace_reference (old_data new_data v : value) : value :=
  if Py.eq v old_data then new_data else v.

(** every tool of every list-valued [data.tools] has a [params.dataset] *)
Definition tools_carry_dataset (p : value) : Prop :=
  forall ds l i,
    dataset_tools ds p = Ok (VList l) -> i < List.length l ->
    exists v, tool_dataset ds i p = Ok v.

(** every such [params.dataset] is a string: no tool holds another
    dataset's data object, as a tool made by [aggregate] from an input
    whose data is itself a dictionary would *)
Definition references_are_strings (p : value) : Prop :=
  forall ds l i,
    dataset_tools ds p = Ok (VList l) -> i < List.length l ->
    exists s, tool_dataset ds i p = Ok (VStr s).

(** the one step of the inner loop of [update_dataset] *)
Definition replace_at (old_data resp : value) (dataset_name ds : string)
    (i : nat) : method unit :=
  cur <- read (tool_dataset ds i) ;;
  if Py.eq cur old_data
  then new_data <- lift (Py.getitem resp dataset_name) ;;
       set_tool_dataset ds i new_data
  else ret tt.

(** [q'] is [q0] with the references of dataset [ds] replaced: every
    [params.dataset] of its tools went through [replace_reference], a list
    of tools kept its length, and an entry without a list of tools is as it
    was. *)
Definition references_replaced (old_data new_data : value) (q0 q' : value)
    (ds : string) : Prop :=
  (forall i c, tool_dataset ds i q0 = Ok c ->
     tool_dataset ds i q' = Ok (replace_reference old_data new_data c)) /\
  (forall l, dataset_tools ds q0 = Ok (VList l) ->
     exists l', dataset_tools ds q' = Ok (VList l') /\
                List.length l' = List.length l) /\
  ((forall l, dataset_tools ds q0 <> Ok (VList l)) ->
   dataset_entry ds q' = dataset_entry ds q0).

(** ** More sample objects *)

Module Cases.

(** [Sample.with_roads] after an aggregation of the layer *)
Definition with_aggregate : InsightsWorkbook :=
  after (Aggregate Sample.roads_dataset "kind" "esriFieldTypeString" "avg"
           "LEN" "esriFieldTypeDouble" VNone 17)
    Sample.with_roads.

(** a layer whose extent cannot be read *)
Definition no_extent : Item :=
  {| item_gis := Sample.portal;
     title := "Roads";
     name := "roads";
     id := "f00d";
     url := url Sample.roads;
     extent := fun _ => Raise IndexError |}.

(** a server that knows two datasets *)
Definition two_layers : GIS :=
  {| _url := _url Sample.portal;
     portal_url := portal_url Sample.portal;
     portal_properties_id := portal_properties_id Sample.portal;
     username := username Sample.portal;
     con_post := fun _ _ =>
       Ok (VDict [(Sample.roads_dataset, VStr "data-2");
                  ("Services_0000005", VStr "data-3")]);
     con_get := con_get Sample.portal;
     portal_update_item := portal_update_item Sample.portal |}.

(** a layer whose URL is the beginning of the URL of [Sample.roads] *)
Definition services : Item :=
  {| item_gis := two_layers;
     title := "Services";
     name := "services";
     id := "beef";
     url := "https://gis.example.org/server/rest/services/Roads";
     extent := fun _ => Ok Sample.box |}.

Definition empty_two : InsightsWorkbook :=
  Sample.workbook two_layers (Sample.document [] [] [] []).

End Cases.

(** * Properties *)

(** ** Strings *)

Section Strings.

Lemma length_append (s t : string) :
  String.length (s ++ t) = String.length s + String.length t.
Proof. induction s as [|c s IH]; simpl; [reflexivity | now rewrite IH]. Qed.

Lemma all_chars_append (p : ascii -> bool) (s t : string) :
  Str.all_chars p (s ++ t) = Str.all_chars p s && Str.all_chars p t.
Proof.
  induction s as [|c s IH]; simpl; [reflexivity|].
  now rewrite IH, andb_assoc.
Qed.

Lemma length_zeros (k : nat) : String.length (Str.zeros k) = k.
Proof. induction k; simpl; congruence. Qed.

Lemma zeros_hex (k : nat) : Str.all_chars Str.is_hex_char (Str.zeros k) = true.
Proof. induction k; simpl; auto. Qed.

Lemma hex_digit_is_hex (n : N) :
  (n < 16)%N -> Str.is_hex_char (Str.hex_digit n) = true.
Proof.
  intros H. destruct n as [|p]; [reflexivity|].
  do 4 (destruct p as [p|p|]; try reflexivity); lia.
Qed.

Lemma hex_aux_is_hex (fuel : nat) :
  forall n, Str.all_chars Str.is_hex_char (Str.hex_aux fuel n) = true.
Proof.
  induction fuel as [|f IH]; intros n; simpl; [reflexivity|].
  destruct (N.ltb_spec n 16) as [Hlt|Hge]; simpl.
  - now rewrite hex_digit_is_hex.
  - rewrite all_chars_append, IH; simpl.
    rewrite hex_digit_is_hex; [reflexivity|].
    apply N.mod_lt; lia.
Qed.

Lemma hex_aux_length (fuel : nat) :
  forall (k : nat) (n : N),
    (n < 16 ^ N.of_nat (S k))%N -> String.length (Str.hex_aux fuel n) <= S k.
Proof.
  induction fuel as [|f IH]; intros k n Hn; simpl; [lia|].
  destruct (N.ltb_spec n 16) as [Hlt|Hge]; simpl; [lia|].
  rewrite length_append; simpl.
  destruct k as [|k].
  - change (16 ^ N.of_nat 1)%N with 16%N in Hn. lia.
  - assert (Hdiv : (n / 16 < 16 ^ N.of_nat (S k))%N).
    { apply N.Div0.div_lt_upper_bound.
      replace (N.of_nat (S (S k))) with (N.succ (N.of_nat (S k))) in Hn by lia.
      rewrite N.pow_succ_r' in Hn. exact Hn. }
    specialize (IH k (n / 16)%N Hdiv). lia.
Qed.

(** ['%07x' % n] is seven hexadecimal digits when [n] is a value of
    [random.randrange(16**7)]. *)
Lemma fmt_x_7 (n : N) :
  (n < 16 ^ 7)%N ->
  String.length (Str.fmt_x 7 n) = 7 /\
  Str.all_chars Str.is_hex_char (Str.fmt_x 7 n) = true.
Proof.
  intros Hn. unfold Str.fmt_x, Str.hex. split.
  - rewrite length_append, length_zeros.
    pose proof (hex_aux_length (S (N.to_nat (N.size n))) 6 n Hn). lia.
  - now rewrite all_chars_append, zeros_hex, hex_aux_is_hex.
Qed.

Lemma digit_value_hex_digit (n : N) :
  (n < 16)%N -> Str.digit_value (Str.hex_digit n) = n.
Proof.
  intros H. destruct n as [|p]; [reflexivity|].
  do 4 (destruct p as [p|p|]; try reflexivity); lia.
Qed.

Lemma hex_value_from_append (s t : string) :
  forall acc,
    Str.hex_value_from acc (s ++ t)
    = Str.hex_value_from (Str.hex_value_from acc s) t.
Proof. induction s as [|c s IH]; intros acc; simpl; auto. Qed.

Lemma hex_aux_value (fuel : nat) :
  forall n, (n < 16 ^ N.of_nat fuel)%N ->
            Str.hex_value (Str.hex_aux fuel n) = n.
Proof.
  unfold Str.hex_value.
  induction fuel as [|f IH]; intros n Hn.
  - simpl in *. lia.
  - cbn [Str.hex_aux]. destruct (N.ltb_spec n 16) as [Hlt|Hge].
    + simpl. now rewrite digit_value_hex_digit.
    + rewrite hex_value_from_append, IH.
      * cbn [Str.hex_value_from].
        rewrite digit_value_hex_digit by (apply N.mod_lt; lia).
        rewrite (N.div_mod n 16) at 3 by lia. reflexivity.
      * apply N.Div0.div_lt_upper_bound.
        replace (N.of_nat (S f)) with (N.succ (N.of_nat f)) in Hn by lia.
        now rewrite N.pow_succ_r' in Hn.
Qed.

(** ['%x' % n] denotes [n]: the digits are never cut short. *)
Lemma hex_value_hex (n : N) : Str.hex_value (Str.hex n) = n.
Proof.
  apply hex_aux_value.
  pose proof (N.size_gt n) as Hsize.
  eapply N.lt_le_trans; [exact Hsize|].
  replace (N.of_nat (S (N.to_nat (N.size n)))) with (N.succ (N.size n)) by lia.
  rewrite N.pow_succ_r'.
  transitivity (16 ^ N.size n)%N.
  - apply N.pow_le_mono_l. lia.
  - assert (0 < 16 ^ N.size n)%N by (apply N.neq_0_lt_0, N.pow_nonzero; lia).
    lia.
Qed.

Lemma prefix_underscore (c : ascii) (s : string) :
  prefix "_" (String c s) = Ascii.eqb c "_"%char.
Proof.
  cbn [prefix]. destruct (ascii_dec "_"%char c) as [E|E].
  - subst c. rewrite Ascii.eqb_refl. now destruct s.
  - symmetry. apply Ascii.eqb_neq. congruence.
Qed.

Lemma index_underscore (s : string) :
  String.index 0 "_" s =
  if has_underscore s
  then Some (String.length (before_first_underscore s))
  else None.
Proof.
  induction s as [|c s IH]; [reflexivity|].
  cbn [String.index has_underscore before_first_underscore].
  rewrite prefix_underscore.
  destruct (Ascii.eqb c "_"%char); simpl; [reflexivity|].
  rewrite IH. now destruct (has_underscore s).
Qed.

Lemma substring_before_underscore (s : string) :
  has_underscore s = true ->
  substring 0 (String.length (before_first_underscore s)) s =
  before_first_underscore s.
Proof.
  induction s as [|c s IH]; simpl; [discriminate|].
  destruct (Ascii.eqb c "_"%char); simpl; intros H; [reflexivity|].
  now rewrite IH.
Qed.

Lemma substring_0_S (m : nat) (c : ascii) (s : string) :
  substring 0 (S m) (String c s) = String c (substring 0 m s).
Proof. reflexivity. Qed.

Lemma substring_all_but_last (s : string) :
  forall c, substring 0 (String.length s) (String c s) =
            without_last (String c s).
Proof.
  induction s as [|c' s IH]; intros c; [reflexivity|].
  cbn [String.length]. rewrite substring_0_S, IH. reflexivity.
Qed.

Lemma substring_without_last (s : string) :
  substring 0 (String.length s - 1) s = without_last s.
Proof.
  destruct s as [|c s]; [reflexivity|].
  cbn [String.length]. rewrite Nat.sub_succ, Nat.sub_0_r.
  apply substring_all_but_last.
Qed.

(** The slice [in_dataset[:in_dataset.find('_')]] is the base name the
    specification describes. *)
Lemma in_dataset_base_spec (in_dataset : string) :
  in_dataset_base in_dataset = base_name_spec in_dataset.
Proof.
  unfold in_dataset_base, base_name_spec, Str.find, Str.slice_to.
  rewrite index_underscore.
  destruct (has_underscore in_dataset) eqn:E.
  - destruct (Z.leb_spec 0 (Z.of_nat (String.length
                (before_first_underscore in_dataset)))); [|lia].
    rewrite Nat2Z.id. now apply substring_before_underscore.
  - simpl.
    replace (Z.to_nat (Z.of_nat (String.length in_dataset) + -1))
      with (String.length in_dataset - 1) by lia.
    apply substring_without_last.
Qed.

End Strings.

(** ** Running a method *)

Section Runs.

Context {S : Type}.

Lemma bind_inv {A B} (m : M S A) (k : A -> M S B) s r s2 l :
  bind m k s = (r, s2, l) ->
  (exists e, m s = (Raise e, s2, l) /\ r = Raise e) \/
  (exists a s1 l1 l2,
     m s = (Ok a, s1, l1) /\ k a s1 = (r, s2, l2) /\ l = (l1 ++ l2)%list).
Proof.
  unfold bind. destruct (m s) as [[[a|e] s1] l1].
  - destruct (k a s1) as [[r' s''] l'] eqn:E. intros H.
    injection H as <- <- <-. right. exists a, s1, l1, l'. auto.
  - intros H. injection H as <- <- <-. left. eauto.
Qed.

Lemma bind_Ok {A B} (m : M S A) (k : A -> M S B) s b s2 l :
  bind m k s = (Ok b, s2, l) ->
  exists a s1 l1 l2,
    m s = (Ok a, s1, l1) /\ k a s1 = (Ok b, s2, l2) /\ l = (l1 ++ l2)%list.
Proof.
  intros H. apply bind_inv in H as [(e & _ & E)|H]; [discriminate | exact H].
Qed.

Lemma try_except_inv {A} (m : M S A) (h : exn -> M S A) s r s2 l :
  try_except m h s = (r, s2, l) ->
  (exists a, m s = (Ok a, s2, l) /\ r = Ok a) \/
  (exists e s1 l1 l2,
     m s = (Raise e, s1, l1) /\ h e s1 = (r, s2, l2) /\ l = (l1 ++ l2)%list).
Proof.
  unfold try_except. destruct (m s) as [[[a|e] s1] l1].
  - intros H. injection H as <- <- <-. left. eauto.
  - destruct (h e s1) as [[r' s''] l'] eqn:E. intros H.
    injection H as <- <- <-. right. exists e, s1, l1, l'. auto.
Qed.

Lemma ret_inv {A} (a : A) (s : S) r s' l :
  ret a s = (r, s', l) -> r = Ok a /\ s' = s /\ l = [].
Proof. unfold ret. intros H. injection H as <- <- <-. auto. Qed.

Lemma lift_inv {A} (x : res A) (s : S) r s' l :
  lift x s = (r, s', l) -> r = x /\ s' = s /\ l = [].
Proof. unfold lift. intros H. injection H as <- <- <-. auto. Qed.

Lemma emits_ret {A} P (a : A) : emits P (@ret S A a).
Proof. intros s. constructor. Qed.

Lemma emits_raise {A} P e : emits P (@raise S A e).
Proof. intros s. constructor. Qed.

Lemma emits_lift {A} P (r : res A) : emits P (@lift S A r).
Proof. intros s. constructor. Qed.

Lemma emits_emit P ev : P ev -> emits P (@emit S ev).
Proof. intros H s. simpl. auto. Qed.

Lemma emits_bind {A B} P (m : M S A) (k : A -> M S B) :
  emits P m -> (forall a, emits P (k a)) -> emits P (bind m k).
Proof.
  intros Hm Hk s. unfold bind. specialize (Hm s).
  destruct (m s) as [[[a|e] s1] l1]; simpl in *; [|exact Hm].
  specialize (Hk a s1). destruct (k a s1) as [[r s2] l2]; simpl in *.
  apply Forall_app. auto.
Qed.

Lemma emits_try_except {A} P (m : M S A) (h : exn -> M S A) :
  emits P m -> (forall e, emits P (h e)) -> emits P (try_except m h).
Proof.
  intros Hm Hh s. unfold try_except. specialize (Hm s).
  destruct (m s) as [[[a|e] s1] l1]; simpl in *; [exact Hm|].
  specialize (Hh e s1). destruct (h e s1) as [[r s2] l2]; simpl in *.
  apply Forall_app. auto.
Qed.

Lemma emits_for_each {A} P (l : list A) (body : A -> M S unit) :
  (forall a, emits P (body a)) -> emits P (for_each l body).
Proof.
  intros Hb. induction l as [|x r IH]; simpl.
  - apply emits_ret.
  - apply emits_bind; auto.
Qed.

Lemma emits_post P gis path data :
  P (Post path data) -> emits P (@post S gis path data).
Proof. intros H s. simpl. auto. Qed.

Lemma emits_get P gis path params :
  P (Get path params) -> emits P (@get S gis path params).
Proof. intros H s. simpl. auto. Qed.

Lemma emits_update_item P gis i ip text :
  P (UpdateItem i ip text) -> emits P (@update_item S gis i ip text).
Proof. intros H s. simpl. auto. Qed.

End Runs.

Lemma emits_attr {A} P (f : InsightsWorkbook -> A) : emits P (attr f).
Proof. intros s. constructor. Qed.

Lemma emits_read {A} P (f : value -> res A) : emits P (read f).
Proof. intros s. constructor. Qed.

Lemma emits_edit P (f : value -> res value) : emits P (edit f).
Proof. intros s. unfold edit. destruct (f (props s)); constructor. Qed.

Lemma read_inv {A} (f : value -> res A) self r self' l :
  read f self = (r, self', l) -> r = f (props self) /\ self' = self /\ l = [].
Proof. unfold read. intros H. injection H as <- <- <-. auto. Qed.

Lemma attr_inv {A} (f : InsightsWorkbook -> A) self r self' l :
  attr f self = (r, self', l) -> r = Ok (f self) /\ self' = self /\ l = [].
Proof. unfold attr. intros H. injection H as <- <- <-. auto. Qed.

Lemma edit_Ok (f : value -> res value) self u self' l :
  edit f self = (Ok u, self', l) ->
  exists p', f (props self) = Ok p' /\ self' = with_props self p' /\ l = [].
Proof.
  unfold edit. destruct (f (props self)) as [p'|e]; intros H;
    [|discriminate].
  injection H as <- <- <-. eauto.
Qed.

Lemma edit_inv (f : value -> res value) self r self' l :
  edit f self = (r, self', l) ->
  l = [] /\
  ((exists e, f (props self) = Raise e /\ r = Raise e /\ self' = self) \/
   (exists p', f (props self) = Ok p' /\ r = Ok tt /\
               self' = with_props self p')).
Proof.
  unfold edit. destruct (f (props self)) as [p'|e]; intros H;
    injection H as <- <- <-; split; eauto.
Qed.

(** Every event of a handler that fails on its message is in any class. *)
Lemma emits_failed_print {A} P msg e (k : M InsightsWorkbook A) :
  emits P (m <- lift (Py.str_add_exc_type msg e) ;; print m ;;; k).
Proof. intros s. constructor. Qed.

Ltac emits_step :=
  first
    [ apply emits_ret | apply emits_raise | apply emits_lift
    | apply emits_attr | apply emits_read | apply emits_edit
    | apply emits_failed_print
    | apply emits_for_each; intros ?
    | apply emits_try_except; [|intros ?]
    | apply emits_bind; [|intros ?] ].

(** ** Dictionaries and paths *)

Lemma get_set_same k v d : Dict.get k (Dict.set k v d) = Some v.
Proof.
  induction d as [|[k' v'] d IH]; simpl.
  - now rewrite String.eqb_refl.
  - destruct (String.eqb k k') eqn:E; simpl; rewrite E; auto.
Qed.

Lemma get_set_other k k' v d :
  k' <> k -> Dict.get k' (Dict.set k v d) = Dict.get k' d.
Proof.
  intros Hne. induction d as [|[k0 v0] d IH]; simpl.
  - apply String.eqb_neq in Hne. now rewrite Hne.
  - destruct (String.eqb k k0) eqn:E; simpl.
    + apply String.eqb_eq in E. subst k0.
      apply String.eqb_neq in Hne. now rewrite Hne.
    + now rewrite IH.
Qed.

Lemma mem_set_same k v d : Dict.mem k (Dict.set k v d) = true.
Proof. unfold Dict.mem. now rewrite get_set_same. Qed.

Lemma mem_set_mono k k' v d :
  Dict.mem k' d = true -> Dict.mem k' (Dict.set k v d) = true.
Proof.
  unfold Dict.mem. destruct (String.eqb_spec k' k) as [->|Hne].
  - now rewrite get_set_same.
  - now rewrite get_set_other.
Qed.

Lemma at_key_Ok k f v v' :
  Py.at_key k f v = Ok v' ->
  exists d x x',
    v = VDict d /\ Dict.get k d = Some x /\ f x = Ok x' /\
    v' = VDict (Dict.set k x' d).
Proof.
  destruct v as [| | | | |d]; try discriminate. simpl.
  destruct (Dict.get k d) as [x|] eqn:E; [|discriminate].
  destruct (f x) as [x'|] eqn:F; [|discriminate].
  intros H. injection H as <-. eauto 8.
Qed.

Lemma getitem_set_same k x d : Py.getitem (VDict (Dict.set k x d)) k = Ok x.
Proof. simpl. now rewrite get_set_same. Qed.

Lemma getitem_set_other k k' x d :
  k' <> k -> Py.getitem (VDict (Dict.set k x d)) k' = Py.getitem (VDict d) k'.
Proof. intros H. simpl. now rewrite get_set_other. Qed.

(** an edit below [v[k]] leaves the other keys of [v] alone *)
Lemma at_key_other k k' f v v' :
  Py.at_key k f v = Ok v' -> k' <> k -> Py.getitem v' k' = Py.getitem v k'.
Proof.
  intros H Hne. apply at_key_Ok in H as (d & x & x' & -> & _ & _ & ->).
  now apply getitem_set_other.
Qed.

Lemma at_key_same k f v v' :
  Py.at_key k f v = Ok v' ->
  exists x x', Py.getitem v k = Ok x /\ f x = Ok x' /\ Py.getitem v' k = Ok x'.
Proof.
  intros H. apply at_key_Ok in H as (d & x & x' & -> & G & F & ->).
  exists x, x'. simpl. now rewrite G, get_set_same.
Qed.

Lemma at_index0_key_Ok k f v v' :
  Py.at_index 0 (Py.at_key k f) v = Ok v' ->
  exists x x',
    Py.getitem_int v 0 = Ok x /\ Py.at_key k f x = Ok x' /\
    Py.getitem_int v' 0 = Ok x'.
Proof.
  destruct v as [| | |s|l|d]; try discriminate; simpl.
  - destruct (String.get 0 s); discriminate.
  - destruct l as [|x l]; [discriminate|]. simpl.
    destruct (Py.at_key k f x) as [x'|] eqn:F; [|discriminate].
    intros H. injection H as <-. exists x, x'. auto.
Qed.

(** the effect of [self.props['pages'][0][key].append(x)] *)
Lemma append_to_page0_Ok key x p p' :
  Py.at_key "pages" (Py.at_index 0 (Py.at_key key (Py.append x))) p = Ok p' ->
  (exists l, page0_field key p = Ok (VList l) /\
             page0_field key p' = Ok (VList (l ++ [x]))) /\
  (forall key', key' <> key -> page0_field key' p' = page0_field key' p) /\
  (forall k, k <> "pages" -> Py.getitem p' k = Py.getitem p k).
Proof.
  intros H. split; [|split].
  - apply at_key_same in H as (pages & pages' & G & H & G').
    apply at_index0_key_Ok in H as (pg & pg' & I & H & I').
    apply at_key_same in H as (c & c' & J & H & J').
    destruct c as [| | | |l|]; try discriminate. injection H as <-.
    exists l. unfold page0_field, page0.
    rewrite G, G'. simpl. rewrite I, I'. simpl. auto.
  - intros key' Hne. apply at_key_same in H as (pages & pages' & G & H & G').
    apply at_index0_key_Ok in H as (pg & pg' & I & H & I').
    unfold page0_field, page0. rewrite G, G'. simpl. rewrite I, I'. simpl.
    now apply at_key_other with (k' := key') in H.
  - intros k Hne. now apply at_key_other with (k' := k) in H.
Qed.

(** the effect of [self.props['pages'][0]['model']['items'].append(x)] *)
Lemma append_model_item_Ok x p p' :
  Py.at_key "pages" (Py.at_index 0
    (Py.at_key "model" (Py.at_key "items" (Py.append x)))) p = Ok p' ->
  (forall key', key' <> "model" -> page0_field key' p' = page0_field key' p) /\
  (forall k, k <> "pages" -> Py.getitem p' k = Py.getitem p k).
Proof.
  intros H. split.
  - intros key' Hne. apply at_key_same in H as (pages & pages' & G & H & G').
    apply at_index0_key_Ok in H as (pg & pg' & I & H & I').
    unfold page0_field, page0. rewrite G, G'. simpl. rewrite I, I'. simpl.
    now apply at_key_other with (k' := key') in H.
  - intros k Hne. now apply at_key_other with (k' := k) in H.
Qed.

Lemma datasets_of_workspace p p' :
  Py.getitem p' "workspace" = Py.getitem p "workspace" ->
  datasets p' = datasets p.
Proof. unfold datasets. now intros ->. Qed.

Lemma page0_of_pages p p' :
  Py.getitem p' "pages" = Py.getitem p "pages" ->
  forall key, page0_field key p' = page0_field key p.
Proof. unfold page0_field, page0. now intros ->. Qed.

(** the effect of [self.props['workspace']['datasets'][ds] = x] *)
Lemma set_dataset_Ok ds x p p' :
  Py.at_key "workspace" (Py.at_key "datasets" (Py.setitem ds x)) p = Ok p' ->
  dataset_entry ds p' = Ok x /\
  is_dataset ds p' = true /\
  (forall ds', is_dataset ds' p = true -> is_dataset ds' p' = true) /\
  (forall k, k <> "workspace" -> Py.getitem p' k = Py.getitem p k).
Proof.
  intros H. split; [|split; [|split]].
  4: { intros k Hne. now apply at_key_other with (k' := k) in H. }
  all: apply at_key_same in H as (ws & ws' & G & H & G');
    apply at_key_same in H as (dss & dss' & I & H & I');
    destruct dss as [| | | | |d]; try discriminate; injection H as <-;
    unfold dataset_entry, is_dataset, datasets; rewrite ?G, ?G'; simpl;
    rewrite ?I, ?I'; simpl.
  - now rewrite get_set_same.
  - apply mem_set_same.
  - intros ds'. apply mem_set_mono.
Qed.

(** ** [aggregate] *)

Lemma props_with_props self p : props (with_props self p) = p.
Proof. reflexivity. Qed.

Lemma is_dataset_of_entry ds p x :
  dataset_entry ds p = Ok x -> is_dataset ds p = true.
Proof.
  unfold dataset_entry, is_dataset.
  destruct (datasets p) as [[| | | | |d]|e]; try discriminate. simpl.
  unfold Dict.mem. destruct (Dict.get ds d); [reflexivity | discriminate].
Qed.

Lemma no_entry_of_non_dataset ds p :
  is_dataset ds p = false -> exists e, dataset_entry ds p = Raise e.
Proof.
  unfold dataset_entry, is_dataset.
  destruct (datasets p) as [[| | | | |d]|e]; simpl; eauto.
  unfold Dict.mem. destruct (Dict.get ds d); [discriminate | eauto].
Qed.

Section Aggregate.

Variables in_dataset groupby_field groupby_field_type stat_type stat_field
  stat_field_type : string.
Variable out_name : value.
Variable rnd : N.

Let out_dataset := out_dataset_name in_dataset rnd.
Let out_field := out_field_name stat_field stat_type.
Let out_type := out_field_type stat_type stat_field_type.
Let shown_name := if negb (Py.truthy out_name) then VStr out_dataset
                  else out_name.

(** What a run of [aggregate] leaves behind: no event, the page fields
    other than [model] as they were, the datasets it found still there;
    a normal return gives the new name and stores the entry under it. *)
Lemma aggregate_inv self r self' log :
  aggregate in_dataset groupby_field groupby_field_type stat_type stat_field
    stat_field_type out_name rnd self = (r, self', log) ->
  log = [] /\
  (forall key, key <> "model" ->
     page0_field key (props self') = page0_field key (props self)) /\
  (forall ds, is_dataset ds (props self) = true ->
     is_dataset ds (props self') = true) /\
  (forall name, r = Ok name ->
     name = out_dataset /\
     exists entry in_data_id,
       dataset_entry in_dataset (props self) = Ok entry /\
       Py.getitem entry "data" = Ok in_data_id /\
       dataset_entry name (props self') =
       Ok (aggregate_entry in_data_id shown_name in_dataset groupby_field
             groupby_field_type stat_type stat_field out_field out_type
             out_dataset)).
Proof.
  unfold aggregate, append_model_item, set_dataset. intros H.
  apply bind_inv in H as [(e & H & ->)|(u & s1 & l1 & l2 & H1 & H & ->)].
  { apply edit_inv in H as (-> & [(e' & _ & _ & ->)|(p' & _ & ? & _)]);
      [|discriminate].
    repeat split; intros; auto; discriminate. }
  apply edit_Ok in H1 as (p1 & E1 & -> & ->).
  apply append_model_item_Ok in E1 as (Hpage & Hkeys).
  assert (Hds : datasets p1 = datasets (props self)).
  { apply datasets_of_workspace, Hkeys. discriminate. }
  apply bind_inv in H as [(e & H & ->)|(d & s2 & l3 & l4 & H2 & H & ->)].
  { apply read_inv in H as (_ & -> & ->). simpl.
    repeat split; intros; auto; try discriminate.
    unfold is_dataset. now rewrite Hds. }
  apply read_inv in H2 as (E2 & -> & ->). simpl in E2.
  apply bind_inv in H as [(e & H & ->)|(u' & s3 & l5 & l6 & H3 & H & ->)].
  { apply edit_inv in H as (-> & [(e' & _ & _ & ->)|(p' & _ & ? & _)]);
      [|discriminate].
    simpl. repeat split; intros; auto; try discriminate.
    unfold is_dataset. now rewrite Hds. }
  apply edit_Ok in H3 as (p2 & E3 & -> & ->). simpl in E3.
  apply ret_inv in H as (-> & -> & ->). simpl.
  apply set_dataset_Ok in E3 as (Hentry & Hnew & Hmono & Hkeys2).
  repeat split; auto.
  - intros key Hne. rewrite <- Hpage by exact Hne.
    apply page0_of_pages, Hkeys2. discriminate.
  - intros ds Hin. apply Hmono. unfold is_dataset. now rewrite Hds.
  - now injection H.
  - injection H as <-.
    unfold dataset_entry in E2 |- *. rewrite Hds in E2.
    destruct (let* dss := datasets (props self) in Py.getitem dss in_dataset)
      as [entry|] eqn:E; [|discriminate].
    exists entry, d. simpl in E2. auto.
Qed.

End Aggregate.

(** ** Inverting a run step by step *)

Lemma raise_inv {S A} (e : exn) (s : S) (r : res A) s' l :
  raise e s = (r, s', l) -> r = Raise e /\ s' = s /\ l = [].
Proof. unfold raise. intros H. injection H as <- <- <-. auto. Qed.

Lemma emit_inv {S} (ev : event) (s : S) r s' l :
  emit ev s = (r, s', l) -> r = Ok tt /\ s' = s /\ l = [ev].
Proof. unfold emit. intros H. injection H as <- <- <-. auto. Qed.

Lemma post_inv {S} gis path data (s : S) r s' l :
  post gis path data s = (r, s', l) ->
  r = con_post gis path data /\ s' = s /\ l = [Post path data].
Proof. unfold post. intros H. injection H as <- <- <-. auto. Qed.

Lemma get_inv {S} gis path params (s : S) r s' l :
  get gis path params s = (r, s', l) ->
  r = con_get gis path params /\ s' = s /\ l = [Get path params].
Proof. unfold get. intros H. injection H as <- <- <-. auto. Qed.

Lemma update_item_inv {S} gis i ip text (s : S) r s' l :
  update_item gis i ip text s = (r, s', l) ->
  r = portal_update_item gis i ip text /\ s' = s /\
  l = [UpdateItem i ip text].
Proof. unfold update_item. intros H. injection H as <- <- <-. auto. Qed.

Ltac run_step :=
  match goal with
  | H : bind _ _ _ = _ |- _ =>
      apply bind_inv in H as [(? & H & ?)|(? & ? & ? & ? & ? & H & ?)];
      cbv beta in H; subst
  | H : try_except _ _ _ = _ |- _ =>
      apply try_except_inv in H as [(? & H & ?)|(? & ? & ? & ? & ? & H & ?)];
      cbv beta in H; subst
  | H : read _ _ = _ |- _ => apply read_inv in H as (? & ? & ?); subst
  | H : attr _ _ = _ |- _ => apply attr_inv in H as (? & ? & ?); subst
  | H : lift _ _ = _ |- _ => apply lift_inv in H as (? & ? & ?); subst
  | H : ret _ _ = _ |- _ => apply ret_inv in H as (? & ? & ?); subst
  | H : raise _ _ = _ |- _ => apply raise_inv in H as (? & ? & ?); subst
  | H : print _ _ = _ |- _ => apply emit_inv in H as (? & ? & ?); subst
  | H : emit _ _ = _ |- _ => apply emit_inv in H as (? & ? & ?); subst
  | H : edit _ _ = _ |- _ =>
      apply edit_inv in H as (? & [(? & ? & ? & ?)|(? & ? & ? & ?)]); subst
  | H : post _ _ _ _ = _ |- _ => apply post_inv in H as (? & ? & ?); subst
  | H : get _ _ _ _ = _ |- _ => apply get_inv in H as (? & ? & ?); subst
  | H : update_item _ _ _ _ _ = _ |- _ =>
      apply update_item_inv in H as (? & ? & ?); subst
  | H : _ = Py.str_add_exc_type _ _ |- _ => unfold Py.str_add_exc_type in H
  | H : Ok _ = Raise _ |- _ => discriminate H
  | H : Raise _ = Ok _ |- _ => discriminate H
  | H : Ok _ = Ok _ |- _ => injection H as H; try subst
  | H : Raise _ = Raise _ |- _ => injection H as H; try subst
  end.

Ltac run_inv := repeat run_step.

(** ** Cards *)

Lemma is_dataset_of_workspace ds p p' :
  Py.getitem p' "workspace" = Py.getitem p "workspace" ->
  is_dataset ds p' = is_dataset ds p.
Proof.
  intros H. unfold is_dataset. now rewrite (datasets_of_workspace _ _ H).
Qed.

Lemma map_card_references p card_ct dataset my_extent :
  card_references_datasets p (map_card card_ct dataset my_extent) =
  is_dataset dataset p.
Proof.
  unfold card_references_datasets, layer_names_dataset. simpl.
  apply andb_true_r.
Qed.

Lemma chart_card_references p card_ct chart_type out_dataset :
  card_references_datasets p (chart_card card_ct chart_type out_dataset) =
  is_dataset out_dataset p.
Proof.
  unfold card_references_datasets, layer_names_dataset. simpl.
  apply andb_true_r.
Qed.

Lemma add_map_cards dataset self r self' log :
  add_map dataset self = (r, self', log) ->
  appended_card_ok dataset r self self'.
Proof.
  unfold add_map, append_to_page0, appended_card_ok, card_appended. intros H.
  run_inv. 1: now left.
  destruct (Py.truthy _); run_inv; try (left; reflexivity).
  all: simpl in *; try right.
  all: match goal with
       | H : Py.at_key "pages" (Py.at_index 0 (Py.at_key "cards" _)) _ = Ok _
         |- _ => apply append_to_page0_Ok in H as ((l & Hl & Hl') & Hf & Hk)
       end.
  all: match goal with
       | H : Ok _ = dataset_entry _ _ |- _ =>
           symmetry in H; apply is_dataset_of_entry in H
       end.
  - exists l; eexists; split; [exact Hl | split; [exact Hl'|]].
    split; [reflexivity|].
    rewrite map_card_references, (is_dataset_of_workspace _ _ _ (Hk "workspace" ltac:(discriminate))).
    assumption.
  - match goal with
    | H : Py.at_key "pages" (Py.at_index 0 (Py.at_key "layout" _)) _ = Ok _
      |- _ => apply append_to_page0_Ok in H as (_ & Hf2 & Hk2)
    end.
    exists l; eexists; split; [exact Hl | split].
    + unfold page0_cards. rewrite Hf2 by discriminate. exact Hl'.
    + split; [reflexivity|].
      rewrite map_card_references,
        (is_dataset_of_workspace _ _ _ (Hk2 "workspace" ltac:(discriminate))),
        (is_dataset_of_workspace _ _ _ (Hk "workspace" ltac:(discriminate))).
      assumption.
Qed.

Lemma add_chart_cards chart_type in_dataset groupby_field groupby_field_type
    stat_type stat_field stat_field_type rnd self r self' log :
  add_chart chart_type in_dataset groupby_field groupby_field_type stat_type
    stat_field stat_field_type rnd self = (r, self', log) ->
  appended_card_ok (out_dataset_name in_dataset rnd) r self self'.
Proof.
  unfold add_chart, append_to_page0, appended_card_ok, card_appended.
  intros H.
  run_inv; try (left; reflexivity).
  all: match goal with
       | H : aggregate _ _ _ _ _ _ _ _ _ = _ |- _ =>
           apply aggregate_inv in H as (_ & Hpage & _ & Hret)
       end.
  all: try (left; apply Hpage; discriminate).
  all: destruct (Hret _ eq_refl) as (-> & entry & d & _ & _ & Hentry);
    apply is_dataset_of_entry in Hentry.
  all: simpl in *.
  all: match goal with
       | H : Py.at_key "pages" (Py.at_index 0 (Py.at_key "cards" _)) _ = Ok _
         |- _ => apply append_to_page0_Ok in H as ((l & Hl & Hl') & Hf & Hk)
       end.
  all: try right; exists l; eexists; split;
    [unfold page0_cards; rewrite <- Hpage by discriminate; exact Hl|].
  - split; [exact Hl'|]. split; [reflexivity|].
    rewrite chart_card_references,
      (is_dataset_of_workspace _ _ _ (Hk "workspace" ltac:(discriminate))).
    assumption.
  - match goal with
    | H : Py.at_key "pages" (Py.at_index 0 (Py.at_key "layout" _)) _ = Ok _
      |- _ => apply append_to_page0_Ok in H as (_ & Hf2 & Hk2)
    end.
    split.
    + unfold page0_cards. rewrite Hf2 by discriminate. exact Hl'.
    + split; [reflexivity|].
      rewrite chart_card_references,
        (is_dataset_of_workspace _ _ _ (Hk2 "workspace" ltac:(discriminate))),
        (is_dataset_of_workspace _ _ _ (Hk "workspace" ltac:(discriminate))).
      assumption.
Qed.

(** ** [add_feature_layer] *)

Lemma post_execute_run post_data self :
  post_execute post_data self =
  match _workspaceURL self with
  | VStr ws => (con_post (_gis self) (ws ++ "/execute") post_data, self,
                [Post (ws ++ "/execute") post_data])
  | _ => (Raise TypeError, self, [])
  end.
Proof.
  unfold post_execute, bind, attr, lift, post.
  destruct (_workspaceURL self); reflexivity.
Qed.

Lemma post_execute_inv post_data self r self' log :
  post_execute post_data self = (r, self', log) ->
  self' = self /\
  ((r = Raise TypeError /\ log = []) \/
   exists ws, _workspaceURL self = VStr ws /\
              r = con_post (_gis self) (ws ++ "/execute") post_data /\
              log = [Post (ws ++ "/execute") post_data]).
Proof.
  rewrite post_execute_run.
  destruct (_workspaceURL self); intros H; injection H as <- <- <-; eauto 8.
Qed.

(** A normal return of [add_feature_layer]: the request was answered, the
    layer's extent was read and the entry is stored under the new name. *)
Lemma add_feature_layer_Ok lyr sublayer rnd self name self' log :
  add_feature_layer lyr sublayer rnd self = (Ok name, self', log) ->
  let layer_url := url lyr ++ "/" ++ Str.of_Z sublayer in
  name = title lyr ++ "_" ++ Str.fmt_x 7 rnd /\
  exists ws resp data my_extent,
    _workspaceURL self = VStr ws /\
    con_post (_gis self) (ws ++ "/execute") (execute_post_data layer_url name)
      = Ok resp /\
    Py.getitem resp name = Ok data /\
    extent lyr sublayer = Ok my_extent /\
    log = [Post (ws ++ "/execute") (execute_post_data layer_url name)] /\
    dataset_entry name (props self') = Ok (layer_entry data (id lyr) my_extent).
Proof.
  unfold add_feature_layer, append_model_item, append_to_page0, set_dataset.
  intros H. run_inv.
  match goal with
  | H : post_execute _ _ = _ |- _ =>
      apply post_execute_inv in H as (-> & [(? & _)|(ws & Hws & Hresp & ->)]);
      [discriminate|]
  end.
  simpl in *.
  match goal with
  | H : Py.at_key "workspace" _ _ = Ok _ |- _ =>
      apply set_dataset_Ok in H as (Hentry & _)
  end.
  split; [reflexivity|]. eauto 12.
Qed.

(** ** Datasets and cards after a call *)

(** C6. After a normal return of [add_feature_layer] or [aggregate] the
    returned name is a key of [props['workspace']['datasets']].  For
    [add_feature_layer] the entry under it holds the data the server
    answered for that name, the layer's id as owner, the layer's extent and
    [origin] set to [True]; for [aggregate] the entry's [data.tools] is one
    [aggregate] tool whose [params.dataset] is the data of the input
    dataset. *)
Theorem returned_name_is_dataset :
  (forall lyr sublayer rnd self name self' log,
     add_feature_layer lyr sublayer rnd self = (Ok name, self', log) ->
     is_dataset name (props self') = true /\
     exists ws resp data my_extent entry,
       _workspaceURL self = VStr ws /\
       con_post (_gis self) (ws ++ "/execute")
         (execute_post_data (url lyr ++ "/" ++ Str.of_Z sublayer) name)
         = Ok resp /\
       Py.getitem resp name = Ok data /\
       extent lyr sublayer = Ok my_extent /\
       dataset_entry name (props self') = Ok entry /\
       Py.getitem entry "data" = Ok data /\
       Py.getitem entry "owner" = Ok (VStr (id lyr)) /\
       Py.getitem entry "extent" = Ok my_extent /\
       Py.getitem entry "origin" = Ok (VBool true)) /\
  (forall in_dataset groupby_field groupby_field_type stat_type stat_field
          stat_field_type out_name rnd self name self' log,
     aggregate in_dataset groupby_field groupby_field_type stat_type
       stat_field stat_field_type out_name rnd self = (Ok name, self', log) ->
     is_dataset name (props self') = true /\
     exists in_entry in_data_id tool,
       dataset_entry in_dataset (props self) = Ok in_entry /\
       Py.getitem in_entry "data" = Ok in_data_id /\
       dataset_tools name (props self') = Ok (VList [tool]) /\
       Py.getitem tool "name" = Ok (VStr "aggregate") /\
       tool_dataset name 0 (props self') = Ok in_data_id).
Proof.
  split.
  - intros lyr sublayer rnd self name self' log H.
    apply add_feature_layer_Ok in H
      as (_ & ws & resp & data & ext & Hws & Hpost & Hdata & Hext & _ & Hentry).
    split; [now apply is_dataset_of_entry in Hentry|].
    exists ws, resp, data, ext, (layer_entry data (id lyr) ext).
    repeat split; auto.
  - intros in_dataset groupby_field groupby_field_type stat_type stat_field
      stat_field_type out_name rnd self name self' log H.
    apply aggregate_inv in H as (_ & _ & _ & Hret).
    destruct (Hret name eq_refl) as (-> & entry & d & Hin & Hd & Hentry).
    split; [now apply is_dataset_of_entry in Hentry|].
    exists entry, d. eexists. split; [exact Hin|]. split; [exact Hd|].
    unfold tool_dataset, dataset_tools. rewrite Hentry.
    repeat split.
Qed.

Lemma returned_name_is_dataset_witness :
  is_dataset Sample.roads_dataset
    (props (snd (fst (add_feature_layer Sample.roads 0 1715004 Sample.empty))))
  = true /\
  is_dataset "Roads_0000011"
    (props (snd (fst (aggregate Sample.roads_dataset "kind"
                        "esriFieldTypeString" "avg" "LEN"
                        "esriFieldTypeDouble" VNone 17 Sample.with_roads))))
  = true.
Proof.
  split.
  - pose (run := add_feature_layer Sample.roads 0 1715004 Sample.empty).
    refine (proj1 (proj1 returned_name_is_dataset Sample.roads 0%Z
                     1715004%N Sample.empty Sample.roads_dataset
                     (snd (fst run)) (snd run) _)).
    vm_compute. reflexivity.
  - pose (run := aggregate Sample.roads_dataset "kind" "esriFieldTypeString"
                   "avg" "LEN" "esriFieldTypeDouble" VNone 17
                   Sample.with_roads).
    refine (proj1 (proj2 returned_name_is_dataset Sample.roads_dataset "kind"
                     "esriFieldTypeString" "avg" "LEN" "esriFieldTypeDouble"
                     VNone 17%N Sample.with_roads "Roads_0000011"
                     (snd (fst run)) (snd run) _)).
    vm_compute. reflexivity.
Defined.

(** C7. Every card [add_map] or [add_chart] appends to
    [props['pages'][0]['cards']] has a non-empty [content.layers] whose
    entries each carry a [datasetId] that is a key of
    [props['workspace']['datasets']]; the first layer names the dataset
    given to [add_map], and for [add_chart] the aggregation dataset it
    just created.  A normal return appended exactly one such card, and a
    run that raised appended one such card or none. *)
Theorem appended_cards_reference_datasets :
  (forall dataset self r self' log,
     add_map dataset self = (r, self', log) ->
     appended_card_ok dataset r self self') /\
  (forall chart_type in_dataset groupby_field groupby_field_type stat_type
          stat_field stat_field_type rnd self r self' log,
     add_chart chart_type in_dataset groupby_field groupby_field_type
       stat_type stat_field stat_field_type rnd self = (r, self', log) ->
     appended_card_ok (out_dataset_name in_dataset rnd) r self self').
Proof.
  split.
  - exact add_map_cards.
  - exact add_chart_cards.
Qed.

Lemma appended_cards_reference_datasets_witness :
  card_appended Sample.roads_dataset Sample.with_roads
    (snd (fst (add_map Sample.roads_dataset Sample.with_roads))) /\
  card_appended "Roads_0000011" Sample.with_roads
    (snd (fst (add_chart "bar" Sample.roads_dataset "kind"
                 "esriFieldTypeString" "avg" "LEN" "esriFieldTypeDouble" 17
                 Sample.with_roads))).
Proof.
  split.
  - pose (run := add_map Sample.roads_dataset Sample.with_roads).
    refine (proj1 appended_cards_reference_datasets Sample.roads_dataset
              Sample.with_roads (Ok tt) (snd (fst run)) (snd run) _).
    vm_compute. reflexivity.
  - pose (run := add_chart "bar" Sample.roads_dataset "kind"
                   "esriFieldTypeString" "avg" "LEN" "esriFieldTypeDouble" 17
                   Sample.with_roads).
    refine (proj2 appended_cards_reference_datasets "bar"
              Sample.roads_dataset "kind" "esriFieldTypeString" "avg" "LEN"
              "esriFieldTypeDouble" 17%N Sample.with_roads (Ok tt)
              (snd (fst run)) (snd run) _).
    vm_compute. reflexivity.
Defined.

(** C9. When [dataset] is not a key of [props['workspace']['datasets']],
    [add_map(dataset)] raises and leaves [self] as it was: no card, no
    layout entry, nothing printed. *)
Theorem add_map_unknown_dataset (dataset : string) (self : InsightsWorkbook) :
  is_dataset dataset (props self) = false ->
  exists e, add_map dataset self = (Raise e, self, []).
Proof.
  intros H. apply no_entry_of_non_dataset in H as (e & H).
  exists e. unfold add_map, bind, read. now rewrite H.
Qed.

Lemma add_map_unknown_dataset_witness :
  exists e, add_map "Rivers_0000001" Sample.with_roads
            = (Raise e, Sample.with_roads, []).
Proof.
  apply (add_map_unknown_dataset "Rivers_0000001" Sample.with_roads).
  reflexivity.
Defined.

(** ** [new] and [open] *)

(** A normal return of [new]: both requests were answered and the object
    holds the default document. *)
Lemma new_Ok gis ttl rnd wb u log :
  new gis ttl rnd tt = (Ok wb, u, log) ->
  let workbook_id := Str.fmt_x 8 rnd in
  let workspace_url :=
    insights_service_url gis ++ workbook_id ++ "/WorkspaceServer" in
  exists resp workspace_id answer,
    con_post gis (new_path gis) (new_post_data workbook_id) = Ok resp /\
    (if is_arcgis_com gis then Py.getitem resp "serviceItemId"
     else Py.getitem resp "itemId") = Ok workspace_id /\
    portal_update_item gis workspace_id
      (new_item_props gis workspace_id ttl workspace_url)
      (Json.dumps (default_props ttl)) = Ok answer /\
    wb = __init__ gis ttl (VStr workbook_id) workspace_id (VStr workspace_url)
           (default_props ttl) /\
    log = [Post (new_path gis) (new_post_data workbook_id);
           UpdateItem workspace_id
             (new_item_props gis workspace_id ttl workspace_url)
             (Json.dumps (default_props ttl))].
Proof.
  unfold new. intros H. run_inv. simpl. eauto 10.
Qed.

(** A normal return of [open]: the request was answered and the object
    holds the answer. *)
Lemma open_Ok existing_workbook wb u log :
  open existing_workbook tt = (Ok wb, u, log) ->
  let gis := item_gis existing_workbook in
  let path := open_path gis (id existing_workbook) in
  let params := VDict (Dict.literal [("f", VStr "json")]) in
  con_get gis path params = Ok (props wb) /\ log = [Get path params].
Proof.
  unfold open. intros H. run_inv. simpl. auto.
Qed.

(** C4. The workbook [new(gis, title)] returns holds the default document:
    its title is the given title, it has exactly one page, titled
    "Page 1", whose model items, cards, layout and contents are empty,
    its active page is 0 and [workspace.datasets] is an empty mapping. *)
Theorem new_returns_default_document gis ttl rnd wb u log :
  new gis ttl rnd tt = (Ok wb, u, log) ->
  props wb = default_props ttl /\
  Py.getitem (props wb) "title" = Ok ttl /\
  Py.getitem (props wb) "pages"
  = Ok (VList [VDict [("title", VStr "Page 1");
                      ("model", VDict [("items", VList [])]);
                      ("cards", VList []);
                      ("layout", VList []);
                      ("contents", VList [])]]) /\
  Py.getitem (props wb) "activePage" = Ok (VInt 0) /\
  datasets (props wb) = Ok (VDict []).
Proof.
  intros H. apply new_Ok in H as (resp & wid & ans & _ & _ & _ & -> & _).
  repeat split.
Qed.

Lemma new_returns_default_document_witness :
  exists wb,
    fst (fst (new Sample.portal (VStr "Traffic") 255 tt)) = Ok wb /\
    props wb = default_props (VStr "Traffic").
Proof.
  pose (run := new Sample.portal (VStr "Traffic") 255 tt).
  exists (__init__ Sample.portal (VStr "Traffic") (VStr "000000ff")
            (VStr "a1b2c3")
            (VStr "https://gis.example.org/portal/arcgis/rest/services/Hosted/000000ff/WorkspaceServer")
            (default_props (VStr "Traffic"))).
  split; [vm_compute; reflexivity|].
  refine (proj1 (new_returns_default_document Sample.portal (VStr "Traffic")
                   255%N _ tt (snd run) _)).
  vm_compute. reflexivity.
Defined.

(** ** [save] *)

Lemma save_run self d wid :
  props self = VDict d ->
  _workspaceID self = VStr wid ->
  save self =
  (match con_post (_gis self) (save_url (_gis self) wid)
           (save_post_data (_title self) (saved_props self d)) with
   | Ok _ => Ok tt
   | Raise _ => Raise TypeError
   end,
   with_props self (saved_props self d),
   [Post (save_url (_gis self) wid)
      (save_post_data (_title self) (saved_props self d))]).
Proof.
  destruct self as [g t a wb ws wu p]. simpl. intros -> ->.
  unfold save, saved_props, bind, attr, edit, lift, try_except, post, ret.
  simpl.
  destruct (con_post g _ _); reflexivity.
Qed.

(** C3. [save] sets [id], [owner], [name] and [url] in [props] to the
    stored workspace ID, the user's name, the workbook ID and the
    workspace URL, and POSTs to the update endpoint of the item with the
    workspace ID a body whose [text] is the JSON serialization of the
    whole of [props] so edited and whose [title] is the stored title. *)
Theorem save_posts_current_props self d wid :
  props self = VDict d ->
  _workspaceID self = VStr wid ->
  let p' := saved_props self d in
  let update_url :=
    Str.lower (_url (_gis self)) ++ "/sharing/rest/content/users/"
    ++ username (_gis self) ++ "/items/" ++ wid ++ "/update" in
  let post_data :=
    VDict [("f", VStr "json"); ("title", _title self);
           ("text", VStr (Json.dumps p'))] in
  (exists r, save self = (r, with_props self p', [Post update_url post_data])) /\
  calls (_gis self) UpdateItemEndpoint (Post update_url post_data) /\
  Py.getitem p' "id" = Ok (VStr wid) /\
  Py.getitem p' "owner" = Ok (VStr (username (_gis self))) /\
  Py.getitem p' "name" = Ok (_workbookID self) /\
  Py.getitem p' "url" = Ok (_workspaceURL self) /\
  (forall k, k <> "id" -> k <> "owner" -> k <> "name" -> k <> "url" ->
     Py.getitem p' k = Py.getitem (VDict d) k).
Proof.
  intros Hp Hw. cbv zeta. split; [|split].
  - eexists. rewrite (save_run self d wid Hp Hw). reflexivity.
  - apply calls_update.
  - unfold saved_props. rewrite Hw. simpl.
    repeat split.
    + rewrite !get_set_other by discriminate. now rewrite get_set_same.
    + rewrite !get_set_other by discriminate. now rewrite get_set_same.
    + rewrite !get_set_other by discriminate. now rewrite get_set_same.
    + now rewrite get_set_same.
    + intros k H1 H2 H3 H4. now rewrite !get_set_other by assumption.
Qed.

Lemma save_posts_current_props_witness :
  exists d,
    props Sample.empty = VDict d /\
    exists r,
      save Sample.empty
      = (r, with_props Sample.empty (saved_props Sample.empty d),
         [Post "https://gis.example.org/portal/sharing/rest/content/users/analyst/items/a1b2c3/update"
            (VDict [("f", VStr "json"); ("title", VStr "Traffic");
                    ("text", VStr (Json.dumps (saved_props Sample.empty d)))])]).
Proof.
  eexists. split; [reflexivity|].
  exact (proj1 (save_posts_current_props Sample.empty _ "a1b2c3"
                  eq_refl eq_refl)).
Defined.

(** ** The requests of each operation *)

Lemma emits_print {S} P msg : P (Print msg) -> emits P (@print S msg).
Proof. intros H. now apply emits_emit. Qed.

Lemma emits_post_execute P post_data :
  (forall ws, P (Post (ws ++ "/execute") post_data)) ->
  emits P (post_execute post_data).
Proof.
  intros H s. rewrite post_execute_run.
  destruct (_workspaceURL s); simpl; auto.
Qed.

Lemma print_allowed gis allowed msg : print_or_call gis allowed (Print msg).
Proof. now left. Qed.

Lemma execute_allowed gis ws data :
  print_or_call gis [ExecuteWorkspaceTool] (Post (ws ++ "/execute") data).
Proof. right. exists ExecuteWorkspaceTool. split; [now left | constructor]. Qed.

Ltac emits_auto :=
  repeat first
    [ apply emits_print; apply print_allowed
    | apply emits_post_execute; intros ?; apply execute_allowed
    | emits_step
    | match goal with
      | |- emits _ (match ?x with _ => _ end) => destruct x
      | |- emits _ (if ?x then _ else _) => destruct x
      end ].

Lemma new_requests gis ttl rnd :
  emits (print_or_call gis [CreateService; UpdateItemEndpoint])
    (new gis ttl rnd).
Proof.
  unfold new. emits_auto.
  - apply emits_post. right. exists CreateService.
    split; [now left | constructor].
  - apply emits_update_item. right. exists UpdateItemEndpoint.
    split; [right; now left | constructor].
Qed.

Lemma open_requests existing_workbook :
  emits (print_or_call (item_gis existing_workbook) [GetItemData])
    (open existing_workbook).
Proof.
  unfold open. emits_auto.
  apply emits_get. right. exists GetItemData.
  split; [now left | constructor].
Qed.

Lemma add_feature_layer_requests gis lyr sublayer rnd :
  emits (print_or_call gis [ExecuteWorkspaceTool])
    (add_feature_layer lyr sublayer rnd).
Proof.
  unfold add_feature_layer, append_model_item, append_to_page0, set_dataset.
  emits_auto.
Qed.

Lemma update_dataset_requests gis lyr sublayer :
  emits (print_or_call gis [ExecuteWorkspaceTool])
    (update_dataset lyr sublayer).
Proof.
  unfold update_dataset, replace_references, set_tool_dataset, set_dataset.
  emits_auto.
Qed.

Lemma add_map_requests gis dataset :
  emits (print_or_call gis []) (add_map dataset).
Proof. unfold add_map, append_to_page0. emits_auto. Qed.

Lemma aggregate_requests gis in_dataset groupby_field groupby_field_type
    stat_type stat_field stat_field_type out_name rnd :
  emits (print_or_call gis [])
    (aggregate in_dataset groupby_field groupby_field_type stat_type
       stat_field stat_field_type out_name rnd).
Proof. unfold aggregate, append_model_item, set_dataset. emits_auto. Qed.

Lemma add_chart_requests gis chart_type in_dataset groupby_field
    groupby_field_type stat_type stat_field stat_field_type rnd :
  emits (print_or_call gis [])
    (add_chart chart_type in_dataset groupby_field groupby_field_type
       stat_type stat_field stat_field_type rnd).
Proof.
  unfold add_chart, append_to_page0. emits_auto.
Qed.

Lemma save_requests self :
  only_calls (_gis self) [UpdateItemEndpoint] (snd (save self)).
Proof.
  destruct self as [g t a wb ws wu p].
  unfold save, only_calls, bind, attr, edit, lift, try_except, post, ret.
  simpl.
  destruct p; simpl; try constructor.
  destruct ws; simpl; try constructor.
  - destruct (con_post g _ _); simpl; (constructor; [|constructor]);
      right; exists UpdateItemEndpoint; (split; [now left | constructor]).
Qed.

Lemma only_calls_of_emits {S A} gis allowed (m : M S A) (s : S) :
  emits (print_or_call gis allowed) m -> only_calls gis allowed (snd (m s)).
Proof. intros H. apply H. Qed.

(** C5. The requests of the class go to four endpoints only: [new] calls
    create service and update item, [open] calls get item data,
    [add_feature_layer] and [update_dataset] call execute workspace tool,
    [save] calls update item, and [add_map], [aggregate] and [add_chart]
    call none. *)
Theorem only_four_endpoints :
  (forall gis ttl rnd,
     only_calls gis [CreateService; UpdateItemEndpoint]
       (snd (new gis ttl rnd tt))) /\
  (forall existing_workbook,
     only_calls (item_gis existing_workbook) [GetItemData]
       (snd (open existing_workbook tt))) /\
  (forall lyr sublayer rnd self,
     only_calls (_gis self) [ExecuteWorkspaceTool]
       (snd (add_feature_layer lyr sublayer rnd self))) /\
  (forall lyr sublayer self,
     only_calls (_gis self) [ExecuteWorkspaceTool]
       (snd (update_dataset lyr sublayer self))) /\
  (forall self, only_calls (_gis self) [UpdateItemEndpoint] (snd (save self))) /\
  (forall dataset self,
     only_calls (_gis self) [] (snd (add_map dataset self))) /\
  (forall in_dataset groupby_field groupby_field_type stat_type stat_field
          stat_field_type out_name rnd self,
     only_calls (_gis self) []
       (snd (aggregate in_dataset groupby_field groupby_field_type stat_type
               stat_field stat_field_type out_name rnd self))) /\
  (forall chart_type in_dataset groupby_field groupby_field_type stat_type
          stat_field stat_field_type rnd self,
     only_calls (_gis self) []
       (snd (add_chart chart_type in_dataset groupby_field groupby_field_type
               stat_type stat_field stat_field_type rnd self))).
Proof.
  repeat split; intros.
  - apply only_calls_of_emits, new_requests.
  - apply only_calls_of_emits, open_requests.
  - apply only_calls_of_emits, add_feature_layer_requests.
  - apply only_calls_of_emits, update_dataset_requests.
  - apply save_requests.
  - apply only_calls_of_emits, add_map_requests.
  - apply only_calls_of_emits, aggregate_requests.
  - apply only_calls_of_emits, add_chart_requests.
Qed.

(** The requests a session really sends: one to each of the four
    endpoints. *)
Example requests_of_a_session :
  snd (new Sample.portal (VStr "Traffic") 255 tt)
  = [Post (new_path Sample.portal) (new_post_data "000000ff");
     UpdateItem (VStr "a1b2c3")
       (new_item_props Sample.portal (VStr "a1b2c3") (VStr "Traffic")
          "https://gis.example.org/portal/arcgis/rest/services/Hosted/000000ff/WorkspaceServer")
       (Json.dumps (default_props (VStr "Traffic")))] /\
  snd (open Sample.book_item tt)
  = [Get (open_path Sample.portal "a1b2c3") (VDict [("f", VStr "json")])] /\
  snd (add_feature_layer Sample.roads 0 1715004 Sample.empty)
  = [Post "https://gis.example.org/portal/arcgis/rest/services/Hosted/000000ff/WorkspaceServer/execute"
       (execute_post_data
          "https://gis.example.org/server/rest/services/Roads/FeatureServer/0"
          Sample.roads_dataset)] /\
  exists data,
    snd (save Sample.empty) = [Post (save_url Sample.portal "a1b2c3") data].
Proof.
  repeat split. eexists. vm_compute. reflexivity.
Qed.

(** ** [update_dataset] on a dataset whose first tool has no
    [params.dataset] *)

(** C8. The workbook [Sample.with_joined] holds the layer (data ID
    ["data-1"]) and a derived dataset whose tools are an [add-data] tool
    without [params.dataset] followed by an [aggregate] tool over
    ["data-1"].  [update_dataset] returns the layer's dataset name and
    stores the new data ID ["data-2"], but the [aggregate] tool still
    names ["data-1"]: the [KeyError] of the first tool ends the loop over
    that dataset's tools. *)
Theorem update_dataset_skips_later_tools :
  let run := update_dataset Sample.roads 0 Sample.with_joined in
  let after := props (snd (fst run)) in
  fst (fst run) = Ok (VStr Sample.roads_dataset) /\
  (let* entry := dataset_entry Sample.roads_dataset (props Sample.with_joined)
   in Py.getitem entry "data") = Ok (VStr "data-1") /\
  (let* entry := dataset_entry Sample.roads_dataset after
   in Py.getitem entry "data") = Ok (VStr "data-2") /\
  tool_dataset "Joined_0000001" 1 (props Sample.with_joined)
  = Ok (VStr "data-1") /\
  tool_dataset "Joined_0000001" 1 after = Ok (VStr "data-1").
Proof. vm_compute. repeat split. Qed.

(** With the same two tools in the other order the reference is
    replaced. *)
Example update_dataset_replaces_first_tool :
  let joined :=
    VDict [("data", VDict [("tools", VList [
              VDict [("name", VStr "aggregate");
                     ("params", VDict [("dataset", VStr "data-1")])];
              VDict [("name", VStr "add-data");
                     ("params", VDict [("data", VStr "lookup")])]])])] in
  let self :=
    Sample.workbook Sample.portal
      (Sample.document [Sample.roads_item] [] []
         [(Sample.roads_dataset,
           layer_entry (VStr "data-1") "f00d" Sample.box);
          ("Joined_0000001", joined)]) in
  let after := props (snd (fst (update_dataset Sample.roads 0 self))) in
  tool_dataset "Joined_0000001" 0 after = Ok (VStr "data-2").
Proof. vm_compute. reflexivity. Qed.

(** ** Requests come before edits *)

Lemma guarded_by_post_execute {A} post_data (k : value -> method A)
    (h : exn -> method A) self :
  (forall e s, exists r l, h e s = (r, s, l)) ->
  unchanged_or_answered self
    (try_except (resp <- post_execute post_data ;; k resp) h self).
Proof.
  intros Hh. unfold unchanged_or_answered, try_except, bind.
  rewrite post_execute_run.
  destruct (_workspaceURL self) as [| | |ws| |] eqn:Hws;
    try (destruct (Hh TypeError self) as (r & lg & ->); simpl; now left).
  destruct (con_post (_gis self) (ws ++ "/execute") post_data) as [resp|e]
    eqn:Hpost.
  - destruct (k resp self) as [[[a|e] s1] l1] eqn:Hk.
    + right. exists ws, post_data, resp, l1. auto.
    + destruct (Hh e s1) as (r & lg & ->).
      right. exists ws, post_data, resp, (l1 ++ lg)%list. auto.
  - destruct (Hh e self) as (r & lg & ->). simpl. now left.
Qed.

Lemma add_feature_layer_order lyr sublayer rnd self :
  unchanged_or_answered self (add_feature_layer lyr sublayer rnd self).
Proof.
  unfold add_feature_layer. apply guarded_by_post_execute.
  intros e s. eexists _, _. reflexivity.
Qed.

Lemma order_after_read {A B} (f : value -> res A) (k : A -> method B) self :
  (forall a, unchanged_or_answered self (k a self)) ->
  unchanged_or_answered self (bind (read f) k self).
Proof.
  intros H. unfold bind, read. destruct (f (props self)) as [a|e].
  - specialize (H a). now destruct (k a self) as [[r s] l].
  - now left.
Qed.

Lemma order_after_lift {A B} (x : res A) (k : A -> method B) self :
  (forall a, unchanged_or_answered self (k a self)) ->
  unchanged_or_answered self (bind (lift x) k self).
Proof.
  intros H. unfold bind, lift. destruct x as [a|e].
  - specialize (H a). now destruct (k a self) as [[r s] l].
  - now left.
Qed.

Lemma update_dataset_order lyr sublayer self :
  unchanged_or_answered self (update_dataset lyr sublayer self).
Proof.
  unfold update_dataset.
  apply order_after_read. intros items.
  apply order_after_lift. intros xs.
  apply order_after_lift. intros [|op0 rest].
  - now left.
  - apply order_after_lift. intros out.
    apply order_after_lift. intros op_url.
    apply order_after_lift. intros dataset_name.
    apply guarded_by_post_execute.
    intros [] s; eexists _, _; reflexivity.
Qed.

Lemma no_request_of_only_calls gis log :
  only_calls gis [] log -> forallb is_print log = true.
Proof.
  intros H. apply forallb_forall. intros ev Hin.
  unfold only_calls in H. rewrite Forall_forall in H.
  destruct (H ev Hin) as [Hp|(ep & [] & _)]. exact Hp.
Qed.

Lemma card_appended_changes ds self self' :
  card_appended ds self self' -> props self' <> props self.
Proof.
  intros (cards & card & H & H' & _) E. rewrite E, H in H'.
  injection H' as H'. apply (f_equal (@List.length value)) in H'.
  rewrite length_app in H'. simpl in H'. lia.
Qed.

(** C2, as the code has it.  [new] and [open] build the workbook object
    after their requests ([new]: create service, then update item; [open]:
    get item data).  [add_feature_layer] and [update_dataset] leave [props]
    as it was unless their request to the execute endpoint was sent first
    and answered.  [save] edits [props] first and then sends them.
    [add_map], [aggregate] and [add_chart] send no request, and a normal
    return of [add_map] or [add_chart] has edited [props]. *)
Theorem requests_and_edits :
  (forall gis ttl rnd wb u log,
     new gis ttl rnd tt = (Ok wb, u, log) ->
     exists data item_id item_properties text,
       log = [Post (new_path gis) data;
              UpdateItem item_id item_properties text]) /\
  (forall existing_workbook wb u log,
     open existing_workbook tt = (Ok wb, u, log) ->
     exists params,
       log = [Get (open_path (item_gis existing_workbook)
                     (id existing_workbook)) params] /\
       con_get (item_gis existing_workbook)
         (open_path (item_gis existing_workbook) (id existing_workbook))
         params = Ok (props wb)) /\
  (forall lyr sublayer rnd self,
     unchanged_or_answered self (add_feature_layer lyr sublayer rnd self)) /\
  (forall lyr sublayer self,
     unchanged_or_answered self (update_dataset lyr sublayer self)) /\
  (forall self d wid,
     props self = VDict d ->
     _workspaceID self = VStr wid ->
     props (snd (fst (save self))) = saved_props self d /\
     snd (save self)
     = [Post (save_url (_gis self) wid)
          (save_post_data (_title self) (saved_props self d))]) /\
  (forall dataset self,
     let '(r, self', log) := add_map dataset self in
     forallb is_print log = true /\
     (r = Ok tt -> props self' <> props self)) /\
  (forall in_dataset groupby_field groupby_field_type stat_type stat_field
          stat_field_type out_name rnd self,
     forallb is_print
       (snd (aggregate in_dataset groupby_field groupby_field_type stat_type
               stat_field stat_field_type out_name rnd self)) = true) /\
  (forall chart_type in_dataset groupby_field groupby_field_type stat_type
          stat_field stat_field_type rnd self,
     let '(r, self', log) :=
       add_chart chart_type in_dataset groupby_field groupby_field_type
         stat_type stat_field stat_field_type rnd self in
     forallb is_print log = true /\
     (r = Ok tt -> props self' <> props self)).
Proof.
  split; [|split; [|split; [|split; [|split; [|split; [|split]]]]]].
  - intros gis ttl rnd wb u log H.
    apply new_Ok in H as (resp & wid & ans & _ & _ & _ & _ & ->). eauto.
  - intros ew wb u log H. apply open_Ok in H as (H & ->). eauto.
  - apply add_feature_layer_order.
  - apply update_dataset_order.
  - intros self d wid Hp Hw. now rewrite (save_run self d wid Hp Hw).
  - intros dataset self.
    pose proof (add_map_requests (_gis self) dataset self) as Hlog.
    destruct (add_map dataset self) as [[r self'] log] eqn:H. split.
    + now apply no_request_of_only_calls with (gis := _gis self).
    + intros ->. apply add_map_cards in H.
      now apply card_appended_changes in H.
  - intros. apply no_request_of_only_calls with (gis := _gis self).
    apply aggregate_requests.
  - intros ct ind gf gft st sf sft rnd self.
    pose proof (add_chart_requests (_gis self) ct ind gf gft st sf sft rnd
                  self) as Hlog.
    destruct (add_chart ct ind gf gft st sf sft rnd self)
      as [[r self'] log] eqn:H. split.
    + now apply no_request_of_only_calls with (gis := _gis self).
    + intros ->. apply add_chart_cards in H.
      now apply card_appended_changes in H.
Qed.

Lemma requests_and_edits_witness :
  (exists data item_id item_properties text,
     snd (new Sample.portal (VStr "Traffic") 255 tt)
     = [Post (new_path Sample.portal) data;
        UpdateItem item_id item_properties text]) /\
  snd (save Sample.empty)
  = [Post (save_url Sample.portal "a1b2c3")
       (save_post_data (VStr "Traffic")
          (saved_props Sample.empty
             [("title", VStr "Traffic");
              ("pages", VList [VDict [("title", VStr "Page 1");
                                      ("model", VDict [("items", VList [])]);
                                      ("cards", VList []);
                                      ("layout", VList []);
                                      ("contents", VList [])]]);
              ("activePage", VInt 0);
              ("workspace", VDict [("datasets", VDict [])])]))].
Proof.
  split.
  - pose (run := new Sample.portal (VStr "Traffic") 255 tt).
    refine (proj1 requests_and_edits Sample.portal (VStr "Traffic") 255%N
              (__init__ Sample.portal (VStr "Traffic") (VStr "000000ff")
                 (VStr "a1b2c3")
                 (VStr "https://gis.example.org/portal/arcgis/rest/services/Hosted/000000ff/WorkspaceServer")
                 (default_props (VStr "Traffic")))
              tt (snd run) _).
    vm_compute. reflexivity.
  - refine (proj2 (proj1 (proj2 (proj2 (proj2 (proj2 requests_and_edits))))
                     Sample.empty _ "a1b2c3" eq_refl eq_refl)).
Defined.

(** [add_map] edits [props] and sends nothing. *)
Lemma add_map_sends_no_request :
  let out := add_map Sample.roads_dataset Sample.with_roads in
  ~ sends_request out /\
  fst (fst out) = Ok tt /\
  props (snd (fst out)) <> props Sample.with_roads.
Proof.
  vm_compute. repeat split.
  - intros (ev & [] & _).
  - discriminate.
Qed.

(** ** Error handling *)










(** * Further properties *)

(** ** What a run keeps *)

Section Keeps.

Variable I : value -> Prop.

Lemma keeps_ret {A} (a : A) : keeps I (ret a).
Proof. intros s H. exact H. Qed.

Lemma keeps_raise {A} e : keeps I (@raise InsightsWorkbook A e).
Proof. intros s H. exact H. Qed.

Lemma keeps_lift {A} (r : res A) : keeps I (lift r).
Proof. intros s H. exact H. Qed.

Lemma keeps_attr {A} (f : InsightsWorkbook -> A) : keeps I (attr f).
Proof. intros s H. exact H. Qed.

Lemma keeps_read {A} (f : value -> res A) : keeps I (read f).
Proof. intros s H. exact H. Qed.

Lemma keeps_print msg : keeps I (print msg).
Proof. intros s H. exact H. Qed.

Lemma keeps_post_execute post_data : keeps I (post_execute post_data).
Proof.
  intros s H. rewrite post_execute_run. now destruct (_workspaceURL s).
Qed.

Lemma keeps_edit (f : value -> res value) :
  (forall p p', f p = Ok p' -> I p -> I p') -> keeps I (edit f).
Proof.
  intros Hf s H. unfold edit. destruct (f (props s)) as [p'|e] eqn:E.
  - simpl. eauto.
  - exact H.
Qed.

Lemma keeps_bind {A B} (m : method A) (k : A -> method B) :
  keeps I m -> (forall a, keeps I (k a)) -> keeps I (bind m k).
Proof.
  intros Hm Hk s H. unfold bind. specialize (Hm s H).
  destruct (m s) as [[[a|e] s1] l1]; simpl in *; [|exact Hm].
  specialize (Hk a s1 Hm). now destruct (k a s1) as [[r s2] l2].
Qed.

Lemma keeps_try_except {A} (m : method A) (h : exn -> method A) :
  keeps I m -> (forall e, keeps I (h e)) -> keeps I (try_except m h).
Proof.
  intros Hm Hh s H. unfold try_except. specialize (Hm s H).
  destruct (m s) as [[[a|e] s1] l1]; simpl in *; [exact Hm|].
  specialize (Hh e s1 Hm). now destruct (h e s1) as [[r s2] l2].
Qed.

Lemma keeps_for_each {A} (l : list A) (body : A -> method unit) :
  (forall a, keeps I (body a)) -> keeps I (for_each l body).
Proof.
  intros Hb. induction l as [|x r IH]; simpl.
  - apply keeps_ret.
  - apply keeps_bind; auto.
Qed.

End Keeps.

(** ** The five edits and what they leave alone *)

Lemma model_items_of_field p :
  model_items p = let* m := page0_field "model" p in Py.getitem m "items".
Proof. unfold model_items, page0_field. now destruct (page0 p). Qed.

Lemma model_items_of_pages p p' :
  Py.getitem p' "pages" = Py.getitem p "pages" ->
  model_items p' = model_items p.
Proof. unfold model_items, page0. now intros ->. Qed.

(** the effect of [self.props['pages'][0]['model']['items'].append(x)] on
    the model items *)
Lemma append_model_item_items x p p' :
  Py.at_key "pages" (Py.at_index 0
    (Py.at_key "model" (Py.at_key "items" (Py.append x)))) p = Ok p' ->
  exists l, model_items p = Ok (VList l) /\
            model_items p' = Ok (VList (l ++ [x])).
Proof.
  intros H.
  apply at_key_same in H as (pages & pages' & G & H & G').
  apply at_index0_key_Ok in H as (pg & pg' & I & H & I').
  apply at_key_same in H as (m & m' & J & H & J').
  apply at_key_same in H as (c & c' & K & H & K').
  destruct c as [| | | |l|]; try discriminate. injection H as <-.
  exists l. unfold model_items, page0.
  rewrite G, G'. simpl. rewrite I, I'. simpl. rewrite J, J'. simpl. auto.
Qed.

(** an edit below [props['workspace']['datasets']] *)
Lemma datasets_edit_Ok g p p' :
  Py.at_key "workspace" (Py.at_key "datasets" g) p = Ok p' ->
  (exists dss dss', datasets p = Ok dss /\ g dss = Ok dss' /\
                    datasets p' = Ok dss') /\
  (forall k, k <> "workspace" -> Py.getitem p' k = Py.getitem p k).
Proof.
  intros H. split.
  - apply at_key_same in H as (ws & ws' & G & H & G').
    apply at_key_same in H as (dss & dss' & I & H & I').
    exists dss, dss'. unfold datasets. rewrite G, G'. simpl. auto.
  - intros k Hne. now apply at_key_other with (k' := k) in H.
Qed.

Lemma setitem_other k x p p' :
  Py.setitem k x p = Ok p' ->
  forall k', k' <> k -> Py.getitem p' k' = Py.getitem p k'.
Proof.
  destruct p as [| | | | |d]; try discriminate. intros H. injection H as <-.
  intros k' Hne. now apply getitem_set_other.
Qed.

Lemma well_formed_iff p :
  well_formed p = true <->
  is_list (model_items p) = true /\ is_list (page0_field "cards" p) = true /\
  is_list (page0_field "layout" p) = true /\
  is_list (page0_field "contents" p) = true /\ is_dict (datasets p) = true.
Proof. unfold well_formed. rewrite !andb_true_iff. tauto. Qed.

(** well-formedness depends on [props['pages']] and [props['workspace']]
    only *)
Lemma well_formed_of_keys p p' :
  Py.getitem p' "pages" = Py.getitem p "pages" ->
  Py.getitem p' "workspace" = Py.getitem p "workspace" ->
  well_formed p' = well_formed p.
Proof.
  intros Hp Hw. unfold well_formed.
  now rewrite (model_items_of_pages _ _ Hp), !(page0_of_pages _ _ Hp),
    (datasets_of_workspace _ _ Hw).
Qed.

Lemma wf_append_to_page0 key x :
  key <> "model" ->
  forall p p',
    Py.at_key "pages" (Py.at_index 0 (Py.at_key key (Py.append x))) p = Ok p' ->
    well_formed p = true -> well_formed p' = true.
Proof.
  intros Hkey p p' H. rewrite !well_formed_iff.
  apply append_to_page0_Ok in H as ((l & Hl & Hl') & Hf & Hk).
  intros (Hi & Hc & Hy & Hn & Hd).
  assert (Hfield : forall k, is_list (page0_field k p) = true ->
                             is_list (page0_field k p') = true).
  { intros k. destruct (String.eqb_spec k key) as [->|Hne].
    - now rewrite Hl'.
    - now rewrite Hf. }
  repeat split; auto.
  - rewrite model_items_of_field in *. rewrite Hf; auto.
  - now rewrite (datasets_of_workspace _ _ (Hk "workspace" ltac:(discriminate))).
Qed.

Lemma wf_append_model_item x p p' :
  Py.at_key "pages" (Py.at_index 0
    (Py.at_key "model" (Py.at_key "items" (Py.append x)))) p = Ok p' ->
  well_formed p = true -> well_formed p' = true.
Proof.
  intros H. rewrite !well_formed_iff.
  destruct (append_model_item_items _ _ _ H) as (l & _ & Hl').
  apply append_model_item_Ok in H as (Hf & Hk).
  intros (Hi & Hc & Hy & Hn & Hd).
  rewrite Hl', !Hf by discriminate.
  now rewrite (datasets_of_workspace _ _ (Hk "workspace" ltac:(discriminate))).
Qed.

Lemma wf_datasets_edit g :
  (forall dss dss', g dss = Ok dss' -> is_dict (Ok dss') = true) ->
  forall p p',
    Py.at_key "workspace" (Py.at_key "datasets" g) p = Ok p' ->
    well_formed p = true -> well_formed p' = true.
Proof.
  intros Hg p p' H. rewrite !well_formed_iff.
  apply datasets_edit_Ok in H as ((dss & dss' & _ & G & Hd') & Hk).
  intros (Hi & Hc & Hy & Hn & Hd).
  pose proof (Hk "pages" ltac:(discriminate)) as Hp.
  rewrite (model_items_of_pages _ _ Hp), !(page0_of_pages _ _ Hp), Hd'.
  repeat split; eauto.
Qed.

Lemma setitem_dict k x dss dss' :
  Py.setitem k x dss = Ok dss' -> is_dict (Ok dss') = true.
Proof. destruct dss; try discriminate. intros H. now injection H as <-. Qed.

Lemma at_key_dict k f dss dss' :
  Py.at_key k f dss = Ok dss' -> is_dict (Ok dss') = true.
Proof. intros H. now apply at_key_Ok in H as (d & x & x' & _ & _ & _ & ->). Qed.

Lemma wf_setitem k x :
  k <> "pages" -> k <> "workspace" ->
  forall p p', Py.setitem k x p = Ok p' ->
               well_formed p = true -> well_formed p' = true.
Proof.
  intros H1 H2 p p' H.
  rewrite (well_formed_of_keys p p'); auto;
    apply (setitem_other _ _ _ _ H); congruence.
Qed.

Ltac keeps_step lemmas :=
  first
    [ apply keeps_ret | apply keeps_raise | apply keeps_lift
    | apply keeps_attr | apply keeps_read | apply keeps_print
    | apply keeps_post_execute
    | apply keeps_edit; lemmas
    | apply keeps_for_each; intros ?
    | apply keeps_try_except; [|intros ?]
    | apply keeps_bind; [|intros ?]
    | match goal with
      | |- keeps _ (match ?x with _ => _ end) => destruct x
      | |- keeps _ (if ?x then _ else _) => destruct x
      end ].

Ltac wf_edit :=
  first
    [ apply wf_append_model_item
    | apply wf_append_to_page0; discriminate
    | apply wf_datasets_edit; first [apply setitem_dict | apply at_key_dict]
    | apply wf_setitem; discriminate ].

Ltac methods_unfold :=
  unfold add_feature_layer, update_dataset, replace_references, add_map,
    aggregate, add_chart, save, append_model_item, append_to_page0,
    set_dataset, set_tool_dataset.

Lemma keeps_wf_add_feature_layer lyr sublayer rnd :
  keeps (fun p => well_formed p = true) (add_feature_layer lyr sublayer rnd).
Proof. methods_unfold. repeat keeps_step wf_edit. Qed.

Lemma keeps_wf_update_dataset lyr sublayer :
  keeps (fun p => well_formed p = true) (update_dataset lyr sublayer).
Proof. methods_unfold. repeat keeps_step wf_edit. Qed.

Lemma keeps_wf_add_map dataset :
  keeps (fun p => well_formed p = true) (add_map dataset).
Proof. methods_unfold. repeat keeps_step wf_edit. Qed.

Lemma keeps_wf_aggregate in_dataset groupby_field groupby_field_type
    stat_type stat_field stat_field_type out_name rnd :
  keeps (fun p => well_formed p = true)
    (aggregate in_dataset groupby_field groupby_field_type stat_type
       stat_field stat_field_type out_name rnd).
Proof. methods_unfold. repeat keeps_step wf_edit. Qed.

Lemma keeps_wf_add_chart chart_type in_dataset groupby_field
    groupby_field_type stat_type stat_field stat_field_type rnd :
  keeps (fun p => well_formed p = true)
    (add_chart chart_type in_dataset groupby_field groupby_field_type
       stat_type stat_field stat_field_type rnd).
Proof. methods_unfold. repeat keeps_step wf_edit. Qed.

Lemma keeps_wf_save : keeps (fun p => well_formed p = true) save.
Proof. methods_unfold. repeat keeps_step wf_edit. Qed.

Lemma keeps_after (I : value -> Prop) :
  (forall lyr sublayer rnd, keeps I (add_feature_layer lyr sublayer rnd)) ->
  (forall lyr sublayer, keeps I (update_dataset lyr sublayer)) ->
  (forall dataset, keeps I (add_map dataset)) ->
  (forall a b c d e f g h, keeps I (aggregate a b c d e f g h)) ->
  (forall a b c d e f g h, keeps I (add_chart a b c d e f g h)) ->
  keeps I save ->
  forall c self, I (props self) -> I (props (after c self)).
Proof.
  intros H1 H2 H3 H4 H5 H6 [] self H; simpl;
    first [now apply H1 | now apply H2 | now apply H3 | now apply H4
          | now apply H5 | now apply H6].
Qed.

Lemma keeps_session (I : value -> Prop) :
  (forall c self, I (props self) -> I (props (after c self))) ->
  forall calls self, I (props self) -> I (props (session calls self)).
Proof.
  intros Hc calls. unfold session.
  induction calls as [|c calls IH]; intros self H; simpl; auto.
Qed.

Lemma well_formed_after c self :
  well_formed (props self) = true -> well_formed (props (after c self)) = true.
Proof.
  revert c self. apply (keeps_after (fun p => well_formed p = true)); intros.
  - apply keeps_wf_add_feature_layer.
  - apply keeps_wf_update_dataset.
  - apply keeps_wf_add_map.
  - apply keeps_wf_aggregate.
  - apply keeps_wf_add_chart.
  - apply keeps_wf_save.
Qed.

(** X1. The document [new] returns has list-valued model items, cards,
    layout and contents on page 0 and a dictionary of datasets, and every
    sequence of method calls on an object whose document has that shape
    keeps it, whether the calls return or raise. *)
Theorem session_keeps_well_formed :
  (forall gis ttl rnd wb u log,
     new gis ttl rnd tt = (Ok wb, u, log) -> well_formed (props wb) = true) /\
  (forall calls self,
     well_formed (props self) = true ->
     well_formed (props (session calls self)) = true).
Proof.
  split.
  - intros gis ttl rnd wb u log H.
    now apply new_Ok in H as (resp & wid & ans & _ & _ & _ & -> & _).
  - apply (keeps_session (fun p => well_formed p = true)).
    exact well_formed_after.
Qed.

Lemma session_keeps_well_formed_witness :
  well_formed
    (props (session [AddFeatureLayer Sample.roads 0 1715004;
                     AddMap Sample.roads_dataset;
                     AddMap "Rivers_0000001";
                     AddChart "bar" Sample.roads_dataset "kind"
                       "esriFieldTypeString" "avg" "LEN"
                       "esriFieldTypeDouble" 17;
                     UpdateDataset Sample.roads 0;
                     Save]
              Sample.empty)) = true.
Proof.
  apply (proj2 session_keeps_well_formed). reflexivity.
Defined.

(** ** Datasets are never removed *)

Lemma pages_edit_workspace f p p' :
  Py.at_key "pages" f p = Ok p' ->
  Py.getitem p' "workspace" = Py.getitem p "workspace".
Proof. intros H. apply (at_key_other _ _ _ _ _ H). discriminate. Qed.

Lemma workspace_edit_pages f p p' :
  Py.at_key "workspace" f p = Ok p' ->
  Py.getitem p' "pages" = Py.getitem p "pages".
Proof. intros H. apply (at_key_other _ _ _ _ _ H). discriminate. Qed.

Lemma setitem_stores_one k x : stores_one (Py.setitem k x).
Proof.
  intros dss dss' H. destruct dss as [| | | | |d]; try discriminate.
  injection H as <-. eauto.
Qed.

Lemma at_key_stores_one k f : stores_one (Py.at_key k f).
Proof.
  intros dss dss' H. apply at_key_Ok in H as (d & x & x' & -> & _ & _ & ->).
  eauto.
Qed.

Section DatasetKept.

Variable ds : string.

Let I (p : value) : Prop := is_dataset ds p = true.

Lemma kept_pages_edit f p p' : Py.at_key "pages" f p = Ok p' -> I p -> I p'.
Proof.
  intros H. unfold I.
  now rewrite (is_dataset_of_workspace _ _ _ (pages_edit_workspace _ _ _ H)).
Qed.

Lemma kept_datasets_edit g :
  stores_one g ->
  forall p p', Py.at_key "workspace" (Py.at_key "datasets" g) p = Ok p' ->
               I p -> I p'.
Proof.
  intros Hg p p' H. unfold I, is_dataset.
  apply datasets_edit_Ok in H as ((dss & dss' & -> & G & ->) & _).
  apply Hg in G as (d & k & v & -> & ->). apply mem_set_mono.
Qed.

Lemma kept_setitem k x :
  k <> "workspace" ->
  forall p p', Py.setitem k x p = Ok p' -> I p -> I p'.
Proof.
  intros Hk p p' H. unfold I.
  rewrite (is_dataset_of_workspace _ p p'); auto.
  apply (setitem_other _ _ _ _ H). congruence.
Qed.

Ltac kept_edit :=
  first
    [ apply kept_pages_edit
    | apply kept_datasets_edit;
      first [apply setitem_stores_one | apply at_key_stores_one]
    | apply kept_setitem; discriminate ].

Lemma dataset_kept_after c self :
  I (props self) -> I (props (after c self)).
Proof.
  revert c self. apply (keeps_after I); intros; methods_unfold;
    repeat keeps_step kept_edit.
Qed.

End DatasetKept.

(** X2. No method ever removes a dataset: a name that is a key of
    [props['workspace']['datasets']] is still one after any sequence of
    calls, whether they return or raise. *)
Theorem datasets_are_never_removed calls self ds :
  is_dataset ds (props self) = true ->
  is_dataset ds (props (session calls self)) = true.
Proof.
  revert self.
  apply (keeps_session (fun p => is_dataset ds p = true)).
  apply dataset_kept_after.
Qed.

Lemma datasets_are_never_removed_witness :
  is_dataset Sample.roads_dataset
    (props (session [UpdateDataset Sample.roads 0;
                     Aggregate Sample.roads_dataset "kind"
                       "esriFieldTypeString" "count" "LEN"
                       "esriFieldTypeDouble" VNone 17;
                     AddMap "Rivers_0000001"; Save]
              Sample.with_roads)) = true.
Proof.
  apply datasets_are_never_removed. reflexivity.
Defined.

(** ** What each method leaves alone *)

Lemma neq_of_negb_eqb a b : negb (String.eqb a b) = true -> a <> b.
Proof.
  intros H. apply negb_true_iff in H. now apply String.eqb_neq.
Qed.

Section Frame.

Variable o : part.
Variable v : res value.

Let I (p : value) : Prop := part_of o p = v.

Lemma frame_field key x :
  apart (Field key) o = true ->
  forall p p',
    Py.at_key "pages" (Py.at_index 0 (Py.at_key key (Py.append x))) p = Ok p' ->
    I p -> I p'.
Proof.
  intros Ha p p' H. unfold I.
  apply append_to_page0_Ok in H as (_ & Hf & Hk).
  destruct o as [|k| |k]; simpl in *.
  - apply neq_of_negb_eqb in Ha.
    rewrite !model_items_of_field, Hf; auto.
  - apply neq_of_negb_eqb in Ha. now rewrite Hf.
  - now rewrite (datasets_of_workspace _ _ (Hk "workspace" ltac:(discriminate))).
  - apply neq_of_negb_eqb in Ha. now rewrite Hk.
Qed.

Lemma frame_items x :
  apart Items o = true ->
  forall p p',
    Py.at_key "pages" (Py.at_index 0
      (Py.at_key "model" (Py.at_key "items" (Py.append x)))) p = Ok p' ->
    I p -> I p'.
Proof.
  intros Ha p p' H. unfold I.
  apply append_model_item_Ok in H as (Hf & Hk).
  destruct o as [|k| |k]; simpl in *.
  - discriminate.
  - apply neq_of_negb_eqb in Ha. now rewrite Hf.
  - now rewrite (datasets_of_workspace _ _ (Hk "workspace" ltac:(discriminate))).
  - apply neq_of_negb_eqb in Ha. now rewrite Hk.
Qed.

Lemma frame_datasets g :
  apart Datasets o = true ->
  forall p p',
    Py.at_key "workspace" (Py.at_key "datasets" g) p = Ok p' -> I p -> I p'.
Proof.
  intros Ha p p' H. unfold I.
  apply datasets_edit_Ok in H as (_ & Hk).
  pose proof (Hk "pages" ltac:(discriminate)) as Hp.
  destruct o as [|k| |k]; simpl in *.
  - now rewrite (model_items_of_pages _ _ Hp).
  - now rewrite (page0_of_pages _ _ Hp).
  - discriminate.
  - apply neq_of_negb_eqb in Ha. now rewrite Hk.
Qed.

Lemma frame_top k0 x :
  apart (Top k0) o = true ->
  forall p p', Py.setitem k0 x p = Ok p' -> I p -> I p'.
Proof.
  intros Ha p p' H. unfold I.
  pose proof (setitem_other _ _ _ _ H) as Hk.
  destruct o as [|k| |k]; simpl in *; apply neq_of_negb_eqb in Ha.
  - rewrite (model_items_of_pages p p'); [trivial|]. apply Hk. congruence.
  - rewrite (page0_of_pages p p'); [trivial|]. apply Hk. congruence.
  - rewrite (datasets_of_workspace p p'); [trivial|]. apply Hk. congruence.
  - now rewrite Hk.
Qed.

Ltac frame_edit :=
  first
    [ apply frame_items; assumption
    | apply frame_field; assumption
    | apply frame_datasets; assumption
    | apply frame_top; assumption ].

Lemma frame_after c :
  forallb (fun w => apart w o) (writes c) = true ->
  forall self, I (props self) -> I (props (after c self)).
Proof.
  intros Hw.
  destruct c as [lyr sublayer rnd|lyr sublayer|dataset
                |a1 a2 a3 a4 a5 a6 a7 a8|b1 b2 b3 b4 b5 b6 b7 b8|];
    cbn [writes forallb] in Hw;
    repeat (apply andb_true_iff in Hw as [? Hw]); clear Hw; cbn [after].
  - change (keeps I (add_feature_layer lyr sublayer rnd)).
    methods_unfold; repeat keeps_step frame_edit.
  - change (keeps I (update_dataset lyr sublayer)).
    methods_unfold; repeat keeps_step frame_edit.
  - change (keeps I (add_map dataset)).
    methods_unfold; repeat keeps_step frame_edit.
  - change (keeps I (aggregate a1 a2 a3 a4 a5 a6 a7 a8)).
    methods_unfold; repeat keeps_step frame_edit.
  - change (keeps I (add_chart b1 b2 b3 b4 b5 b6 b7 b8)).
    methods_unfold; repeat keeps_step frame_edit.
  - change (keeps I save).
    methods_unfold; repeat keeps_step frame_edit.
Qed.

End Frame.

(** X3. Each method writes only its own parts of the document:
    [add_feature_layer] the model items, the contents of page 0 and the
    datasets; [update_dataset] the datasets; [add_map] the cards and the
    layout; [aggregate] the model items and the datasets; [add_chart] the
    model items, the datasets, the cards and the layout; [save] the
    top-level keys [id], [owner], [name] and [url].  A part none of these
    writes can show in (the model items, a field of page 0, the datasets,
    a top-level key) is after the call what it was before, whether the
    call returned or raised. *)
Theorem methods_write_only_their_parts c o self :
  forallb (fun w => apart w o) (writes c) = true ->
  part_of o (props (after c self)) = part_of o (props self).
Proof.
  intros Hw. now apply (frame_after o (part_of o (props self)) c Hw self).
Qed.

Lemma methods_write_only_their_parts_witness :
  part_of (Field "cards") (props (after (UpdateDataset Sample.roads 0)
                                    Sample.with_joined))
  = part_of (Field "cards") (props Sample.with_joined) /\
  part_of Datasets (props (after (AddMap Sample.roads_dataset)
                             Sample.with_roads))
  = part_of Datasets (props Sample.with_roads) /\
  part_of (Top "title") (props (after Save Sample.with_roads))
  = part_of (Top "title") (props Sample.with_roads).
Proof.
  split; [|split].
  - exact (methods_write_only_their_parts (UpdateDataset Sample.roads 0)
             (Field "cards") Sample.with_joined eq_refl).
  - exact (methods_write_only_their_parts (AddMap Sample.roads_dataset)
             Datasets Sample.with_roads eq_refl).
  - exact (methods_write_only_their_parts Save (Top "title")
             Sample.with_roads eq_refl).
Defined.

(** ** [save] again *)

Lemma set_get_same k v d : Dict.get k d = Some v -> Dict.set k v d = d.
Proof.
  induction d as [|[k' v'] d IH]; simpl; [discriminate|].
  destruct (String.eqb k k') eqn:E.
  - intros H. now injection H as ->.
  - intros H. now rewrite IH.
Qed.

Lemma saved_props_again self d :
  forall d', saved_props self d = VDict d' ->
             saved_props (with_props self (VDict d')) d' = VDict d'.
Proof.
  intros d' H. unfold saved_props in *. simpl. injection H as <-. f_equal.
  set (d1 := Dict.set "id" (_workspaceID self) d).
  set (d2 := Dict.set "owner" (VStr (username (_gis self))) d1).
  set (d3 := Dict.set "name" (_workbookID self) d2).
  set (d4 := Dict.set "url" (_workspaceURL self) d3).
  assert (H1 : Dict.set "id" (_workspaceID self) d4 = d4).
  { apply set_get_same. unfold d4, d3, d2, d1.
    rewrite !get_set_other by discriminate. apply get_set_same. }
  rewrite H1.
  assert (H2 : Dict.set "owner" (VStr (username (_gis self))) d4 = d4).
  { apply set_get_same. unfold d4, d3, d2.
    rewrite !get_set_other by discriminate. apply get_set_same. }
  rewrite H2.
  assert (H3 : Dict.set "name" (_workbookID self) d4 = d4).
  { apply set_get_same. unfold d4, d3.
    rewrite !get_set_other by discriminate. apply get_set_same. }
  rewrite H3.
  apply set_get_same. unfold d4. apply get_set_same.
Qed.

(** X4. A second [save] right after a [save] sends the request the first
    one sent and leaves [props] as the first left it, whatever the server
    answers to either: the four keys [save] writes already hold the values
    it writes.  (Whether the two calls return or raise depends on the
    server's two answers.) *)
Theorem save_twice self d wid answer :
  props self = VDict d ->
  _workspaceID self = VStr wid ->
  let again := save (with_server answer (after Save self)) in
  snd again = snd (save self) /\
  props (snd (fst again)) = props (after Save self).
Proof.
  intros Hp Hw. cbn [after]. rewrite (save_run self d wid Hp Hw). cbn [fst snd].
  unfold saved_props at 1 2 3.
  match goal with
  | |- context [with_server answer (with_props self (VDict ?d'))] =>
      rewrite (save_run (with_server answer (with_props self (VDict d'))) d'
                 wid eq_refl Hw);
      cbn [fst snd _gis _title with_props with_server props];
      pose proof (saved_props_again self d d' eq_refl) as Hagain
  end.
  unfold saved_props in *. cbn [_gis _title with_props with_server props
    _workspaceID _workbookID _workspaceURL username _url] in *.
  rewrite Hagain. split; reflexivity.
Qed.

Lemma save_twice_witness :
  let again :=
    save (with_server (fun _ _ => Raise HTTPError)
            (after Save Sample.with_roads)) in
  snd again = snd (save Sample.with_roads) /\
  props (snd (fst again)) = props (after Save Sample.with_roads).
Proof.
  exact (save_twice Sample.with_roads _ "a1b2c3" (fun _ _ => Raise HTTPError)
           eq_refl eq_refl).
Defined.

(** X5. [save] on an object whose [props] is not a dictionary (as the
    bare constructor leaves it) raises [TypeError], sends nothing and
    changes nothing; when [props] is a dictionary but the workspace ID is
    not a string it raises [TypeError] and sends nothing after it has set
    [id], [owner], [name] and [url] in [props]. *)
Theorem save_without_document_or_id self :
  ((forall d, props self <> VDict d) ->
   save self = (Raise TypeError, self, [])) /\
  (forall d, props self = VDict d ->
             (forall wid, _workspaceID self <> VStr wid) ->
             save self
             = (Raise TypeError, with_props self (saved_props self d), [])).
Proof.
  destruct self as [g t a wb ws wu p]. simpl. split.
  - intros H.
    destruct p as [| | | | |d]; try reflexivity. now elim (H d).
  - intros d -> H.
    destruct ws as [| | |wid| |]; try reflexivity. now elim (H wid).
Qed.

Lemma save_without_document_or_id_witness :
  save (__init__ Sample.portal VNone VNone VNone VNone VNone)
  = (Raise TypeError, __init__ Sample.portal VNone VNone VNone VNone VNone,
     []).
Proof.
  apply (proj1 (save_without_document_or_id
                  (__init__ Sample.portal VNone VNone VNone VNone VNone))).
  intros d. discriminate.
Defined.

(** ** Generated names *)

Lemma hex_value_from_zeros (k : nat) : Str.hex_value_from 0 (Str.zeros k) = 0%N.
Proof. induction k; simpl; auto. Qed.

(** ['%0wx' % n] denotes [n], whatever the width. *)
Lemma hex_value_fmt_x (w : nat) (n : N) : Str.hex_value (Str.fmt_x w n) = n.
Proof.
  unfold Str.fmt_x, Str.hex_value.
  rewrite hex_value_from_append, hex_value_from_zeros.
  apply hex_value_hex.
Qed.

Lemma fmt_x_width (w : nat) (n : N) :
  (n < 16 ^ N.of_nat (S w))%N ->
  String.length (Str.fmt_x (S w) n) = S w /\
  Str.all_chars Str.is_hex_char (Str.fmt_x (S w) n) = true.
Proof.
  intros Hn. unfold Str.fmt_x, Str.hex. split.
  - rewrite length_append, length_zeros.
    pose proof (hex_aux_length (S (N.to_nat (N.size n))) w n Hn). lia.
  - now rewrite all_chars_append, zeros_hex, hex_aux_is_hex.
Qed.

Lemma append_cancel_l (s a b : string) : s ++ a = s ++ b -> a = b.
Proof.
  induction s as [|c s IH]; simpl; [auto|].
  intros H. injection H as H. auto.
Qed.

(** X6. The workbook ID [new] stores is the random draw written as eight
    lower-case hexadecimal digits (for a draw of [randrange(16**8)]): it
    has length 8, reads back as the draw, and the workspace URL stored is
    the hosted service URL followed by that ID and ["/WorkspaceServer"]. *)
Theorem new_workbook_id gis ttl rnd wb u log :
  (rnd < 16 ^ 8)%N ->
  new gis ttl rnd tt = (Ok wb, u, log) ->
  exists wid,
    _workbookID wb = VStr wid /\
    String.length wid = 8 /\
    Str.all_chars Str.is_hex_char wid = true /\
    Str.hex_value wid = rnd /\
    _workspaceURL wb
    = VStr (insights_service_url gis ++ wid ++ "/WorkspaceServer").
Proof.
  intros Hrnd H.
  apply new_Ok in H as (resp & wsid & ans & _ & _ & _ & -> & _).
  exists (Str.fmt_x 8 rnd). simpl.
  destruct (fmt_x_width 7 rnd Hrnd) as (Hlen & Hhex).
  repeat split; auto. apply hex_value_fmt_x.
Qed.

Lemma new_workbook_id_witness :
  exists wb wid,
    fst (fst (new Sample.portal (VStr "Traffic") 255 tt)) = Ok wb /\
    _workbookID wb = VStr wid /\ String.length wid = 8.
Proof.
  pose (run := new Sample.portal (VStr "Traffic") 255 tt).
  pose (wb := __init__ Sample.portal (VStr "Traffic") (VStr "000000ff")
                (VStr "a1b2c3")
                (VStr "https://gis.example.org/portal/arcgis/rest/services/Hosted/000000ff/WorkspaceServer")
                (default_props (VStr "Traffic"))).
  assert (Hrun : new Sample.portal (VStr "Traffic") 255 tt
                 = (Ok wb, tt, snd run)) by (vm_compute; reflexivity).
  destruct (new_workbook_id Sample.portal (VStr "Traffic") 255 wb tt (snd run)
              eq_refl Hrun) as (wid & Hid & Hlen & _).
  exists wb, wid. repeat split; auto.
Defined.

(** X7. The dataset names [add_feature_layer] and [aggregate] return are
    told apart by the random draw: two normal returns for layers of the
    same title, or for the same input dataset, give the same name only
    when the draws are equal. *)
Theorem names_differ_by_draw :
  (forall lyr1 lyr2 sublayer1 sublayer2 rnd1 rnd2 self1 self2 nm self1' self2'
          log1 log2,
     title lyr1 = title lyr2 ->
     add_feature_layer lyr1 sublayer1 rnd1 self1 = (Ok nm, self1', log1) ->
     add_feature_layer lyr2 sublayer2 rnd2 self2 = (Ok nm, self2', log2) ->
     rnd1 = rnd2) /\
  (forall in_dataset a1 a2 a3 a4 a5 a6 b1 b2 b3 b4 b5 b6 rnd1 rnd2 self1 self2
          nm self1' self2' log1 log2,
     aggregate in_dataset a1 a2 a3 a4 a5 a6 rnd1 self1 = (Ok nm, self1', log1) ->
     aggregate in_dataset b1 b2 b3 b4 b5 b6 rnd2 self2 = (Ok nm, self2', log2) ->
     rnd1 = rnd2).
Proof.
  split.
  - intros lyr1 lyr2 s1 s2 rnd1 rnd2 self1 self2 nm self1' self2' log1 log2
      Ht H1 H2.
    apply add_feature_layer_Ok in H1 as (E1 & _).
    apply add_feature_layer_Ok in H2 as (E2 & _).
    rewrite E1, Ht in E2. do 2 apply append_cancel_l in E2.
    apply (f_equal Str.hex_value) in E2. now rewrite !hex_value_fmt_x in E2.
  - intros in_dataset a1 a2 a3 a4 a5 a6 b1 b2 b3 b4 b5 b6 rnd1 rnd2 self1
      self2 nm self1' self2' log1 log2 H1 H2.
    apply aggregate_inv in H1 as (_ & _ & _ & R1).
    apply aggregate_inv in H2 as (_ & _ & _ & R2).
    destruct (R1 nm eq_refl) as (E1 & _). destruct (R2 nm eq_refl) as (E2 & _).
    rewrite E1 in E2. unfold out_dataset_name in E2.
    do 2 apply append_cancel_l in E2.
    apply (f_equal Str.hex_value) in E2. now rewrite !hex_value_fmt_x in E2.
Qed.

Lemma names_differ_by_draw_witness : (1715004 = 1715004)%N.
Proof.
  pose (run := add_feature_layer Sample.roads 0 1715004 Sample.empty).
  refine (proj1 names_differ_by_draw Sample.roads Sample.roads 0%Z 0%Z
            1715004%N 1715004%N Sample.empty Sample.empty
            Sample.roads_dataset (snd (fst run)) (snd (fst run)) (snd run)
            (snd run) eq_refl _ _); vm_compute; reflexivity.
Defined.

(** X8. [open] on the item [new] created (same connection, the item's
    name the workbook ID and its id the workspace ID) builds an object
    that addresses the same workspace: same workbook ID, workspace ID,
    workspace URL and ArcGIS Online flag. *)
Theorem open_after_new gis ttl rnd wb u log wsid existing_workbook wb' u' log' :
  new gis ttl rnd tt = (Ok wb, u, log) ->
  _workspaceID wb = VStr wsid ->
  item_gis existing_workbook = gis ->
  name existing_workbook = Str.fmt_x 8 rnd ->
  id existing_workbook = wsid ->
  open existing_workbook tt = (Ok wb', u', log') ->
  _gis wb' = _gis wb /\
  _workbookID wb' = _workbookID wb /\
  _workspaceID wb' = _workspaceID wb /\
  _workspaceURL wb' = _workspaceURL wb /\
  _agol wb' = _agol wb.
Proof.
  intros Hnew Hid Hgis Hname Hitem Hopen. subst gis wsid.
  apply new_Ok in Hnew as (resp & wid & ans & _ & _ & _ & -> & _).
  simpl in Hid. subst wid.
  unfold open in Hopen. run_inv. simpl.
  rewrite Hname. auto.
Qed.

Lemma open_after_new_witness :
  exists wb wb',
    fst (fst (new Sample.portal (VStr "Traffic") 255 tt)) = Ok wb /\
    fst (fst (open Sample.book_item tt)) = Ok wb' /\
    _workspaceURL wb' = _workspaceURL wb.
Proof.
  pose (run := new Sample.portal (VStr "Traffic") 255 tt).
  pose (run' := open Sample.book_item tt).
  pose (wb := __init__ Sample.portal (VStr "Traffic") (VStr "000000ff")
                (VStr "a1b2c3")
                (VStr "https://gis.example.org/portal/arcgis/rest/services/Hosted/000000ff/WorkspaceServer")
                (default_props (VStr "Traffic"))).
  pose (wb' := __init__ Sample.portal (VStr "Traffic") (VStr "000000ff")
                 (VStr "a1b2c3")
                 (VStr "https://gis.example.org/portal/arcgis/rest/services/Hosted/000000ff/WorkspaceServer")
                 (default_props (VStr "Traffic"))).
  assert (Hnew : new Sample.portal (VStr "Traffic") 255 tt
                 = (Ok wb, tt, snd run)) by (vm_compute; reflexivity).
  assert (Hopen : open Sample.book_item tt = (Ok wb', tt, snd run'))
    by (vm_compute; reflexivity).
  exists wb, wb'. split; [now rewrite Hnew|]. split; [now rewrite Hopen|].
  exact (proj1 (proj2 (proj2 (proj2
           (open_after_new Sample.portal (VStr "Traffic") 255 wb tt (snd run)
              "a1b2c3" Sample.book_item wb' tt (snd run') Hnew eq_refl
              eq_refl eq_refl eq_refl Hopen))))).
Defined.

(** ** Edits that cannot fail *)

Lemma at_key_total k f v x x' :
  Py.getitem v k = Ok x -> f x = Ok x' -> exists v', Py.at_key k f v = Ok v'.
Proof.
  destruct v as [| | | | |d]; try discriminate. simpl.
  destruct (Dict.get k d) as [y|]; [|discriminate].
  intros H. injection H as ->. intros ->. simpl. eauto.
Qed.

Lemma page0_total f p pg pg' :
  page0 p = Ok pg -> f pg = Ok pg' ->
  (forall s, f (VStr s) = Raise TypeError) ->
  exists p', Py.at_key "pages" (Py.at_index 0 f) p = Ok p'.
Proof.
  unfold page0. intros H Hf Hs.
  destruct (Py.getitem p "pages") as [pages|] eqn:G; [|discriminate].
  simpl in H.
  apply (at_key_total "pages" (Py.at_index 0 f) p pages
           (match pages with
            | VList l => VList (Py.list_set 0 pg' l)
            | _ => pages
            end) G).
  destruct pages as [| | |s|l|d]; try discriminate; simpl in *.
  - destruct (String.get 0 s); [|discriminate].
    injection H as <-. now rewrite Hs in Hf.
  - destruct l as [|y l]; [discriminate|]. simpl in *.
    injection H as ->. now rewrite Hf.
Qed.

Lemma append_to_page0_total key x p l :
  page0_field key p = Ok (VList l) ->
  exists p',
    Py.at_key "pages" (Py.at_index 0 (Py.at_key key (Py.append x))) p = Ok p'.
Proof.
  unfold page0_field. intros H.
  destruct (page0 p) as [pg|] eqn:G; [|discriminate]. simpl in H.
  destruct (at_key_total key (Py.append x) pg (VList l) (VList (l ++ [x])) H
              eq_refl) as (pg' & Hpg).
  now apply (page0_total _ p pg pg' G Hpg).
Qed.

Lemma append_model_item_total x p l :
  model_items p = Ok (VList l) ->
  exists p',
    Py.at_key "pages" (Py.at_index 0
      (Py.at_key "model" (Py.at_key "items" (Py.append x)))) p = Ok p'.
Proof.
  unfold model_items. intros H.
  destruct (page0 p) as [pg|] eqn:G; [|discriminate]. simpl in H.
  destruct (Py.getitem pg "model") as [m|] eqn:Gm; [|discriminate].
  simpl in H.
  destruct (at_key_total "items" (Py.append x) m (VList l) (VList (l ++ [x]))
              H eq_refl) as (m' & Hm).
  destruct (at_key_total "model" _ pg m m' Gm Hm) as (pg' & Hpg).
  now apply (page0_total _ p pg pg' G Hpg).
Qed.

Lemma set_dataset_total ds x p d :
  datasets p = Ok (VDict d) ->
  exists p',
    Py.at_key "workspace" (Py.at_key "datasets" (Py.setitem ds x)) p = Ok p'.
Proof.
  unfold datasets. intros H.
  destruct (Py.getitem p "workspace") as [ws|] eqn:G; [|discriminate].
  simpl in H.
  destruct (at_key_total "datasets" (Py.setitem ds x) ws (VDict d)
              (VDict (Dict.set ds x d)) H eq_refl) as (ws' & Hws).
  now apply (at_key_total _ _ _ _ _ G Hws).
Qed.

(** ** [add_map], outcome by outcome *)

Lemma add_map_places_card dataset self cards layout entry my_extent :
  page0_field "cards" (props self) = Ok (VList cards) ->
  page0_field "layout" (props self) = Ok (VList layout) ->
  dataset_entry dataset (props self) = Ok entry ->
  Py.truthy entry = true ->
  Py.getitem entry "extent" = Ok my_extent ->
  exists self',
    add_map dataset self = (Ok tt, self', []) /\
    page0_field "cards" (props self')
    = Ok (VList (cards ++ [map_card (List.length cards) dataset my_extent])) /\
    page0_field "layout" (props self')
    = Ok (VList (layout ++ [layout_entry (List.length cards)])).
Proof.
  intros Hc Hl He Ht Hx.
  destruct (append_to_page0_total "cards"
              (map_card (List.length cards) dataset my_extent) _ _ Hc)
    as (p1 & E1).
  pose proof (append_to_page0_Ok _ _ _ _ E1) as ((c1 & Hc1 & Hc1') & Hf1 & _).
  rewrite Hc in Hc1. injection Hc1 as <-.
  assert (Hl1 : page0_field "layout" p1 = Ok (VList layout))
    by (rewrite Hf1; [exact Hl | discriminate]).
  destruct (append_to_page0_total "layout" (layout_entry (List.length cards))
              _ _ Hl1) as (p2 & E2).
  pose proof (append_to_page0_Ok _ _ _ _ E2) as ((l2 & Hl2 & Hl2') & Hf2 & _).
  rewrite Hl1 in Hl2. injection Hl2 as <-.
  exists (with_props self p2). split; [|split].
  - unfold add_map, append_to_page0, bind, read, lift, edit, page0_cards.
    rewrite He, Ht, Hc. simpl. rewrite He. simpl. rewrite Hx, E1. simpl.
    rewrite E2. reflexivity.
  - simpl. rewrite Hf2; [exact Hc1' | discriminate].
  - exact Hl2'.
Qed.

Lemma add_map_raise_unchanged dataset self layout e self' log :
  page0_field "layout" (props self) = Ok (VList layout) ->
  add_map dataset self = (Raise e, self', log) -> self' = self.
Proof.
  intros Hl H. unfold add_map, append_to_page0 in H.
  run_inv; auto.
  destruct (Py.truthy _); run_inv; auto.
  exfalso. simpl in *.
  match goal with
  | H : Py.at_key "pages" (Py.at_index 0 (Py.at_key "cards" _)) _ = Ok ?p1,
    H' : Py.at_key "pages"
           (Py.at_index 0 (Py.at_key "layout" (Py.append ?le))) _ = Raise _
    |- _ =>
      apply append_to_page0_Ok in H as (_ & Hf & _);
      destruct (append_to_page0_total "layout" le p1 layout)
        as (p2 & E2); [rewrite Hf; [exact Hl | discriminate]|]
  end.
  congruence.
Qed.

(** X9. On a document whose page 0 has a list of cards (n of them) and a
    list of layout entries, [add_map(dataset)] returns normally when the
    dataset's entry is truthy and has an [extent]: it then appends one
    map card, titled "Card n+1" and carrying that extent, and one layout
    entry at x = 21n, y = 0, 20 wide and 20 high, and prints nothing.
    Whenever it raises, the object is left exactly as it was. *)
Theorem add_map_outcome dataset self cards layout :
  page0_field "cards" (props self) = Ok (VList cards) ->
  page0_field "layout" (props self) = Ok (VList layout) ->
  let n := List.length cards in
  (forall entry my_extent,
     dataset_entry dataset (props self) = Ok entry ->
     Py.truthy entry = true ->
     Py.getitem entry "extent" = Ok my_extent ->
     exists self',
       add_map dataset self = (Ok tt, self', []) /\
       page0_field "cards" (props self')
       = Ok (VList (cards ++ [map_card n dataset my_extent])) /\
       page0_field "layout" (props self')
       = Ok (VList (layout ++ [layout_entry n]))) /\
  (forall e self' log,
     add_map dataset self = (Raise e, self', log) -> self' = self) /\
  (forall my_extent,
     Py.getitem (map_card n dataset my_extent) "title"
     = Ok (VStr ("Card " ++ Str.of_Z (Z.of_nat n + 1)))) /\
  layout_entry n
  = VDict [("x", VInt (21 * Z.of_nat n)); ("y", VInt 0); ("w", VInt 20);
           ("h", VInt 20)].
Proof.
  intros Hc Hl n. split; [|split; [|split]].
  - intros entry my_extent. now apply add_map_places_card.
  - intros e self' log. now apply add_map_raise_unchanged with (layout := layout).
  - reflexivity.
  - replace (21 * Z.of_nat n)%Z with (Z.of_nat (n * 20 + n)) by lia.
    reflexivity.
Qed.

Lemma add_map_outcome_witness :
  exists self',
    add_map Sample.roads_dataset Sample.with_roads = (Ok tt, self', []) /\
    page0_field "cards" (props self')
    = Ok (VList [map_card 0 Sample.roads_dataset Sample.box]) /\
    page0_field "layout" (props self') = Ok (VList [layout_entry 0]).
Proof.
  exact (proj1 (add_map_outcome Sample.roads_dataset Sample.with_roads [] []
                  eq_refl eq_refl)
           (layer_entry (VStr "data-1") "f00d" Sample.box) Sample.box
           eq_refl eq_refl eq_refl).
Defined.

(** ** [aggregate], outcome by outcome *)

Lemma set_dataset_datasets ds x p p' d :
  datasets p = Ok (VDict d) ->
  Py.at_key "workspace" (Py.at_key "datasets" (Py.setitem ds x)) p = Ok p' ->
  datasets p' = Ok (VDict (Dict.set ds x d)).
Proof.
  intros Hd H.
  apply datasets_edit_Ok in H as ((dss & dss' & Hd' & G & ->) & _).
  rewrite Hd in Hd'. injection Hd' as <-. simpl in G.
  now injection G as <-.
Qed.

Section AggregateOutcome.

Variables in_dataset groupby_field groupby_field_type stat_type stat_field
  stat_field_type : string.
Variable out_name : value.
Variable rnd : N.
Variable self : InsightsWorkbook.
Variable items : list value.
Variable d : Dict.t.

Hypothesis Hitems : model_items (props self) = Ok (VList items).
Hypothesis Hdatasets : datasets (props self) = Ok (VDict d).

Let out_dataset := out_dataset_name in_dataset rnd.
Let out_field := out_field_name stat_field stat_type.
Let item :=
  aggregate_item in_dataset groupby_field stat_type stat_field out_field
    out_dataset.

Lemma aggregate_appends_item :
  exists p1,
    Py.at_key "pages" (Py.at_index 0
      (Py.at_key "model" (Py.at_key "items" (Py.append item))))
      (props self) = Ok p1 /\
    model_items p1 = Ok (VList (items ++ [item])) /\
    datasets p1 = Ok (VDict d) /\
    (forall k, k <> "pages" -> Py.getitem p1 k = Py.getitem (props self) k).
Proof.
  destruct (append_model_item_total item _ _ Hitems) as (p1 & E1).
  exists p1. split; [exact E1|].
  destruct (append_model_item_items _ _ _ E1) as (l & Hl & Hl').
  rewrite Hitems in Hl. injection Hl as <-.
  apply append_model_item_Ok in E1 as (_ & Hk).
  repeat split; auto.
  now rewrite (datasets_of_workspace _ _ (Hk "workspace" ltac:(discriminate))).
Qed.

Lemma aggregate_stores entry in_data_id :
  Dict.get in_dataset d = Some entry ->
  Py.getitem entry "data" = Ok in_data_id ->
  exists self',
    aggregate in_dataset groupby_field groupby_field_type stat_type stat_field
      stat_field_type out_name rnd self = (Ok out_dataset, self', []) /\
    model_items (props self') = Ok (VList (items ++ [item])) /\
    datasets (props self')
    = Ok (VDict (Dict.set out_dataset
                   (aggregate_entry in_data_id
                      (if negb (Py.truthy out_name) then VStr out_dataset
                       else out_name)
                      in_dataset groupby_field groupby_field_type stat_type
                      stat_field out_field
                      (out_field_type stat_type stat_field_type) out_dataset)
                   d)).
Proof.
  intros Hentry Hdata.
  destruct aggregate_appends_item as (p1 & E1 & Hi1 & Hd1 & Hk1).
  match goal with
  | |- context [Dict.set out_dataset ?x d] =>
      destruct (set_dataset_total out_dataset x p1 d Hd1) as (p2 & E2);
      pose proof (set_dataset_datasets _ _ _ _ _ Hd1 E2) as Hd2;
      apply datasets_edit_Ok in E2 as E2'; destruct E2' as (_ & Hk2)
  end.
  exists (with_props self p2). split; [|split].
  - unfold aggregate, append_model_item, set_dataset, bind, edit, read, ret.
    fold out_dataset out_field item. rewrite E1. simpl.
    unfold dataset_entry. rewrite Hd1. simpl. rewrite Hentry. simpl.
    rewrite Hdata. simpl. fold out_dataset out_field. rewrite E2. reflexivity.
  - simpl. rewrite <- Hi1. apply model_items_of_pages, Hk2. discriminate.
  - exact Hd2.
Qed.

Lemma aggregate_leaves_item e :
  (let* entry := Py.getitem (VDict d) in_dataset in Py.getitem entry "data")
  = Raise e ->
  exists self',
    aggregate in_dataset groupby_field groupby_field_type stat_type stat_field
      stat_field_type out_name rnd self = (Raise e, self', []) /\
    model_items (props self') = Ok (VList (items ++ [item])) /\
    datasets (props self') = Ok (VDict d) /\
    (forall k, k <> "pages" ->
       Py.getitem (props self') k = Py.getitem (props self) k).
Proof.
  intros Hfail.
  destruct aggregate_appends_item as (p1 & E1 & Hi1 & Hd1 & Hk1).
  exists (with_props self p1). split; [|auto].
  unfold aggregate, append_model_item, set_dataset, bind, edit, read, ret.
  fold out_dataset out_field item. rewrite E1. simpl.
  unfold dataset_entry. rewrite Hd1. cbv zeta in Hfail.
  change (rbind (Ok (VDict d)) (fun dss => Py.getitem dss in_dataset))
    with (Py.getitem (VDict d) in_dataset).
  now rewrite Hfail.
Qed.

End AggregateOutcome.

(** every run of [aggregate] on a list of model items appends its model
    item, which carries the output name, and prints nothing *)
Lemma aggregate_names_item in_dataset groupby_field groupby_field_type
    stat_type stat_field stat_field_type out_name rnd self items :
  model_items (props self) = Ok (VList items) ->
  exists r self',
    aggregate in_dataset groupby_field groupby_field_type stat_type
      stat_field stat_field_type out_name rnd self = (r, self', []) /\
    model_items (props self')
    = Ok (VList (items ++
                 [aggregate_item in_dataset groupby_field stat_type stat_field
                    (out_field_name stat_field stat_type)
                    (out_dataset_name in_dataset rnd)])%list).
Proof.
  intros Hitems.
  destruct (append_model_item_total
              (aggregate_item in_dataset groupby_field stat_type stat_field
                 (out_field_name stat_field stat_type)
                 (out_dataset_name in_dataset rnd)) _ _ Hitems) as (p1 & E1).
  destruct (append_model_item_items _ _ _ E1) as (l & Hl & Hl').
  rewrite Hitems in Hl. injection Hl as <-.
  unfold aggregate, append_model_item, set_dataset, bind, edit, read, ret.
  rewrite E1. cbn [props with_props].
  destruct (rbind (dataset_entry in_dataset p1) _) as [in_data_id|e].
  - match goal with
    | |- context [Py.at_key "workspace" ?f p1] =>
        destruct (Py.at_key "workspace" f p1) as [p2|e] eqn:E2
    end.
    + do 2 eexists. split; [reflexivity|]. cbn [props with_props].
      rewrite <- Hl'. apply model_items_of_pages.
      exact (workspace_edit_pages _ _ _ E2).
    + do 2 eexists. split; [reflexivity|]. exact Hl'.
  - do 2 eexists. split; [reflexivity|]. exact Hl'.
Qed.

(** C10. The name [aggregate] gives its output dataset is the base name,
    an underscore and seven hexadecimal digits; the base name is the part
    of [in_dataset] before its first underscore when it has one, and
    [in_dataset] without its last character otherwise.  Every run on a
    list of model items appends a model item whose [outDataset] is that
    name; a run that finds the input dataset and its data returns that
    name, having stored the new entry under it, with the name as the
    [outDataset] of the entry's data and of its one tool; and no run
    returns any other name. *)
Theorem aggregate_output_name (in_dataset : string) (rnd : N) :
  (rnd < 16 ^ 7)%N ->
  exists suffix,
    String.length suffix = 7 /\
    Str.all_chars Str.is_hex_char suffix = true /\
    let name := base_name_spec in_dataset ++ "_" ++ suffix in
    (forall groupby_field groupby_field_type stat_type stat_field
            stat_field_type out_name self items,
       model_items (props self) = Ok (VList items) ->
       exists r self' item,
         aggregate in_dataset groupby_field groupby_field_type stat_type
           stat_field stat_field_type out_name rnd self = (r, self', []) /\
         model_items (props self') = Ok (VList (items ++ [item])%list) /\
         Py.getitem item "outDataset" = Ok (VStr name)) /\
    (forall groupby_field groupby_field_type stat_type stat_field
            stat_field_type out_name self items d entry in_data_id,
       model_items (props self) = Ok (VList items) ->
       datasets (props self) = Ok (VDict d) ->
       Dict.get in_dataset d = Some entry ->
       Py.getitem entry "data" = Ok in_data_id ->
       exists self' stored data tool,
         aggregate in_dataset groupby_field groupby_field_type stat_type
           stat_field stat_field_type out_name rnd self
         = (Ok name, self', []) /\
         datasets (props self') = Ok (VDict (Dict.set name stored d)) /\
         Py.getitem stored "data" = Ok data /\
         Py.getitem data "outDataset" = Ok (VStr name) /\
         Py.getitem data "tools" = Ok (VList [tool]) /\
         Py.getitem tool "outDataset" = Ok (VStr name)) /\
    (forall groupby_field groupby_field_type stat_type stat_field
            stat_field_type out_name self nm self' log,
       aggregate in_dataset groupby_field groupby_field_type stat_type
         stat_field stat_field_type out_name rnd self = (Ok nm, self', log) ->
       nm = name).
Proof.
  intros Hrnd. exists (Str.fmt_x 7 rnd).
  destruct (fmt_x_7 rnd Hrnd) as (Hlen & Hhex).
  assert (Hname : out_dataset_name in_dataset rnd
                  = base_name_spec in_dataset ++ "_" ++ Str.fmt_x 7 rnd)
    by (unfold out_dataset_name; now rewrite in_dataset_base_spec).
  split; [exact Hlen|]. split; [exact Hhex|]. cbv zeta. rewrite <- Hname.
  split; [|split].
  - intros gf gft st sf sft out_name self items Hitems.
    destruct (aggregate_names_item in_dataset gf gft st sf sft out_name rnd
                self items Hitems) as (r & self' & Hrun & Hi).
    do 3 eexists. split; [exact Hrun|]. split; [exact Hi|]. reflexivity.
  - intros gf gft st sf sft out_name self items d entry in_data_id Hitems Hd
      Hentry Hdata.
    destruct (aggregate_stores in_dataset gf gft st sf sft out_name rnd self
                items d Hitems Hd entry in_data_id Hentry Hdata)
      as (self' & Hrun & _ & Hd').
    do 4 eexists. split; [exact Hrun|]. split; [exact Hd'|].
    repeat split; reflexivity.
  - intros gf gft st sf sft out_name self nm self' log H.
    apply aggregate_inv in H as (_ & _ & _ & Hret).
    now destruct (Hret nm eq_refl) as (-> & _).
Qed.

Lemma aggregate_output_name_witness :
  (exists self',
     aggregate "Roads_01a2b3c" "kind" "esriFieldTypeString" "avg" "LEN"
       "esriFieldTypeDouble" VNone 17 Sample.with_roads
     = (Ok "Roads_0000011", self', []) /\
     is_dataset "Roads_0000011" (props self') = true) /\
  (exists self',
     aggregate "Roads" "kind" "esriFieldTypeString" "avg" "LEN"
       "esriFieldTypeDouble" VNone 17
       (Sample.workbook Sample.portal
          (Sample.document [] [] []
             [("Roads", layer_entry (VStr "data-1") "f00d" Sample.box)]))
     = (Ok "Road_0000011", self', [])).
Proof.
  split.
  - destruct (aggregate_output_name "Roads_01a2b3c" 17 eq_refl)
      as (suffix & _ & _ & _ & Hrun & _).
    destruct (Hrun "kind" "esriFieldTypeString" "avg" "LEN"
                "esriFieldTypeDouble" VNone Sample.with_roads
                [Sample.roads_item]
                [(Sample.roads_dataset,
                  layer_entry (VStr "data-1") "f00d" Sample.box)]
                (layer_entry (VStr "data-1") "f00d" Sample.box)
                (VStr "data-1") eq_refl eq_refl eq_refl eq_refl)
      as (self' & stored & data & tool & H & Hd & _).
    assert (Hs : suffix = "0000011").
    { apply (f_equal (fun x => fst (fst x))) in H. vm_compute in H.
      now injection H as <-. }
    subst suffix. exists self'. split; [exact H|].
    unfold is_dataset. rewrite Hd. cbn [rbind Py.contains].
    apply mem_set_same.
  - destruct (aggregate_output_name "Roads" 17 eq_refl)
      as (suffix & _ & _ & _ & Hrun & _).
    destruct (Hrun "kind" "esriFieldTypeString" "avg" "LEN"
                "esriFieldTypeDouble" VNone
                (Sample.workbook Sample.portal
                   (Sample.document [] [] []
                      [("Roads",
                        layer_entry (VStr "data-1") "f00d" Sample.box)]))
                []
                [("Roads", layer_entry (VStr "data-1") "f00d" Sample.box)]
                (layer_entry (VStr "data-1") "f00d" Sample.box)
                (VStr "data-1") eq_refl eq_refl eq_refl eq_refl)
      as (self' & stored & data & tool & H & _).
    assert (Hs : suffix = "0000011").
    { apply (f_equal (fun x => fst (fst x))) in H. vm_compute in H.
      now injection H as <-. }
    subst suffix. exists self'. exact H.
Defined.

(** X10. On a document with a list of model items and a dictionary of
    datasets, [aggregate] appends its model item before it looks up the
    input dataset.  When the input dataset and its [data] are there it
    returns the new name, having stored the aggregation entry under it
    and changed no other dataset; the entry's [name] is [out_name], or
    the new dataset name when [out_name] is [None] or empty.  When the
    lookup fails it raises the lookup's error with nothing printed, no
    dataset stored and the model item left in the document. *)
Theorem aggregate_outcome in_dataset groupby_field groupby_field_type
    stat_type stat_field stat_field_type out_name rnd self items d :
  model_items (props self) = Ok (VList items) ->
  datasets (props self) = Ok (VDict d) ->
  let out_dataset := out_dataset_name in_dataset rnd in
  let out_field := out_field_name stat_field stat_type in
  let item :=
    aggregate_item in_dataset groupby_field stat_type stat_field out_field
      out_dataset in
  let run :=
    aggregate in_dataset groupby_field groupby_field_type stat_type
      stat_field stat_field_type out_name rnd self in
  (forall entry in_data_id,
     Dict.get in_dataset d = Some entry ->
     Py.getitem entry "data" = Ok in_data_id ->
     exists self',
       run = (Ok out_dataset, self', []) /\
       model_items (props self') = Ok (VList (items ++ [item])) /\
       datasets (props self')
       = Ok (VDict (Dict.set out_dataset
                      (aggregate_entry in_data_id
                         (if negb (Py.truthy out_name) then VStr out_dataset
                          else out_name)
                         in_dataset groupby_field groupby_field_type
                         stat_type stat_field out_field
                         (out_field_type stat_type stat_field_type)
                         out_dataset)
                      d))) /\
  (forall e,
     (let* entry := Py.getitem (VDict d) in_dataset in
      Py.getitem entry "data") = Raise e ->
     exists self',
       run = (Raise e, self', []) /\
       model_items (props self') = Ok (VList (items ++ [item])) /\
       datasets (props self') = Ok (VDict d) /\
       (forall k, k <> "pages" ->
          Py.getitem (props self') k = Py.getitem (props self) k)).
Proof.
  intros Hi Hd. cbv zeta. split.
  - intros entry in_data_id. now apply aggregate_stores.
  - intros e. now apply aggregate_leaves_item.
Qed.

Lemma aggregate_outcome_witness :
  exists self',
    aggregate "Rivers_0000001" "kind" "esriFieldTypeString" "avg" "LEN"
      "esriFieldTypeDouble" VNone 17 Sample.with_roads
    = (Raise KeyError, self', []) /\
    model_items (props self')
    = Ok (VList [Sample.roads_item;
                 aggregate_item "Rivers_0000001" "kind" "avg" "LEN" "len_avg"
                   "Rivers_0000011"]).
Proof.
  destruct (proj2 (aggregate_outcome "Rivers_0000001" "kind"
                     "esriFieldTypeString" "avg" "LEN" "esriFieldTypeDouble"
                     VNone 17 Sample.with_roads [Sample.roads_item] _
                     eq_refl eq_refl) KeyError eq_refl)
    as (self' & Hrun & Hitems & _).
  exists self'. split; [exact Hrun | exact Hitems].
Defined.

(** ** [add_feature_layer], outcome by outcome *)

Section AddFeatureLayerOutcome.

Variable lyr : Item.
Variable sublayer : Z.
Variable rnd : N.
Variable self : InsightsWorkbook.
Variables items contents : list value.
Variable d : Dict.t.
Variable ws : string.
Variable resp : value.

Let dataset_name := title lyr ++ "_" ++ Str.fmt_x 7 rnd.
Let layer_url := url lyr ++ "/" ++ Str.of_Z sublayer.
Let post_data := execute_post_data layer_url dataset_name.
Let item := add_data_item layer_url dataset_name.
Let content := VDict (Dict.literal [("dataset", VStr dataset_name)]).

Hypothesis Hitems : model_items (props self) = Ok (VList items).
Hypothesis Hcontents : page0_field "contents" (props self) = Ok (VList contents).
Hypothesis Hdatasets : datasets (props self) = Ok (VDict d).
Hypothesis Hws : _workspaceURL self = VStr ws.
Hypothesis Hpost : con_post (_gis self) (ws ++ "/execute") post_data = Ok resp.

Lemma add_feature_layer_appends :
  exists p1 p2,
    Py.at_key "pages" (Py.at_index 0
      (Py.at_key "model" (Py.at_key "items" (Py.append item))))
      (props self) = Ok p1 /\
    Py.at_key "pages" (Py.at_index 0
      (Py.at_key "contents" (Py.append content))) p1 = Ok p2 /\
    model_items p2 = Ok (VList (items ++ [item])) /\
    page0_field "contents" p2 = Ok (VList (contents ++ [content])) /\
    datasets p2 = Ok (VDict d) /\
    (forall k, k <> "pages" -> Py.getitem p2 k = Py.getitem (props self) k).
Proof.
  destruct (append_model_item_total item _ _ Hitems) as (p1 & E1).
  destruct (append_model_item_items _ _ _ E1) as (l & Hl & Hl').
  rewrite Hitems in Hl. injection Hl as <-.
  pose proof (append_model_item_Ok _ _ _ E1) as (Hf1 & Hk1).
  assert (Hc1 : page0_field "contents" p1 = Ok (VList contents))
    by (rewrite Hf1; [exact Hcontents | discriminate]).
  destruct (append_to_page0_total "contents" content _ _ Hc1) as (p2 & E2).
  pose proof (append_to_page0_Ok _ _ _ _ E2) as ((c & Hc & Hc') & Hf2 & Hk2).
  rewrite Hc1 in Hc. injection Hc as <-.
  exists p1, p2. repeat split; auto.
  - rewrite model_items_of_field, Hf2 by discriminate.
    now rewrite <- model_items_of_field.
  - rewrite (datasets_of_workspace p1 p2), (datasets_of_workspace (props self) p1);
      auto; [apply Hk1 | apply Hk2]; discriminate.
  - intros k Hk. now rewrite Hk2, Hk1.
Qed.

Lemma add_feature_layer_stores data my_extent :
  extent lyr sublayer = Ok my_extent ->
  Py.getitem resp dataset_name = Ok data ->
  exists self',
    add_feature_layer lyr sublayer rnd self
    = (Ok dataset_name, self', [Post (ws ++ "/execute") post_data]) /\
    model_items (props self') = Ok (VList (items ++ [item])) /\
    page0_field "contents" (props self') = Ok (VList (contents ++ [content])) /\
    datasets (props self')
    = Ok (VDict (Dict.set dataset_name
                   (layer_entry data (id lyr) my_extent) d)).
Proof.
  intros Hext Hdata.
  destruct add_feature_layer_appends as (p1 & p2 & E1 & E2 & Hi & Hc & Hd & Hk).
  destruct (set_dataset_total dataset_name
              (layer_entry data (id lyr) my_extent) p2 d Hd) as (p3 & E3).
  pose proof (set_dataset_datasets _ _ _ _ _ Hd E3) as Hd3.
  apply datasets_edit_Ok in E3 as E3'. destruct E3' as (_ & Hk3).
  pose proof (Hk3 "pages" ltac:(discriminate)) as Hp3.
  exists (with_props self p3). split; [|split; [|split]].
  - unfold add_feature_layer, try_except, bind.
    fold dataset_name layer_url post_data item content.
    rewrite post_execute_run, Hws, Hpost.
    unfold append_model_item, append_to_page0, set_dataset, edit, lift, ret.
    rewrite E1. simpl. rewrite E2. simpl. rewrite Hext, Hdata. simpl.
    rewrite E3. reflexivity.
  - simpl. now rewrite (model_items_of_pages _ _ Hp3).
  - simpl. now rewrite (page0_of_pages _ _ Hp3).
  - exact Hd3.
Qed.

Lemma add_feature_layer_leaves_item e :
  (let* my_extent := extent lyr sublayer in Py.getitem resp dataset_name)
  = Raise e ->
  exists self',
    add_feature_layer lyr sublayer rnd self
    = (Raise TypeError, self', [Post (ws ++ "/execute") post_data]) /\
    model_items (props self') = Ok (VList (items ++ [item])) /\
    page0_field "contents" (props self') = Ok (VList (contents ++ [content])) /\
    datasets (props self') = Ok (VDict d).
Proof.
  intros Hfail.
  destruct add_feature_layer_appends as (p1 & p2 & E1 & E2 & Hi & Hc & Hd & Hk).
  exists (with_props self p2). split; [|auto].
  unfold add_feature_layer, try_except, bind.
  fold dataset_name layer_url post_data item content.
  rewrite post_execute_run, Hws, Hpost.
  unfold append_model_item, append_to_page0, set_dataset, edit, lift, ret.
  rewrite E1. simpl. rewrite E2. simpl.
  destruct (extent lyr sublayer) as [my_extent|e']; simpl in *.
  - now rewrite Hfail.
  - reflexivity.
Qed.

End AddFeatureLayerOutcome.

(** X11. On a document with lists of model items and contents and a
    dictionary of datasets, once its request is answered
    [add_feature_layer] appends the model item and the contents entry
    before it reads the layer's extent and the answer.  When both are
    there it stores the dataset entry under the new name, changes no other
    dataset and returns the name.  When the extent cannot be read or the
    answer lacks the name it raises, with the model item and the contents
    entry left in the document and no dataset stored. *)
Theorem add_feature_layer_outcome lyr sublayer rnd self items contents d ws
    resp :
  let dataset_name := title lyr ++ "_" ++ Str.fmt_x 7 rnd in
  let layer_url := url lyr ++ "/" ++ Str.of_Z sublayer in
  let post_data := execute_post_data layer_url dataset_name in
  let item := add_data_item layer_url dataset_name in
  let content := VDict [("dataset", VStr dataset_name)] in
  let run := add_feature_layer lyr sublayer rnd self in
  model_items (props self) = Ok (VList items) ->
  page0_field "contents" (props self) = Ok (VList contents) ->
  datasets (props self) = Ok (VDict d) ->
  _workspaceURL self = VStr ws ->
  con_post (_gis self) (ws ++ "/execute") post_data = Ok resp ->
  (forall data my_extent,
     extent lyr sublayer = Ok my_extent ->
     Py.getitem resp dataset_name = Ok data ->
     exists self',
       run = (Ok dataset_name, self', [Post (ws ++ "/execute") post_data]) /\
       model_items (props self') = Ok (VList (items ++ [item])) /\
       page0_field "contents" (props self')
       = Ok (VList (contents ++ [content])) /\
       datasets (props self')
       = Ok (VDict (Dict.set dataset_name
                      (layer_entry data (id lyr) my_extent) d))) /\
  (forall e,
     (let* my_extent := extent lyr sublayer in Py.getitem resp dataset_name)
     = Raise e ->
     exists e' self',
       run = (Raise e', self', [Post (ws ++ "/execute") post_data]) /\
       model_items (props self') = Ok (VList (items ++ [item])) /\
       page0_field "contents" (props self')
       = Ok (VList (contents ++ [content])) /\
       datasets (props self') = Ok (VDict d)).
Proof.
  cbv zeta. intros Hi Hc Hd Hws Hpost. split.
  - intros data my_extent.
    now apply (add_feature_layer_stores lyr sublayer rnd self items contents
                 d ws resp).
  - intros e Hfail. exists TypeError.
    now apply (add_feature_layer_leaves_item lyr sublayer rnd self items
                 contents d ws resp Hi Hc Hd Hws Hpost e).
Qed.

(** a layer whose extent cannot be read *)
Lemma add_feature_layer_outcome_witness :
  let lyr := {| item_gis := Sample.portal; title := "Roads"; name := "roads";
                id := "f00d"; url := url Sample.roads;
                extent := fun _ => Raise IndexError |} in
  exists e' self',
    add_feature_layer lyr 3 1715004 Sample.empty
    = (Raise e', self',
       [Post "https://gis.example.org/portal/arcgis/rest/services/Hosted/000000ff/WorkspaceServer/execute"
          (execute_post_data (url lyr ++ "/3") Sample.roads_dataset)]) /\
    model_items (props self')
    = Ok (VList [add_data_item (url lyr ++ "/3") Sample.roads_dataset]) /\
    datasets (props self') = Ok (VDict []).
Proof.
  intros lyr.
  destruct (proj2 (add_feature_layer_outcome lyr 3 1715004 Sample.empty [] []
                     []
                     "https://gis.example.org/portal/arcgis/rest/services/Hosted/000000ff/WorkspaceServer"
                     (VDict [(Sample.roads_dataset, VStr "data-2")])
                     eq_refl eq_refl eq_refl eq_refl eq_refl)
              IndexError eq_refl)
    as (e' & self' & Hrun & Hitems & _ & Hd).
  exists e', self'. repeat split; assumption.
Defined.

(** ** The handlers *)

(** X12. The handlers never print: each builds its message by adding the
    exception's class to a string, which raises [TypeError].  So when the
    request fails, [new], [open], [add_feature_layer] and [save] raise
    [TypeError] with nothing printed ([save] having already set the four
    keys in [props]), and [update_dataset] does so on an [HTTPError]
    instead of returning [None]. *)
Theorem handlers_raise_type_error :
  (forall gis ttl rnd e,
     con_post gis (new_path gis) (new_post_data (Str.fmt_x 8 rnd)) = Raise e ->
     new gis ttl rnd tt
     = (Raise TypeError, tt,
        [Post (new_path gis) (new_post_data (Str.fmt_x 8 rnd))])) /\
  (forall existing_workbook e,
     let gis := item_gis existing_workbook in
     let path := open_path gis (id existing_workbook) in
     con_get gis path (VDict [("f", VStr "json")]) = Raise e ->
     open existing_workbook tt
     = (Raise TypeError, tt, [Get path (VDict [("f", VStr "json")])])) /\
  (forall lyr sublayer rnd self ws e,
     let post_data :=
       execute_post_data (url lyr ++ "/" ++ Str.of_Z sublayer)
         (title lyr ++ "_" ++ Str.fmt_x 7 rnd) in
     _workspaceURL self = VStr ws ->
     con_post (_gis self) (ws ++ "/execute") post_data = Raise e ->
     add_feature_layer lyr sublayer rnd self
     = (Raise TypeError, self, [Post (ws ++ "/execute") post_data])) /\
  (forall lyr sublayer self items xs op0 rest nm u ws,
     model_items (props self) = Ok items ->
     Py.iter items = Ok xs ->
     Py.filter (is_add_op (url lyr)) xs = Ok (op0 :: rest) ->
     Py.getitem op0 "outDataset" = Ok (VStr nm) ->
     (let* params := Py.getitem op0 "params" in
      let* data := Py.getitem params "data" in
      let* v := Py.getitem data "url" in Py.as_str v) = Ok u ->
     _workspaceURL self = VStr ws ->
     con_post (_gis self) (ws ++ "/execute") (execute_post_data u nm)
     = Raise HTTPError ->
     update_dataset lyr sublayer self
     = (Raise TypeError, self,
        [Post (ws ++ "/execute") (execute_post_data u nm)])) /\
  (forall self d wid e,
     props self = VDict d ->
     _workspaceID self = VStr wid ->
     con_post (_gis self) (save_url (_gis self) wid)
       (save_post_data (_title self) (saved_props self d)) = Raise e ->
     save self
     = (Raise TypeError, with_props self (saved_props self d),
        [Post (save_url (_gis self) wid)
           (save_post_data (_title self) (saved_props self d))])).
Proof.
  split; [|split; [|split; [|split]]].
  - intros gis ttl rnd e H. unfold new, try_except, bind, post. now rewrite H.
  - intros ew e gis path H. subst path gis.
    unfold open, try_except, bind, get.
    change (Dict.literal [("f", VStr "json")]) with [("f", VStr "json")].
    now rewrite H.
  - intros lyr sublayer rnd self ws e post_data Hws H.
    unfold add_feature_layer, try_except, bind. fold post_data.
    now rewrite post_execute_run, Hws, H.
  - intros lyr sublayer self items xs op0 rest nm u ws H1 H2 H3 H4 H5 Hws H.
    unfold update_dataset, bind, read, lift, try_except.
    rewrite H1, H2, H3, H4, H5. simpl.
    now rewrite post_execute_run, Hws, H.
  - intros self d wid e Hp Hw H. rewrite (save_run self d wid Hp Hw).
    now rewrite H.
Qed.

Lemma handlers_raise_type_error_witness :
  new Sample.offline (VStr "Traffic") 255 tt
  = (Raise TypeError, tt,
     [Post (new_path Sample.offline) (new_post_data "000000ff")]) /\
  update_dataset Sample.roads 0 (Sample.workbook Sample.offline
                                   (props Sample.with_roads))
  = (Raise TypeError,
     Sample.workbook Sample.offline (props Sample.with_roads),
     [Post "https://gis.example.org/portal/arcgis/rest/services/Hosted/000000ff/WorkspaceServer/execute"
        (execute_post_data (url Sample.roads ++ "/0") Sample.roads_dataset)]).
Proof.
  split.
  - exact (proj1 handlers_raise_type_error Sample.offline (VStr "Traffic")
             255%N HTTPError eq_refl).
  - exact (proj1 (proj2 (proj2 (proj2 handlers_raise_type_error)))
             Sample.roads 0%Z
             (Sample.workbook Sample.offline (props Sample.with_roads))
             (VList [Sample.roads_item]) [Sample.roads_item]
             Sample.roads_item [] Sample.roads_dataset
             (url Sample.roads ++ "/0")
             "https://gis.example.org/portal/arcgis/rest/services/Hosted/000000ff/WorkspaceServer"
             eq_refl eq_refl eq_refl eq_refl eq_refl eq_refl eq_refl).
Defined.

(** ** [update_dataset] keeps the dataset names *)

Lemma keys_set_present k v d :
  Dict.mem k d = true -> Dict.keys (Dict.set k v d) = Dict.keys d.
Proof.
  unfold Dict.mem, Dict.keys.
  induction d as [|[k' v'] d IH]; simpl; [discriminate|].
  destruct (String.eqb k k'); simpl; [reflexivity|].
  intros H. now rewrite IH.
Qed.

Lemma is_dataset_mem ds p d :
  datasets p = Ok (VDict d) -> is_dataset ds p = Dict.mem ds d.
Proof. unfold is_dataset. now intros ->. Qed.

Section NamesKept.

Variable names : res (list string).
Variable nm : string.

Let I (p : value) : Prop := dataset_names p = names.
Let I' (p : value) : Prop := I p /\ is_dataset nm p = true.

Lemma names_set_dataset x p p' :
  Py.at_key "workspace" (Py.at_key "datasets" (Py.setitem nm x)) p = Ok p' ->
  I' p -> I' p'.
Proof.
  intros H (Hn & Hin). unfold I', I, dataset_names in *.
  pose proof (set_dataset_Ok _ _ _ _ H) as (_ & Hin' & _).
  split; [|exact Hin'].
  apply datasets_edit_Ok in H as ((dss & dss' & Hd & G & Hd') & _).
  destruct dss as [| | | | |d]; try discriminate. injection G as <-.
  rewrite Hd' in *. rewrite Hd in Hn. simpl in *.
  rewrite (is_dataset_mem _ _ _ Hd) in Hin. now rewrite keys_set_present.
Qed.

Lemma names_tool_edit ds f p p' :
  Py.at_key "workspace" (Py.at_key "datasets" (Py.at_key ds f)) p = Ok p' ->
  I' p -> I' p'.
Proof.
  intros H (Hn & Hin). unfold I', I, dataset_names in *.
  split.
  - apply datasets_edit_Ok in H as ((dss & dss' & Hd & G & Hd') & _).
    apply at_key_Ok in G as (d & x & x' & -> & Hget & _ & ->).
    rewrite Hd' in *. rewrite Hd in Hn. simpl in *.
    rewrite keys_set_present; [exact Hn|].
    unfold Dict.mem. now rewrite Hget.
  - revert Hin. apply (kept_datasets_edit nm _ (at_key_stores_one ds f) _ _ H).
Qed.

Ltac names_edit :=
  first [ apply names_set_dataset | apply names_tool_edit ].

Lemma names_kept_after_lookup lyr sublayer resp old_data :
  keeps I'
    (my_extent <- lift (extent lyr sublayer) ;;
     data <- lift (Py.getitem resp nm) ;;
     set_dataset nm (layer_entry data (id lyr) my_extent) ;;;
     dss <- read datasets ;;
     ks <- lift (Py.keys dss) ;;
     for_each ks (replace_references old_data resp nm) ;;;
     ret (VStr nm)).
Proof.
  unfold replace_references, set_dataset, set_tool_dataset.
  repeat keeps_step names_edit.
Qed.

End NamesKept.

Lemma keeps_read_guard {A B} (I : value -> Prop) (f : value -> res A)
    (k : A -> method B) :
  (forall a self, f (props self) = Ok a -> I (props self) ->
                  I (props (snd (fst (k a self))))) ->
  keeps I (bind (read f) k).
Proof.
  intros Hk self H. unfold bind, read.
  destruct (f (props self)) as [a|e] eqn:E; [|exact H].
  specialize (Hk a self E H). now destruct (k a self) as [[r s] l].
Qed.

Lemma update_dataset_keeps_names names lyr sublayer :
  keeps (fun p => dataset_names p = names) (update_dataset lyr sublayer).
Proof.
  unfold update_dataset.
  apply keeps_bind; [apply keeps_read|intros items].
  apply keeps_bind; [apply keeps_lift|intros xs].
  apply keeps_bind; [apply keeps_lift|intros [|op0 rest]].
  { repeat keeps_step idtac. }
  apply keeps_bind; [apply keeps_lift|intros out].
  apply keeps_bind; [apply keeps_lift|intros op_url].
  apply keeps_bind; [apply keeps_lift|intros nm].
  apply keeps_try_except; [|intros []; repeat keeps_step idtac].
  apply keeps_bind; [apply keeps_post_execute|intros resp].
  apply keeps_read_guard. intros old_data self Hold Hn.
  apply (names_kept_after_lookup names nm lyr sublayer resp old_data self).
  split; [exact Hn|].
  destruct (dataset_entry nm (props self)) as [entry|] eqn:E; [|discriminate].
  now apply is_dataset_of_entry in E.
Qed.

(** X13. [update_dataset] neither adds nor removes nor reorders datasets:
    the keys of [props['workspace']['datasets']] are after the call what
    they were before, in the same order, whether it returned or raised. *)
Theorem update_dataset_keeps_dataset_names lyr sublayer self :
  dataset_names (props (after (UpdateDataset lyr sublayer) self))
  = dataset_names (props self).
Proof.
  now apply (update_dataset_keeps_names (dataset_names (props self))).
Qed.

(** ** The reference loop of [update_dataset] *)

Lemma nth_error_list_set_same i x l t :
  nth_error l i = Some t -> nth_error (Py.list_set i x l) i = Some x.
Proof.
  revert i. induction l as [|y l IH]; intros [|i]; simpl; try discriminate;
    auto.
Qed.

Lemma nth_error_list_set_other i j x l :
  j <> i -> nth_error (Py.list_set i x l) j = nth_error l j.
Proof.
  revert i j. induction l as [|y l IH]; intros [|i] [|j] H; simpl; auto.
  - contradiction.
Qed.

Lemma length_list_set i x l : List.length (Py.list_set i x l) = List.length l.
Proof. revert i. induction l as [|y l IH]; intros [|i]; simpl; auto. Qed.

Lemma at_index_key_Ok i k f v v' :
  Py.at_index i (Py.at_key k f) v = Ok v' ->
  exists l t t',
    v = VList l /\ nth_error l i = Some t /\ Py.at_key k f t = Ok t' /\
    v' = VList (Py.list_set i t' l).
Proof.
  destruct v as [| | |s|l|d]; try discriminate; simpl.
  - destruct (String.get i s); discriminate.
  - destruct (nth_error l i) as [t|] eqn:E; [|discriminate].
    destruct (Py.at_key k f t) as [t'|] eqn:F; [|discriminate].
    intros H. injection H as <-. eauto 8.
Qed.

Lemma dataset_tools_of_entry ds p p' :
  dataset_entry ds p' = dataset_entry ds p ->
  dataset_tools ds p' = dataset_tools ds p.
Proof. unfold dataset_tools. now intros ->. Qed.

Lemma tool_dataset_of_entry ds i p p' :
  dataset_entry ds p' = dataset_entry ds p ->
  tool_dataset ds i p' = tool_dataset ds i p.
Proof.
  intros H. unfold tool_dataset. now rewrite (dataset_tools_of_entry _ _ _ H).
Qed.

(** a reference lives in a list of tools, below its length *)
Lemma tool_dataset_in_list ds i p c :
  tool_dataset ds i p = Ok c ->
  exists l, dataset_tools ds p = Ok (VList l) /\ i < List.length l.
Proof.
  unfold tool_dataset.
  destruct (dataset_tools ds p) as [[| | |s|l|d]|e]; simpl; try discriminate.
  - destruct (String.get i s); discriminate.
  - destruct (nth_error l i) as [t|] eqn:E; [|discriminate].
    intros _. exists l. split; [reflexivity|].
    apply nth_error_Some. congruence.
Qed.

(** the effect of [...[ds]['data']['tools'][i]['params']['dataset'] = x] *)
Lemma set_tool_dataset_Ok ds i x p p' :
  Py.at_key "workspace" (Py.at_key "datasets" (Py.at_key ds
    (Py.at_key "data" (Py.at_key "tools" (Py.at_index i
       (Py.at_key "params" (Py.setitem "dataset" x))))))) p = Ok p' ->
  tool_dataset ds i p' = Ok x /\
  (forall j, j <> i -> tool_dataset ds j p' = tool_dataset ds j p) /\
  (forall l, dataset_tools ds p = Ok (VList l) ->
     exists l', dataset_tools ds p' = Ok (VList l') /\
                List.length l' = List.length l) /\
  (forall ds', ds' <> ds -> dataset_entry ds' p' = dataset_entry ds' p).
Proof.
  intros H.
  apply at_key_same in H as (ws & ws' & G1 & H & G1').
  apply at_key_same in H as (dss & dss' & G2 & H & G2').
  assert (Hother : forall ds', ds' <> ds ->
            Py.getitem dss' ds' = Py.getitem dss ds').
  { intros ds' Hne. now apply at_key_other with (k' := ds') in H. }
  apply at_key_same in H as (entry & entry' & G3 & H & G3').
  apply at_key_same in H as (data & data' & G4 & H & G4').
  apply at_key_same in H as (tools & tools' & G5 & H & G5').
  apply at_index_key_Ok in H as (l & t & t' & -> & Hnth & H & ->).
  apply at_key_same in H as (params & params' & G6 & H & G6').
  destruct params as [| | | | |pd]; try discriminate. injection H as <-.
  assert (Htools : dataset_tools ds p = Ok (VList l)).
  { unfold dataset_tools, dataset_entry, datasets.
    rewrite G1. simpl. rewrite G2. simpl. rewrite G3. simpl.
    now rewrite G4. }
  assert (Htools' : dataset_tools ds p' = Ok (VList (Py.list_set i t' l))).
  { unfold dataset_tools, dataset_entry, datasets.
    rewrite G1'. simpl. rewrite G2'. simpl. rewrite G3'. simpl.
    now rewrite G4'. }
  split; [|split; [|split]].
  - unfold tool_dataset. rewrite Htools'. simpl.
    rewrite (nth_error_list_set_same _ _ _ _ Hnth). simpl.
    rewrite G6'. simpl. now rewrite get_set_same.
  - intros j Hne. unfold tool_dataset. rewrite Htools, Htools'. simpl.
    now rewrite nth_error_list_set_other.
  - intros l0 Hl0. rewrite Htools in Hl0. injection Hl0 as <-.
    exists (Py.list_set i t' l). split; [exact Htools'|].
    apply length_list_set.
  - intros ds' Hne. unfold dataset_entry, datasets.
    rewrite G1, G1'. simpl. rewrite G2, G2'. simpl. now apply Hother.
Qed.

Lemma set_tool_dataset_total ds i x p c :
  tool_dataset ds i p = Ok c ->
  exists p',
    Py.at_key "workspace" (Py.at_key "datasets" (Py.at_key ds
      (Py.at_key "data" (Py.at_key "tools" (Py.at_index i
         (Py.at_key "params" (Py.setitem "dataset" x))))))) p = Ok p'.
Proof.
  unfold tool_dataset, dataset_tools, dataset_entry, datasets. intros H.
  destruct (Py.getitem p "workspace") as [ws|] eqn:G1; [|discriminate].
  simpl in H.
  destruct (Py.getitem ws "datasets") as [dss|] eqn:G2; [|discriminate].
  simpl in H.
  destruct (Py.getitem dss ds) as [entry|] eqn:G3; [|discriminate].
  simpl in H.
  destruct (Py.getitem entry "data") as [data|] eqn:G4; [|discriminate].
  simpl in H.
  destruct (Py.getitem data "tools") as [tools|] eqn:G5; [|discriminate].
  simpl in H.
  destruct (Py.getitem_int tools i) as [t|] eqn:G6; [|discriminate].
  simpl in H.
  destruct (Py.getitem t "params") as [params|] eqn:G7; [|discriminate].
  simpl in H.
  assert (Hp : exists pd, params = VDict pd).
  { destruct params; try discriminate. eauto. }
  destruct Hp as (pd & ->).
  destruct (at_key_total "params" (Py.setitem "dataset" x) t (VDict pd)
              (VDict (Dict.set "dataset" x pd)) G7 eq_refl) as (t' & Ht).
  assert (Hl : exists tools',
             Py.at_index i (Py.at_key "params" (Py.setitem "dataset" x)) tools
             = Ok tools').
  { destruct tools as [| | |s|l|dd]; try discriminate; simpl in *.
    - destruct (String.get i s); [|discriminate]. injection G6 as <-.
      discriminate.
    - destruct (nth_error l i); [|discriminate]. injection G6 as ->.
      rewrite Ht. simpl. eauto. }
  destruct Hl as (tools' & Htools).
  destruct (at_key_total "tools" _ data tools tools' G5 Htools) as (data' & Hd).
  destruct (at_key_total "data" _ entry data data' G4 Hd) as (entry' & He).
  destruct (at_key_total ds _ dss entry entry' G3 He) as (dss' & Hdss).
  destruct (at_key_total "datasets" _ ws dss dss' G2 Hdss) as (ws' & Hws).
  exact (at_key_total "workspace" _ p ws ws' G1 Hws).
Qed.

Section ReferenceLoop.

Variables old_data resp new_data : value.
Variable nm : string.

Hypothesis Hnew : Py.getitem resp nm = Ok new_data.

Let replaced := replace_reference old_data new_data.

(** one index of one dataset *)
Lemma replace_at_run ds i self c :
  tool_dataset ds i (props self) = Ok c ->
  exists self',
    replace_at old_data resp nm ds i self = (Ok tt, self', []) /\
    tool_dataset ds i (props self') = Ok (replaced c) /\
    (forall j, j <> i ->
       tool_dataset ds j (props self') = tool_dataset ds j (props self)) /\
    (forall l, dataset_tools ds (props self) = Ok (VList l) ->
       exists l', dataset_tools ds (props self') = Ok (VList l') /\
                  List.length l' = List.length l) /\
    (forall ds', ds' <> ds ->
       dataset_entry ds' (props self') = dataset_entry ds' (props self)).
Proof.
  intros Hc. unfold replace_at, bind, read, replaced, replace_reference.
  rewrite Hc. destruct (Py.eq c old_data) eqn:E.
  - destruct (set_tool_dataset_total ds i new_data _ _ Hc) as (p' & Hp).
    destruct (set_tool_dataset_Ok _ _ _ _ _ Hp) as (H1 & H2 & H3 & H4).
    exists (with_props self p').
    unfold lift, set_tool_dataset, edit. rewrite Hnew. simpl. rewrite Hp.
    simpl. auto.
  - exists self. simpl. repeat split; eauto.
Qed.

(** the indices [j, j + m) of one dataset *)
Lemma replace_range_run ds m :
  forall j self,
    (forall i, j <= i < j + m ->
       exists c, tool_dataset ds i (props self) = Ok c) ->
    exists self',
      for_each (seq j m) (replace_at old_data resp nm ds) self
      = (Ok tt, self', []) /\
      (forall i c, j <= i < j + m ->
         tool_dataset ds i (props self) = Ok c ->
         tool_dataset ds i (props self') = Ok (replaced c)) /\
      (forall i, ~ (j <= i < j + m) ->
         tool_dataset ds i (props self') = tool_dataset ds i (props self)) /\
      (forall l, dataset_tools ds (props self) = Ok (VList l) ->
         exists l', dataset_tools ds (props self') = Ok (VList l') /\
                    List.length l' = List.length l) /\
      (forall ds', ds' <> ds ->
         dataset_entry ds' (props self') = dataset_entry ds' (props self)).
Proof.
  induction m as [|m IH]; intros j self Hall.
  - exists self. simpl. repeat split; eauto. intros i c Hi. lia.
  - destruct (Hall j ltac:(lia)) as (cj & Hcj).
    destruct (replace_at_run ds j self cj Hcj)
      as (s1 & R1 & Hj & Hoth & Hshape & Hframe).
    destruct (IH (S j) s1) as (s2 & R2 & Hdone & Hrest & Hshape2 & Hframe2).
    { intros i Hi. rewrite Hoth by lia. apply Hall. lia. }
    exists s2. split; [|split; [|split; [|split]]].
    + cbn [seq for_each]. unfold bind at 1. rewrite R1, R2. reflexivity.
    + intros i c Hi Hc. destruct (Nat.eq_dec i j) as [->|Hne].
      * rewrite Hrest by lia. rewrite Hcj in Hc. injection Hc as <-. exact Hj.
      * apply Hdone; [lia|]. now rewrite Hoth.
    + intros i Hi. rewrite Hrest by lia. apply Hoth. lia.
    + intros l Hl. destruct (Hshape l Hl) as (l1 & Hl1 & Hlen1).
      destruct (Hshape2 l1 Hl1) as (l2 & Hl2 & Hlen2).
      exists l2. split; [exact Hl2 | congruence].
    + intros ds' Hne. rewrite Hframe2, Hframe; auto.
Qed.

End ReferenceLoop.

Lemma getitem_errors v k e :
  Py.getitem v k = Raise e -> e = KeyError \/ e = TypeError.
Proof.
  destruct v as [| | | | |d]; simpl; intros H; try (injection H as <-; auto).
  destruct (Dict.get k d); [discriminate|]. injection H as <-. auto.
Qed.

Lemma dataset_tools_errors ds p e :
  dataset_tools ds p = Raise e -> e = KeyError \/ e = TypeError.
Proof.
  unfold dataset_tools, dataset_entry, datasets.
  destruct (Py.getitem p "workspace") as [ws|] eqn:G1; simpl;
    [|intros H; injection H as <-; eapply getitem_errors; eauto].
  destruct (Py.getitem ws "datasets") as [dss|] eqn:G2; simpl;
    [|intros H; injection H as <-; eapply getitem_errors; eauto].
  destruct (Py.getitem dss ds) as [entry|] eqn:G3; simpl;
    [|intros H; injection H as <-; eapply getitem_errors; eauto].
  destruct (Py.getitem entry "data") as [data|] eqn:G4; simpl;
    [|intros H; injection H as <-; eapply getitem_errors; eauto].
  apply getitem_errors.
Qed.

(** [replace_references], step by step *)
Lemma replace_references_run old_data resp nm ds self :
  replace_references old_data resp nm ds self =
  match dataset_tools ds (props self) with
  | Raise KeyError | Raise TypeError => (Ok tt, self, [])
  | Raise e => (Raise e, self, [])
  | Ok tools =>
      match Py.len tools with
      | Raise KeyError | Raise TypeError => (Ok tt, self, [])
      | Raise e => (Raise e, self, [])
      | Ok n =>
          match for_each (seq 0 n) (replace_at old_data resp nm ds) self with
          | (Ok a, s', l) => (Ok a, s', l)
          | (Raise KeyError, s', l) | (Raise TypeError, s', l) => (Ok tt, s', l)
          | (Raise e, s', l) => (Raise e, s', l)
          end
      end
  end.
Proof.
  unfold replace_references, try_except.
  change (fun i : nat =>
            cur <- read (tool_dataset ds i);;
            (if Py.eq cur old_data
             then new_data <- lift (Py.getitem resp nm);;
                  set_tool_dataset ds i new_data
             else ret tt))
    with (replace_at old_data resp nm ds).
  unfold bind at 1, read.
  destruct (dataset_tools ds (props self)) as [tools|e].
  - unfold bind at 1, lift. destruct (Py.len tools) as [n|e].
    + destruct (for_each (seq 0 n) (replace_at old_data resp nm ds) self)
        as [[[a|e] s'] l]; [reflexivity|].
      destruct e; simpl; rewrite ?app_nil_r; reflexivity.
    + destruct e; reflexivity.
  - destruct e; reflexivity.
Qed.

Section ReferencesOfOneDataset.

Variables old_data resp new_data : value.
Variable nm : string.

Hypothesis Hnew : Py.getitem resp nm = Ok new_data.

Let replaced := replace_reference old_data new_data.

Lemma replace_references_list ds self l :
  dataset_tools ds (props self) = Ok (VList l) ->
  (forall i, i < List.length l ->
     exists c, tool_dataset ds i (props self) = Ok c) ->
  exists self',
    replace_references old_data resp nm ds self = (Ok tt, self', []) /\
    (forall i c, tool_dataset ds i (props self) = Ok c ->
       tool_dataset ds i (props self') = Ok (replaced c)) /\
    (exists l', dataset_tools ds (props self') = Ok (VList l') /\
                List.length l' = List.length l) /\
    (forall ds', ds' <> ds ->
       dataset_entry ds' (props self') = dataset_entry ds' (props self)).
Proof.
  intros Hl Hall.
  destruct (replace_range_run old_data resp new_data nm Hnew ds
              (List.length l) 0 self)
    as (s' & R & Hdone & _ & Hshape & Hframe).
  { intros i Hi. apply Hall. lia. }
  exists s'. split; [|split; [|split]].
  - rewrite replace_references_run, Hl. cbn [Py.len]. now rewrite R.
  - intros i c Hc. apply Hdone; [|exact Hc].
    destruct (tool_dataset_in_list _ _ _ _ Hc) as (l0 & Hl0 & Hi).
    rewrite Hl in Hl0. injection Hl0 as <-. lia.
  - now apply Hshape.
  - exact Hframe.
Qed.

Lemma replace_references_skip ds self :
  (forall l, dataset_tools ds (props self) <> Ok (VList l)) ->
  replace_references old_data resp nm ds self = (Ok tt, self, []).
Proof.
  intros Hno. rewrite replace_references_run.
  destruct (dataset_tools ds (props self)) as [[| | |s|l|dd]|e] eqn:E;
    try reflexivity.
  - destruct s as [|c s]; [reflexivity|].
    cbn [Py.len String.length seq for_each].
    unfold bind at 1, replace_at at 1, bind at 1, read, tool_dataset.
    rewrite E. reflexivity.
  - now elim (Hno l).
  - destruct dd as [|kv dd]; [reflexivity|].
    cbn [Py.len List.length seq for_each].
    unfold bind at 1, replace_at at 1, bind at 1, read, tool_dataset.
    rewrite E. reflexivity.
  - destruct (dataset_tools_errors _ _ _ E) as [-> | ->]; reflexivity.
Qed.

End ReferencesOfOneDataset.

Lemma references_replaced_of_entry old_data new_data q0 q q' ds :
  dataset_entry ds q' = dataset_entry ds q ->
  references_replaced old_data new_data q0 q ds ->
  references_replaced old_data new_data q0 q' ds.
Proof.
  intros He (H1 & H2 & H3). split; [|split].
  - intros i c Hc. rewrite (tool_dataset_of_entry _ _ _ _ He). auto.
  - intros l Hl. rewrite (dataset_tools_of_entry _ _ _ He). auto.
  - intros Hno. rewrite He. auto.
Qed.

Section ReferencesOfAllDatasets.

Variables old_data resp new_data : value.
Variable nm : string.
Variable q0 : value.

Hypothesis Hnew : Py.getitem resp nm = Ok new_data.
Hypothesis Hcarry : tools_carry_dataset q0.

Lemma replace_references_one ds self :
  dataset_entry ds (props self) = dataset_entry ds q0 ->
  exists self',
    replace_references old_data resp nm ds self = (Ok tt, self', []) /\
    references_replaced old_data new_data q0 (props self') ds /\
    (forall ds', ds' <> ds ->
       dataset_entry ds' (props self') = dataset_entry ds' (props self)).
Proof.
  intros He.
  pose proof (dataset_tools_of_entry _ _ _ He) as Ht.
  assert (Hi : forall i, tool_dataset ds i (props self) = tool_dataset ds i q0)
    by (intros i; now apply tool_dataset_of_entry).
  destruct (dataset_tools ds q0) as [[| | |s|l|dd]|e] eqn:E; rewrite ?E in Ht.
  5: {
    destruct (replace_references_list old_data resp new_data nm Hnew ds self l
                Ht) as (s' & R & Hdone & Hshape & Hframe).
    { intros i Hlt. rewrite Hi. now apply (Hcarry ds l i). }
    exists s'. split; [exact R|]. split; [|exact Hframe].
    split; [|split].
    - intros i c Hc. apply Hdone. now rewrite Hi.
    - intros l0 Hl0. rewrite E in Hl0. injection Hl0 as <-. exact Hshape.
    - intros Hno. exact (False_ind _ (Hno l E)). }
  all: exists self; split;
    [apply replace_references_skip; intros l0; rewrite Ht; discriminate|];
    split; [|reflexivity];
    (split; [|split]);
    [ intros i c Hc; apply tool_dataset_in_list in Hc as (l0 & Hl0 & _);
      rewrite E in Hl0; discriminate
    | intros l0 Hl0; rewrite E in Hl0; discriminate
    | intros _; exact He ].
Qed.

Lemma replace_references_all ks :
  forall self,
    NoDup ks ->
    (forall ds, In ds ks ->
       dataset_entry ds (props self) = dataset_entry ds q0) ->
    exists self',
      for_each ks (replace_references old_data resp nm) self
      = (Ok tt, self', []) /\
      (forall ds, In ds ks ->
         references_replaced old_data new_data q0 (props self') ds) /\
      (forall ds, ~ In ds ks ->
         dataset_entry ds (props self') = dataset_entry ds (props self)).
Proof.
  induction ks as [|ds ks IH]; intros self Hnd Hsame.
  - exists self. split; [reflexivity|]. split; [intros ? []|reflexivity].
  - inversion Hnd as [|? ? Hnotin Hnd']; subst.
    destruct (replace_references_one ds self (Hsame ds (or_introl eq_refl)))
      as (s1 & R1 & Hdone1 & Hframe1).
    destruct (IH s1 Hnd') as (s2 & R2 & Hdone2 & Hout2).
    { intros ds' Hin. rewrite Hframe1; [apply Hsame; now right|].
      intros ->. contradiction. }
    exists s2. split; [|split].
    + cbn [for_each]. unfold bind at 1. rewrite R1, R2. reflexivity.
    + intros ds' [<-|Hin]; [|now apply Hdone2].
      apply (references_replaced_of_entry _ _ _ (props s1)); auto.
    + intros ds' Hout. rewrite Hout2 by (intros Hin; apply Hout; now right).
      apply Hframe1. intros ->. apply Hout. now left.
Qed.

End ReferencesOfAllDatasets.

Lemma references_replaced_from old_data new_data q0 q0' q' ds :
  dataset_entry ds q0' = dataset_entry ds q0 ->
  references_replaced old_data new_data q0 q' ds ->
  references_replaced old_data new_data q0' q' ds.
Proof.
  intros He (H1 & H2 & H3). split; [|split].
  - intros i c. rewrite (tool_dataset_of_entry _ _ _ _ He). auto.
  - intros l. rewrite (dataset_tools_of_entry _ _ _ He). auto.
  - rewrite He. intros Hno. apply H3. intros l.
    rewrite <- (dataset_tools_of_entry _ _ _ He). auto.
Qed.

Lemma dataset_entry_in_keys ds p d entry :
  datasets p = Ok (VDict d) -> dataset_entry ds p = Ok entry ->
  In ds (Dict.keys d) /\ Dict.get ds d = Some entry.
Proof.
  unfold dataset_entry. intros -> H. simpl in H.
  destruct (Dict.get ds d) as [x|] eqn:E; [|discriminate].
  injection H as ->. split; [|reflexivity].
  clear -E. induction d as [|[k v] d IH]; simpl in *; [discriminate|].
  destruct (String.eqb_spec ds k) as [->|Hne]; auto.
Qed.

Lemma dataset_entry_of_datasets ds p p' :
  datasets p' = datasets p -> dataset_entry ds p' = dataset_entry ds p.
Proof. unfold dataset_entry. now intros ->. Qed.

Section UpdateDatasetReplaces.

Variable lyr : Item.
Variable sublayer : Z.
Variable self : InsightsWorkbook.
Variables (items : value) (xs : list value) (op0 : value) (rest : list value).
Variables nm u ws : string.
Variables resp old_data new_data my_extent : value.
Variable d : Dict.t.

Hypothesis Hitems : model_items (props self) = Ok items.
Hypothesis Hiter : Py.iter items = Ok xs.
Hypothesis Hfilter : Py.filter (is_add_op (url lyr)) xs = Ok (op0 :: rest).
Hypothesis Hout : Py.getitem op0 "outDataset" = Ok (VStr nm).
Hypothesis Hurl :
  (let* params := Py.getitem op0 "params" in
   let* data := Py.getitem params "data" in
   let* v := Py.getitem data "url" in Py.as_str v) = Ok u.
Hypothesis Hws : _workspaceURL self = VStr ws.
Hypothesis Hpost :
  con_post (_gis self) (ws ++ "/execute") (execute_post_data u nm) = Ok resp.
Hypothesis Hdatasets : datasets (props self) = Ok (VDict d).
Hypothesis Hnodup : NoDup (Dict.keys d).
Hypothesis Hold :
  (let* entry := dataset_entry nm (props self) in Py.getitem entry "data")
  = Ok old_data.
Hypothesis Hextent : extent lyr sublayer = Ok my_extent.
Hypothesis Hnew : Py.getitem resp nm = Ok new_data.
Hypothesis Hplain : forall l, Py.getitem new_data "tools" <> Ok (VList l).
Hypothesis Hcarry : tools_carry_dataset (props self).

Let new_entry := layer_entry new_data (id lyr) my_extent.

Lemma update_dataset_stores_entry :
  exists p1,
    Py.at_key "workspace" (Py.at_key "datasets" (Py.setitem nm new_entry))
      (props self) = Ok p1 /\
    datasets p1 = Ok (VDict (Dict.set nm new_entry d)) /\
    Dict.keys (Dict.set nm new_entry d) = Dict.keys d /\
    dataset_entry nm p1 = Ok new_entry /\
    (forall ds, ds <> nm -> dataset_entry ds p1 = dataset_entry ds (props self)) /\
    tools_carry_dataset p1.
Proof.
  destruct (set_dataset_total nm new_entry _ _ Hdatasets) as (p1 & E1).
  pose proof (set_dataset_datasets _ _ _ _ _ Hdatasets E1) as Hd1.
  assert (Hother : forall ds, ds <> nm ->
            dataset_entry ds p1 = dataset_entry ds (props self)).
  { intros ds Hne. unfold dataset_entry. rewrite Hd1, Hdatasets.
    now apply getitem_set_other. }
  assert (Hsame : dataset_entry nm p1 = Ok new_entry).
  { unfold dataset_entry. rewrite Hd1. apply getitem_set_same. }
  exists p1. repeat split; auto.
  - apply keys_set_present.
    destruct (dataset_entry nm (props self)) as [entry|] eqn:E;
      [|discriminate].
    apply (dataset_entry_in_keys _ _ _ _ Hdatasets) in E as (_ & E).
    unfold Dict.mem. now rewrite E.
  - intros ds l i Hl Hi. destruct (String.eqb_spec ds nm) as [->|Hne].
    + exfalso. unfold dataset_tools in Hl. rewrite Hsame in Hl.
      now apply (Hplain l).
    + rewrite (tool_dataset_of_entry _ _ _ _ (Hother ds Hne)).
      apply (Hcarry ds l i); auto.
      now rewrite <- (dataset_tools_of_entry _ _ _ (Hother ds Hne)).
Qed.

Lemma update_dataset_replaces :
  exists self',
    update_dataset lyr sublayer self
    = (Ok (VStr nm), self',
       [Post (ws ++ "/execute") (execute_post_data u nm)]) /\
    dataset_entry nm (props self') = Ok new_entry /\
    (forall ds, ds <> nm ->
       references_replaced old_data new_data (props self) (props self') ds) /\
    (Py.eq new_data old_data = false ->
     forall ds i c, tool_dataset ds i (props self') = Ok c ->
                    Py.eq c old_data = false).
Proof.
  destruct update_dataset_stores_entry
    as (p1 & E1 & Hd1 & Hkeys & Hsame & Hother & Hcarry1).
  destruct (replace_references_all old_data resp new_data nm p1 Hnew Hcarry1
              (Dict.keys (Dict.set nm new_entry d)) (with_props self p1))
    as (s' & R & Hdone & Hrest); [now rewrite Hkeys | reflexivity |].
  assert (Hall : forall ds,
            references_replaced old_data new_data p1 (props s') ds).
  { intros ds.
    destruct (in_dec string_dec ds (Dict.keys (Dict.set nm new_entry d)))
      as [Hin|Hnin]; [now apply Hdone|].
    specialize (Hrest ds Hnin). simpl in Hrest.
    split; [|split].
    - intros i c Hc. exfalso.
      unfold tool_dataset, dataset_tools in Hc.
      destruct (dataset_entry ds p1) as [entry|] eqn:E; [|discriminate].
      now apply (dataset_entry_in_keys _ _ _ _ Hd1) in E as (E & _).
    - intros l Hl. exfalso. unfold dataset_tools in Hl.
      destruct (dataset_entry ds p1) as [entry|] eqn:E; [|discriminate].
      now apply (dataset_entry_in_keys _ _ _ _ Hd1) in E as (E & _).
    - intros _. exact Hrest. }
  assert (Hnm_plain : forall l, dataset_tools nm p1 <> Ok (VList l)).
  { intros l. unfold dataset_tools. rewrite Hsame. apply Hplain. }
  exists s'. split; [|split; [|split]].
  - unfold update_dataset, bind, read, lift, try_except.
    rewrite Hitems, Hiter, Hfilter, Hout, Hurl. simpl.
    rewrite post_execute_run, Hws, Hpost, Hold, Hextent, Hnew.
    unfold set_dataset, edit. fold new_entry. rewrite E1. simpl.
    rewrite Hd1. simpl. rewrite R. reflexivity.
  - destruct (Hall nm) as (_ & _ & H3). rewrite H3; auto.
  - intros ds Hne.
    apply (references_replaced_from _ _ p1); [|apply Hall].
    symmetry. now apply Hother.
  - intros Hneq ds i c Hc.
    destruct (tool_dataset_in_list _ _ _ _ Hc) as (l' & Hl' & Hi).
    destruct (Hall ds) as (H1 & H2 & H3).
    destruct (dataset_tools ds p1) as [[| | |s|l|dd]|e] eqn:E.
    5: {
      destruct (H2 l eq_refl) as (l2 & Hl2 & Hlen).
      rewrite Hl' in Hl2. injection Hl2 as <-.
      destruct (Hcarry1 ds l i E ltac:(lia)) as (c0 & Hc0).
      rewrite (H1 i c0 Hc0) in Hc. injection Hc as <-.
      unfold replace_reference. destruct (Py.eq c0 old_data) eqn:Ec; auto. }
    all: exfalso;
      assert (He : dataset_entry ds (props s') = dataset_entry ds p1)
        by (apply H3; intros l0; discriminate);
      rewrite (dataset_tools_of_entry _ _ _ He), E in Hl'; discriminate.
Qed.

End UpdateDatasetReplaces.

Lemma references_are_strings_carry p :
  references_are_strings p -> tools_carry_dataset p.
Proof.
  intros H ds l i Hl Hi. destruct (H ds l i Hl Hi) as (s & Hs). eauto.
Qed.

(** X14. When every tool of every list-valued [data.tools] carries a
    [params.dataset] that is a string (so that no tool holds another
    dataset's data object, which an assignment in place would change
    wherever it is held), the datasets have distinct names and the data
    the server answers has no list of tools of its own, a call of
    [update_dataset] whose request is answered returns the dataset name of
    the first matching model item, stores the new entry under it, and
    replaces every [params.dataset] equal to the old data by the new data
    in all other datasets, leaving every other reference and every
    dataset without a list of tools as it was; when the new data differs
    from the old, no reference equal to the old data is left. *)
Theorem update_dataset_replaces_all_references lyr sublayer self items xs op0
    rest nm u ws resp old_data new_data my_extent d :
  model_items (props self) = Ok items ->
  Py.iter items = Ok xs ->
  Py.filter (is_add_op (url lyr)) xs = Ok (op0 :: rest) ->
  Py.getitem op0 "outDataset" = Ok (VStr nm) ->
  (let* params := Py.getitem op0 "params" in
   let* data := Py.getitem params "data" in
   let* v := Py.getitem data "url" in Py.as_str v) = Ok u ->
  _workspaceURL self = VStr ws ->
  con_post (_gis self) (ws ++ "/execute") (execute_post_data u nm) = Ok resp ->
  datasets (props self) = Ok (VDict d) ->
  NoDup (Dict.keys d) ->
  (let* entry := dataset_entry nm (props self) in Py.getitem entry "data")
  = Ok old_data ->
  extent lyr sublayer = Ok my_extent ->
  Py.getitem resp nm = Ok new_data ->
  (forall l, Py.getitem new_data "tools" <> Ok (VList l)) ->
  references_are_strings (props self) ->
  exists self',
    update_dataset lyr sublayer self
    = (Ok (VStr nm), self',
       [Post (ws ++ "/execute") (execute_post_data u nm)]) /\
    dataset_entry nm (props self')
    = Ok (layer_entry new_data (id lyr) my_extent) /\
    (forall ds, ds <> nm ->
       references_replaced old_data new_data (props self) (props self') ds) /\
    (Py.eq new_data old_data = false ->
     forall ds i c, tool_dataset ds i (props self') = Ok c ->
                    Py.eq c old_data = false).
Proof.
  intros. eapply update_dataset_replaces; eauto.
  now apply references_are_strings_carry.
Qed.

Lemma with_aggregate_strings :
  references_are_strings (props Cases.with_aggregate).
Proof.
  intros ds l i. unfold dataset_tools, tool_dataset, dataset_tools,
    dataset_entry.
  change (datasets (props Cases.with_aggregate))
    with (Ok (VDict [(Sample.roads_dataset,
                      layer_entry (VStr "data-1") "f00d" Sample.box);
                     ("Roads_0000011",
                      aggregate_entry (VStr "data-1") (VStr "Roads_0000011")
                        Sample.roads_dataset "kind" "esriFieldTypeString"
                        "avg" "LEN" "len_avg" "esriFieldTypeDouble"
                        "Roads_0000011")])).
  cbn [rbind Py.getitem Dict.get].
  destruct (String.eqb ds Sample.roads_dataset); [discriminate|].
  destruct (String.eqb ds "Roads_0000011"); [|discriminate].
  intros H. injection H as <-. intros Hi.
  destruct i as [|i]; [|simpl in Hi; lia]. eexists. reflexivity.
Qed.

Lemma update_dataset_replaces_all_references_witness :
  exists self',
    update_dataset Sample.roads 0 Cases.with_aggregate
    = (Ok (VStr Sample.roads_dataset), self',
       [Post ("https://gis.example.org/portal/arcgis/rest/services/Hosted/000000ff/WorkspaceServer" ++ "/execute")
          (execute_post_data (url Sample.roads ++ "/0") Sample.roads_dataset)]) /\
    tool_dataset "Roads_0000011" 0 (props self') = Ok (VStr "data-2").
Proof.
  destruct (update_dataset_replaces_all_references Sample.roads 0
              Cases.with_aggregate
              (VList [Sample.roads_item;
                      aggregate_item Sample.roads_dataset "kind" "avg" "LEN"
                        "len_avg" "Roads_0000011"])
              [Sample.roads_item;
               aggregate_item Sample.roads_dataset "kind" "avg" "LEN"
                 "len_avg" "Roads_0000011"]
              Sample.roads_item [] Sample.roads_dataset
              (url Sample.roads ++ "/0")
              "https://gis.example.org/portal/arcgis/rest/services/Hosted/000000ff/WorkspaceServer"
              (VDict [(Sample.roads_dataset, VStr "data-2")])
              (VStr "data-1") (VStr "data-2") Sample.box
              [(Sample.roads_dataset,
                layer_entry (VStr "data-1") "f00d" Sample.box);
               ("Roads_0000011",
                aggregate_entry (VStr "data-1") (VStr "Roads_0000011")
                  Sample.roads_dataset "kind" "esriFieldTypeString" "avg"
                  "LEN" "len_avg" "esriFieldTypeDouble" "Roads_0000011")]
              eq_refl eq_refl eq_refl eq_refl eq_refl eq_refl eq_refl eq_refl)
    as (self' & Hrun & _ & Hrep & _).
  - repeat constructor; simpl; intuition discriminate.
  - reflexivity.
  - reflexivity.
  - reflexivity.
  - intros l. discriminate.
  - exact with_aggregate_strings.
  - exists self'. split; [exact Hrun|].
    destruct (Hrep "Roads_0000011" ltac:(discriminate)) as (H1 & _).
    exact (H1 0 (VStr "data-1") eq_refl).
Defined.

(** ** [update_dataset] after [add_feature_layer] *)

Lemma prefix_append (a b : string) : prefix a (a ++ b) = true.
Proof.
  induction a as [|c a IH]; simpl; [now destruct b|].
  destruct (ascii_dec c c); [exact IH | contradiction].
Qed.

Lemma index_prefix (a b : string) : String.index 0 a (a ++ b) = Some 0.
Proof.
  pose proof (prefix_append a b) as H.
  destruct (a ++ b) as [|c s] eqn:E.
  - destruct a; [reflexivity | discriminate].
  - cbn [String.index]. now rewrite H.
Qed.

Lemma is_add_op_of_item lyr_url rest nm :
  is_add_op lyr_url (add_data_item (lyr_url ++ rest) nm) = Ok true.
Proof.
  unfold is_add_op, add_data_item. cbn -[String.index].
  unfold Str.find. now rewrite index_prefix.
Qed.

Lemma filter_append p l x l1 :
  Py.filter p l = Ok l1 -> p x = Ok true ->
  Py.filter p (l ++ [x])%list = Ok (l1 ++ [x])%list.
Proof.
  revert l1. induction l as [|y l IH]; intros l1 Hl Hx; simpl in *.
  - injection Hl as <-. now rewrite Hx.
  - destruct (p y) as [b|]; [|discriminate]. simpl in *.
    destruct (Py.filter p l) as [l0|]; [|discriminate]. simpl in *.
    injection Hl as <-. rewrite (IH l0 eq_refl Hx). simpl.
    now destruct b.
Qed.

(** a normal return of [add_feature_layer] leaves the model items with
    its item appended, and the attributes of [self] as they were *)
Lemma add_feature_layer_Ok_items lyr sublayer rnd self nm self' log items :
  add_feature_layer lyr sublayer rnd self = (Ok nm, self', log) ->
  model_items (props self) = Ok (VList items) ->
  model_items (props self')
  = Ok (VList (items ++ [add_data_item (url lyr ++ "/" ++ Str.of_Z sublayer)
                            nm])%list) /\
  _gis self' = _gis self /\ _workspaceURL self' = _workspaceURL self.
Proof.
  intros H Hitems.
  unfold add_feature_layer, append_model_item, append_to_page0, set_dataset
    in H.
  run_inv.
  match goal with
  | H : post_execute _ _ = _ |- _ =>
      apply post_execute_inv in H as (-> & _)
  end.
  simpl in *. split; [|auto].
  repeat match goal with
  | H : Py.at_key "workspace" _ _ = Ok _ |- _ =>
      apply workspace_edit_pages in H
  | H : Py.at_key "pages" (Py.at_index 0 (Py.at_key "contents" _)) _ = Ok _
    |- _ => apply append_to_page0_Ok in H as (_ & Hf & _)
  | H : Py.at_key "pages" (Py.at_index 0 (Py.at_key "model" _)) _ = Ok _
    |- _ => apply append_model_item_items in H as (l & Hl & Hl')
  end.
  rewrite Hitems in Hl. injection Hl as <-.
  match goal with
  | H : Py.getitem ?p3 "pages" = Py.getitem _ "pages" |- _ =>
      rewrite (model_items_of_pages _ _ H)
  end.
  rewrite model_items_of_field, Hf by discriminate.
  rewrite <- model_items_of_field. exact Hl'.
Qed.

(** the events of a guarded region whose steps after the request are
    silent are those of the request *)
Lemma guarded_log {A} post_data (k : value -> method A) (h : exn -> method A)
    self :
  (forall resp, emits (fun _ => False) (k resp)) ->
  (forall e, emits (fun _ => False) (h e)) ->
  snd (try_except (resp <- post_execute post_data ;; k resp) h self)
  = snd (post_execute post_data self).
Proof.
  intros Hk Hh.
  assert (Hnil : forall l : list event, Forall (fun _ => False) l -> l = []).
  { intros [|ev l] H; [reflexivity|]. now inversion H. }
  unfold try_except, bind.
  destruct (post_execute post_data self) as [[[resp|e] s1] l1]; simpl.
  - pose proof (Hk resp s1) as H1.
    destruct (k resp s1) as [[[a|e] s2] l2]; simpl in *.
    + now rewrite (Hnil _ H1), app_nil_r.
    + pose proof (Hh e s2) as H2.
      destruct (h e s2) as [[r s3] l3]; simpl in *.
      now rewrite (Hnil _ H1), (Hnil _ H2), !app_nil_r.
  - pose proof (Hh e s1) as H2.
    destruct (h e s1) as [[r s3] l3]; simpl in *.
    now rewrite (Hnil _ H2), app_nil_r.
Qed.

Lemma update_dataset_log lyr sublayer self items xs op0 rest nm u :
  model_items (props self) = Ok items ->
  Py.iter items = Ok xs ->
  Py.filter (is_add_op (url lyr)) xs = Ok (op0 :: rest) ->
  Py.getitem op0 "outDataset" = Ok (VStr nm) ->
  (let* params := Py.getitem op0 "params" in
   let* data := Py.getitem params "data" in
   let* v := Py.getitem data "url" in Py.as_str v) = Ok u ->
  snd (update_dataset lyr sublayer self)
  = snd (post_execute (execute_post_data u nm) self).
Proof.
  intros H1 H2 H3 H4 H5.
  rewrite <- (guarded_log (execute_post_data u nm)
                (fun resp =>
                   old_data <- read (fun p =>
                     let* entry := dataset_entry nm p in
                     Py.getitem entry "data") ;;
                   my_extent <- lift (extent lyr sublayer) ;;
                   data <- lift (Py.getitem resp nm) ;;
                   set_dataset nm (layer_entry data (id lyr) my_extent) ;;;
                   dss <- read datasets ;;
                   ks <- lift (Py.keys dss) ;;
                   for_each ks (replace_references old_data resp nm) ;;;
                   ret (VStr nm))
                (fun e =>
                   match e with
                   | HTTPError =>
                       msg <- lift (Py.str_add_exc_type
                                      "Error updating feature layer: " e) ;;
                       print msg ;;; ret VNone
                   | _ => raise e
                   end) self).
  - unfold update_dataset, bind at 1 2 3 4 5 6, read at 1, lift at 1 2 3 4 5.
    rewrite H1, H2, H3, H4, H5. simpl. unfold bind at 1. simpl.
    now destruct (try_except _ _ self) as [[r s] l].
  - intros resp. unfold replace_references, set_dataset, set_tool_dataset.
    repeat first
      [ emits_step
      | match goal with
        | |- emits _ (if ?b then _ else _) => destruct b
        | |- emits _ (match ?e with KeyError => _ | _ => _ end) => destruct e
        end ].
  - intros e. destruct e; repeat emits_step.
Qed.

Lemma after_add_feature_layer lyr sublayer rnd self r self' log :
  add_feature_layer lyr sublayer rnd self = (r, self', log) ->
  after (AddFeatureLayer lyr sublayer rnd) self = self'.
Proof. intros H. cbn [after]. now rewrite H. Qed.

Lemma update_dataset_log_of_item lyr sublayer self l1 rest u nm ws :
  model_items (props self) = Ok (VList l1) ->
  Py.filter (is_add_op (url lyr)) l1 = Ok (add_data_item u nm :: rest) ->
  _workspaceURL self = VStr ws ->
  snd (update_dataset lyr sublayer self)
  = [Post (ws ++ "/execute") (execute_post_data u nm)].
Proof.
  intros Hi Hf Hws.
  rewrite (update_dataset_log lyr sublayer self (VList l1) l1
             (add_data_item u nm) rest nm u Hi eq_refl Hf eq_refl eq_refl).
  rewrite post_execute_run, Hws. reflexivity.
Qed.

(** X15. Once [add_feature_layer] has returned a name on a workbook that
    held no add-data item for the layer's URL, [update_dataset] for that
    layer finds the item and emits exactly the request
    [add_feature_layer] sent: the same URL and the same post data, with
    the dataset name returned and the sublayer given when the layer was
    added, whatever sublayer [update_dataset] is called with and whatever
    the server answers this time. *)
Theorem update_dataset_repeats_request lyr sublayer sublayer' rnd self items
    nm self1 log :
  model_items (props self) = Ok (VList items) ->
  Py.filter (is_add_op (url lyr)) items = Ok [] ->
  add_feature_layer lyr sublayer rnd self = (Ok nm, self1, log) ->
  exists ws,
    _workspaceURL self = VStr ws /\
    log = [Post (ws ++ "/execute")
             (execute_post_data (url lyr ++ "/" ++ Str.of_Z sublayer) nm)] /\
    snd (update_dataset lyr sublayer' self1) = log.
Proof.
  intros Hi Hf H.
  destruct (add_feature_layer_Ok _ _ _ _ _ _ _ H)
    as (_ & ws & resp & data & my_extent & Hws & _ & _ & _ & Hlog & _).
  destruct (add_feature_layer_Ok_items _ _ _ _ _ _ _ _ H Hi)
    as (Hi1 & _ & Hws1).
  exists ws. split; [exact Hws|]. split; [exact Hlog|].
  rewrite Hlog.
  apply update_dataset_log_of_item
    with (l1 := (items ++ [add_data_item
                             (url lyr ++ "/" ++ Str.of_Z sublayer) nm])%list)
         (rest := []).
  - exact Hi1.
  - apply (filter_append _ _ _ [] Hf). apply is_add_op_of_item.
  - now rewrite Hws1.
Qed.

Lemma update_dataset_repeats_request_witness :
  exists ws,
    _workspaceURL Sample.empty = VStr ws /\
    snd (add_feature_layer Sample.roads 0 1715004 Sample.empty)
    = [Post (ws ++ "/execute")
         (execute_post_data (url Sample.roads ++ "/" ++ Str.of_Z 0)
            Sample.roads_dataset)] /\
    snd (update_dataset Sample.roads 3
           (after (AddFeatureLayer Sample.roads 0 1715004) Sample.empty))
    = snd (add_feature_layer Sample.roads 0 1715004 Sample.empty).
Proof.
  pose (run := add_feature_layer Sample.roads 0 1715004 Sample.empty).
  refine (update_dataset_repeats_request Sample.roads 0 3 1715004 Sample.empty
            [] Sample.roads_dataset (snd (fst run)) (snd run)
            eq_refl eq_refl _).
  vm_compute. reflexivity.
Defined.

Lemma string_append_assoc (a b c : string) : (a ++ b) ++ c = a ++ (b ++ c).
Proof. induction a as [|x a IH]; simpl; [reflexivity | now rewrite IH]. Qed.

(** X16. [update_dataset] looks the layer up by substring and takes the
    first model item whose URL contains the layer's URL.  So when a layer
    [a] whose URL begins with the URL of a layer [b] was added before
    [b], [update_dataset] for [b] sends the request of [a] again, for the
    dataset name of [a], and never the one of [b]. *)
Theorem update_dataset_takes_first_match a sa ra b sb rb sb' rest self items
    na nb self1 self2 la lb :
  model_items (props self) = Ok (VList items) ->
  Py.filter (is_add_op (url b)) items = Ok [] ->
  url a = url b ++ rest ->
  add_feature_layer a sa ra self = (Ok na, self1, la) ->
  add_feature_layer b sb rb self1 = (Ok nb, self2, lb) ->
  snd (update_dataset b sb' self2) = la /\
  exists ws,
    la = [Post (ws ++ "/execute")
            (execute_post_data (url a ++ "/" ++ Str.of_Z sa) na)].
Proof.
  intros Hi Hf Hurl Ha Hb.
  destruct (add_feature_layer_Ok _ _ _ _ _ _ _ Ha)
    as (_ & ws & resp & data & my_extent & Hws & _ & _ & _ & Hlog & _).
  destruct (add_feature_layer_Ok_items _ _ _ _ _ _ _ _ Ha Hi)
    as (Hi1 & _ & Hws1).
  destruct (add_feature_layer_Ok_items _ _ _ _ _ _ _ _ Hb Hi1)
    as (Hi2 & _ & Hws2).
  split; [|eauto]. rewrite Hlog.
  eapply update_dataset_log_of_item.
  - exact Hi2.
  - refine (filter_append _ _ _ [_] _ (is_add_op_of_item _ _ _)).
    apply (filter_append _ _ _ [] Hf).
    rewrite Hurl, string_append_assoc. apply is_add_op_of_item.
  - now rewrite Hws2, Hws1.
Qed.

Lemma update_dataset_takes_first_match_witness :
  snd (update_dataset Cases.services 0
         (after (AddFeatureLayer Cases.services 0 5)
            (after (AddFeatureLayer Sample.roads 0 1715004) Cases.empty_two)))
  = snd (add_feature_layer Sample.roads 0 1715004 Cases.empty_two).
Proof.
  pose (run1 := add_feature_layer Sample.roads 0 1715004 Cases.empty_two).
  pose (run2 := add_feature_layer Cases.services 0 5 (snd (fst run1))).
  refine (proj1 (update_dataset_takes_first_match Sample.roads 0 1715004
                   Cases.services 0 5 0 "/FeatureServer" Cases.empty_two []
                   Sample.roads_dataset "Services_0000005"
                   (snd (fst run1)) (snd (fst run2)) (snd run1) (snd run2)
                   eq_refl eq_refl eq_refl _ _));
    vm_compute; reflexivity.
Defined.

(** ** [add_map] after the methods that create a dataset *)

(** X17. The name [add_feature_layer] returns is accepted by [add_map]:
    on a page with a list of [n] cards and a list of layout entries,
    [add_map] of that name returns normally, prints nothing and appends a
    map card for that dataset with the extent read from the layer, and
    the layout entry [n]. *)
Theorem add_map_after_add_feature_layer lyr sublayer rnd self nm self1 log
    cards layout :
  page0_field "cards" (props self) = Ok (VList cards) ->
  page0_field "layout" (props self) = Ok (VList layout) ->
  add_feature_layer lyr sublayer rnd self = (Ok nm, self1, log) ->
  exists my_extent self2,
    extent lyr sublayer = Ok my_extent /\
    add_map nm self1 = (Ok tt, self2, []) /\
    page0_field "cards" (props self2)
    = Ok (VList (cards ++ [map_card (List.length cards) nm my_extent])) /\
    page0_field "layout" (props self2)
    = Ok (VList (layout ++ [layout_entry (List.length cards)])).
Proof.
  intros Hc Hl H.
  destruct (add_feature_layer_Ok _ _ _ _ _ _ _ H)
    as (_ & ws & resp & data & my_extent & _ & _ & _ & Hx & _ & Hentry).
  pose proof (after_add_feature_layer _ _ _ _ _ _ _ H) as Hafter.
  assert (Hc1 : page0_field "cards" (props self1) = Ok (VList cards)).
  { rewrite <- Hafter.
    exact (frame_after (Field "cards") _ (AddFeatureLayer lyr sublayer rnd)
             eq_refl self Hc). }
  assert (Hl1 : page0_field "layout" (props self1) = Ok (VList layout)).
  { rewrite <- Hafter.
    exact (frame_after (Field "layout") _ (AddFeatureLayer lyr sublayer rnd)
             eq_refl self Hl). }
  destruct (add_map_places_card nm self1 cards layout _ my_extent Hc1 Hl1
              Hentry eq_refl eq_refl) as (self2 & ? & ? & ?).
  exists my_extent, self2. auto.
Qed.

Lemma add_map_after_add_feature_layer_witness :
  exists my_extent self2,
    extent Sample.roads 0 = Ok my_extent /\
    add_map Sample.roads_dataset
      (after (AddFeatureLayer Sample.roads 0 1715004) Sample.empty)
    = (Ok tt, self2, []) /\
    page0_field "cards" (props self2)
    = Ok (VList [map_card 0 Sample.roads_dataset my_extent]) /\
    page0_field "layout" (props self2) = Ok (VList [layout_entry 0]).
Proof.
  pose (run := add_feature_layer Sample.roads 0 1715004 Sample.empty).
  refine (add_map_after_add_feature_layer Sample.roads 0 1715004 Sample.empty
            Sample.roads_dataset (snd (fst run)) (snd run) [] []
            eq_refl eq_refl _).
  vm_compute. reflexivity.
Defined.

(** X18. The name [aggregate] returns is not accepted by [add_map]: the
    entry [aggregate] stores has no [extent], so on a page with a list of
    cards [add_map] of that name raises [KeyError], prints nothing and
    leaves the object as it was. *)
Theorem add_map_of_aggregate_raises in_dataset groupby_field
    groupby_field_type stat_type stat_field stat_field_type out_name rnd self
    out self1 log cards :
  page0_field "cards" (props self) = Ok (VList cards) ->
  aggregate in_dataset groupby_field groupby_field_type stat_type stat_field
    stat_field_type out_name rnd self = (Ok out, self1, log) ->
  add_map out self1 = (Raise KeyError, self1, []).
Proof.
  intros Hc H.
  apply aggregate_inv in H as (_ & Hf & _ & Hok).
  destruct (Hok out eq_refl) as (_ & entry & in_data_id & _ & _ & Hentry).
  unfold add_map, bind, read, lift, page0_cards.
  rewrite Hentry. simpl. rewrite Hf by discriminate. rewrite Hc. simpl.
  rewrite Hentry. reflexivity.
Qed.

Lemma add_map_of_aggregate_raises_witness :
  add_map "Roads_0000011" Cases.with_aggregate
  = (Raise KeyError, Cases.with_aggregate, []).
Proof.
  pose (run := aggregate Sample.roads_dataset "kind" "esriFieldTypeString"
                 "avg" "LEN" "esriFieldTypeDouble" VNone 17
                 Sample.with_roads).
  refine (add_map_of_aggregate_raises Sample.roads_dataset "kind"
            "esriFieldTypeString" "avg" "LEN" "esriFieldTypeDouble" VNone 17
            Sample.with_roads "Roads_0000011" (snd (fst run)) (snd run) []
            eq_refl _).
  vm_compute. reflexivity.
Defined.

(** ** [add_chart], outcome by outcome *)

Lemma chart_title_truthy a b : Py.truthy (VStr (a ++ " Chart " ++ b)) = true.
Proof. now destruct a. Qed.

Section AddChartOutcome.

Variables chart_type in_dataset groupby_field groupby_field_type stat_type
  stat_field stat_field_type : string.
Variable rnd : N.
Variable self : InsightsWorkbook.
Variables items cards layout : list value.
Variable d : Dict.t.

Hypothesis Hitems : model_items (props self) = Ok (VList items).
Hypothesis Hdatasets : datasets (props self) = Ok (VDict d).
Hypothesis Hcards : page0_field "cards" (props self) = Ok (VList cards).
Hypothesis Hlayout : page0_field "layout" (props self) = Ok (VList layout).

Let n := List.length cards.
Let out_dataset := out_dataset_name in_dataset rnd.
Let out_field := out_field_name stat_field stat_type.
Let chart_title :=
  Str.title chart_type ++ " Chart " ++ Str.of_Z (Z.of_nat n + 1).
Let item :=
  aggregate_item in_dataset groupby_field stat_type stat_field out_field
    out_dataset.

Lemma add_chart_places_card entry in_data_id :
  Dict.get in_dataset d = Some entry ->
  Py.getitem entry "data" = Ok in_data_id ->
  exists self',
    add_chart chart_type in_dataset groupby_field groupby_field_type
      stat_type stat_field stat_field_type rnd self = (Ok tt, self', []) /\
    page0_field "cards" (props self')
    = Ok (VList (cards ++ [chart_card n chart_type out_dataset])) /\
    page0_field "layout" (props self')
    = Ok (VList (layout ++ [layout_entry n])) /\
    model_items (props self') = Ok (VList (items ++ [item])) /\
    datasets (props self')
    = Ok (VDict (Dict.set out_dataset
                   (aggregate_entry in_data_id (VStr chart_title) in_dataset
                      groupby_field groupby_field_type stat_type stat_field
                      out_field (out_field_type stat_type stat_field_type)
                      out_dataset)
                   d)).
Proof.
  intros Hentry Hdata.
  destruct (aggregate_stores in_dataset groupby_field groupby_field_type
              stat_type stat_field stat_field_type (VStr chart_title) rnd
              self items d Hitems Hdatasets entry in_data_id Hentry Hdata)
    as (self1 & Hrun & Hi1 & Hd1).
  unfold chart_title in Hd1 at 1. rewrite chart_title_truthy in Hd1.
  cbn [negb] in Hd1. fold chart_title in Hd1.
  pose proof (aggregate_inv _ _ _ _ _ _ _ _ _ _ _ _ Hrun) as (_ & Hf & _).
  assert (Hc1 : page0_field "cards" (props self1) = Ok (VList cards))
    by (rewrite Hf; [exact Hcards | discriminate]).
  assert (Hl1 : page0_field "layout" (props self1) = Ok (VList layout))
    by (rewrite Hf; [exact Hlayout | discriminate]).
  destruct (append_to_page0_total "cards"
              (chart_card n chart_type out_dataset) _ _ Hc1) as (p2 & E2).
  pose proof (append_to_page0_Ok _ _ _ _ E2) as ((c2 & Hc2 & Hc2') & Hf2 & Hk2).
  rewrite Hc1 in Hc2. injection Hc2 as <-.
  assert (Hl2 : page0_field "layout" p2 = Ok (VList layout))
    by (rewrite Hf2; [exact Hl1 | discriminate]).
  destruct (append_to_page0_total "layout" (layout_entry n) _ _ Hl2)
    as (p3 & E3).
  pose proof (append_to_page0_Ok _ _ _ _ E3) as ((l3 & Hl3 & Hl3') & Hf3 & Hk3).
  rewrite Hl2 in Hl3. injection Hl3 as <-.
  exists (with_props (with_props self1 p2) p3). repeat split.
  - unfold add_chart, bind at 1 2 3, read at 1, lift at 1, page0_cards.
    rewrite Hcards. cbn [Py.len rbind]. fold n chart_title.
    rewrite Hrun. fold out_dataset. unfold append_to_page0, bind, edit.
    rewrite E2. cbn [props with_props]. rewrite E3. reflexivity.
  - cbn [props with_props]. rewrite Hf3; [exact Hc2' | discriminate].
  - exact Hl3'.
  - cbn [props with_props].
    rewrite model_items_of_field, Hf3, Hf2 by discriminate.
    rewrite <- model_items_of_field. exact Hi1.
  - cbn [props with_props].
    rewrite (datasets_of_workspace _ _ (Hk3 "workspace" ltac:(discriminate))).
    rewrite (datasets_of_workspace _ _ (Hk2 "workspace" ltac:(discriminate))).
    exact Hd1.
Qed.

Lemma add_chart_leaves_item e :
  (let* entry := Py.getitem (VDict d) in_dataset in Py.getitem entry "data")
  = Raise e ->
  exists self',
    add_chart chart_type in_dataset groupby_field groupby_field_type
      stat_type stat_field stat_field_type rnd self = (Raise e, self', []) /\
    page0_field "cards" (props self') = Ok (VList cards) /\
    page0_field "layout" (props self') = Ok (VList layout) /\
    model_items (props self') = Ok (VList (items ++ [item])) /\
    datasets (props self') = Ok (VDict d).
Proof.
  intros Hfail.
  destruct (aggregate_leaves_item in_dataset groupby_field groupby_field_type
              stat_type stat_field stat_field_type (VStr chart_title) rnd
              self items d Hitems Hdatasets e Hfail)
    as (self1 & Hrun & Hi1 & Hd1 & _).
  pose proof (aggregate_inv _ _ _ _ _ _ _ _ _ _ _ _ Hrun) as (_ & Hf & _).
  exists self1. repeat split; auto.
  - unfold add_chart, bind at 1 2 3, read at 1, lift at 1, page0_cards.
    rewrite Hcards. cbn [Py.len rbind]. fold n chart_title.
    rewrite Hrun. reflexivity.
  - rewrite Hf; [exact Hcards | discriminate].
  - rewrite Hf; [exact Hlayout | discriminate].
Qed.

End AddChartOutcome.

(** X19. On a document with lists of model items, of [n] cards and of
    layout entries and a dictionary of datasets, [add_chart] with an input
    dataset that is there and has [data] returns normally and prints
    nothing: it appends the aggregation's model item, stores the
    aggregation entry under the new name with the title
    "<Chart type> Chart n+1" as its [name], and appends one chart card for
    the new dataset and the layout entry [n].  When the lookup of the input
    dataset fails, it raises the lookup's error after the model item was
    appended: no dataset is stored and no card or layout entry is added. *)
Theorem add_chart_outcome chart_type in_dataset groupby_field
    groupby_field_type stat_type stat_field stat_field_type rnd self items
    cards layout d :
  model_items (props self) = Ok (VList items) ->
  datasets (props self) = Ok (VDict d) ->
  page0_field "cards" (props self) = Ok (VList cards) ->
  page0_field "layout" (props self) = Ok (VList layout) ->
  let n := List.length cards in
  let out_dataset := out_dataset_name in_dataset rnd in
  let out_field := out_field_name stat_field stat_type in
  let chart_title :=
    Str.title chart_type ++ " Chart " ++ Str.of_Z (Z.of_nat n + 1) in
  let item :=
    aggregate_item in_dataset groupby_field stat_type stat_field out_field
      out_dataset in
  let run :=
    add_chart chart_type in_dataset groupby_field groupby_field_type
      stat_type stat_field stat_field_type rnd self in
  (forall entry in_data_id,
     Dict.get in_dataset d = Some entry ->
     Py.getitem entry "data" = Ok in_data_id ->
     exists self',
       run = (Ok tt, self', []) /\
       page0_field "cards" (props self')
       = Ok (VList (cards ++ [chart_card n chart_type out_dataset])) /\
       page0_field "layout" (props self')
       = Ok (VList (layout ++ [layout_entry n])) /\
       model_items (props self') = Ok (VList (items ++ [item])) /\
       datasets (props self')
       = Ok (VDict (Dict.set out_dataset
                      (aggregate_entry in_data_id (VStr chart_title)
                         in_dataset groupby_field groupby_field_type
                         stat_type stat_field out_field
                         (out_field_type stat_type stat_field_type)
                         out_dataset)
                      d))) /\
  (forall e,
     (let* entry := Py.getitem (VDict d) in_dataset in
      Py.getitem entry "data") = Raise e ->
     exists self',
       run = (Raise e, self', []) /\
       page0_field "cards" (props self') = Ok (VList cards) /\
       page0_field "layout" (props self') = Ok (VList layout) /\
       model_items (props self') = Ok (VList (items ++ [item])) /\
       datasets (props self') = Ok (VDict d)).
Proof.
  intros Hi Hd Hc Hl. cbv zeta. split.
  - intros entry in_data_id. now apply add_chart_places_card.
  - intros e. now apply add_chart_leaves_item.
Qed.

Lemma add_chart_outcome_witness :
  (exists self',
     add_chart "bar" Sample.roads_dataset "kind" "esriFieldTypeString" "avg"
       "LEN" "esriFieldTypeDouble" 17 Sample.with_roads = (Ok tt, self', []) /\
     page0_field "cards" (props self')
     = Ok (VList [chart_card 0 "bar" "Roads_0000011"]) /\
     page0_field "layout" (props self') = Ok (VList [layout_entry 0])) /\
  (exists self',
     add_chart "bar" "Rivers_0000001" "kind" "esriFieldTypeString" "avg"
       "LEN" "esriFieldTypeDouble" 17 Sample.with_roads
     = (Raise KeyError, self', []) /\
     page0_field "cards" (props self') = Ok (VList []) /\
     page0_field "layout" (props self') = Ok (VList [])).
Proof.
  split.
  - destruct (proj1 (add_chart_outcome "bar" Sample.roads_dataset "kind"
                       "esriFieldTypeString" "avg" "LEN" "esriFieldTypeDouble"
                       17 Sample.with_roads [Sample.roads_item] [] []
                       [(Sample.roads_dataset,
                         layer_entry (VStr "data-1") "f00d" Sample.box)]
                       eq_refl eq_refl eq_refl eq_refl)
                (layer_entry (VStr "data-1") "f00d" Sample.box)
                (VStr "data-1") eq_refl eq_refl)
      as (self' & H1 & H2 & H3 & _).
    exists self'. auto.
  - destruct (proj2 (add_chart_outcome "bar" "Rivers_0000001" "kind"
                       "esriFieldTypeString" "avg" "LEN" "esriFieldTypeDouble"
                       17 Sample.with_roads [Sample.roads_item] [] []
                       [(Sample.roads_dataset,
                         layer_entry (VStr "data-1") "f00d" Sample.box)]
                       eq_refl eq_refl eq_refl eq_refl)
                KeyError eq_refl)
      as (self' & H1 & H2 & H3 & _).
    exists self'. auto.
Defined.
